(** * Serverless image management system: the Lambda handlers, embedded

    A shallow embedding of the Python handlers under [src/lambda]:
    [s3_event_handler], [orchestrator], [validation], [resize],
    [watermark], [image_retrieval] and [upload_handler].  Handlers are functions in a
    state-and-exception monad over one [world] that holds what the AWS
    services remember (queue, started executions, status table, objects
    written) together with the requests that were sent to them.  What the
    services answer (faults, stored objects), the clock, and the library
    calls the handlers make (json, hashlib, imghdr, Pillow) are
    section variables. *)

From Stdlib Require Import ZArith QArith Qround Qpower Qfield Lqa Ascii Strings.Byte.
From stdpp Require Import gmap strings list pretty.

Open Scope Z_scope.

#[local] Set Warnings "-register-all,-clear-no-such-hyp".

(** ** Python strings *)

Module Str.

(** [s.split(sep)] for a one-character separator: never empty, keeps
    empty fields. *)
Fixpoint split (sep : ascii) (s : string) : list string :=
  match s with
  | EmptyString => [EmptyString]
  | String c s' =>
      if Ascii.eqb c sep then EmptyString :: split sep s'
      else match split sep s' with
           | [] => [String c EmptyString]
           | p :: ps => String c p :: ps
           end
  end.

(** [c in s] *)
Fixpoint contains (c : ascii) (s : string) : bool :=
  match s with
  | EmptyString => false
  | String d s' => Ascii.eqb d c || contains c s'
  end.

(** [s.startswith(p)] *)
Fixpoint startswith (p s : string) : bool :=
  match p, s with
  | EmptyString, _ => true
  | String a p', String b s' => Ascii.eqb a b && startswith p' s'
  | String _ _, EmptyString => false
  end.

(** [s[:n]] *)
Fixpoint take (n : nat) (s : string) : string :=
  match n, s with
  | O, _ => EmptyString
  | S n', String c s' => String c (take n' s')
  | S _, EmptyString => EmptyString
  end.

(** [s.lower()] and [s.upper()] on ASCII letters *)
Definition lower_ascii (c : ascii) : ascii :=
  let n := nat_of_ascii c in
  if (65 <=? n)%nat && (n <=? 90)%nat then ascii_of_nat (n + 32) else c.
Definition upper_ascii (c : ascii) : ascii :=
  let n := nat_of_ascii c in
  if (97 <=? n)%nat && (n <=? 122)%nat then ascii_of_nat (n - 32) else c.
Fixpoint map (f : ascii → ascii) (s : string) : string :=
  match s with
  | EmptyString => EmptyString
  | String c s' => String (f c) (map f s')
  end.
Definition lower := map lower_ascii.
Definition upper := map upper_ascii.

(** [s.rfind(c)]: index of the last occurrence, [-1] when there is none *)
Fixpoint rfind (c : ascii) (s : string) : Z :=
  match s with
  | EmptyString => -1
  | String d s' =>
      let r := rfind c s' in
      if 0 <=? r then r + 1 else if Ascii.eqb d c then 0 else -1
  end.

(** [s[n:]] *)
Fixpoint drop (n : nat) (s : string) : string :=
  match n, s with
  | O, _ => s
  | S n', String _ s' => drop n' s'
  | S _, EmptyString => EmptyString
  end.

(** [s[i:j]] for [0 <= i] *)
Definition slice (i j : Z) (s : string) : string :=
  take (Z.to_nat (j - i)) (drop (Z.to_nat i) s).

Fixpoint all_dots (s : string) : bool :=
  match s with
  | EmptyString => true
  | String c s' => Ascii.eqb c "." && all_dots s'
  end.

(** [os.path.splitext(p)[0]] (posixpath, [genericpath._splitext]): the
    extension starts at the last dot, when that dot comes after the last
    slash and some character between the two is not a dot. *)
Definition splitext_root (p : string) : string :=
  let sepIndex := rfind "/" p in
  let dotIndex := rfind "." p in
  if (sepIndex <? dotIndex) && negb (all_dots (slice (sepIndex + 1) dotIndex p))
  then slice 0 dotIndex p
  else p.

End Str.

#[global] Instance byte_eq_dec : EqDecision byte := Byte.byte_eq_dec.

(** ** Python values that come from JSON *)

Inductive json :=
| JNull
| JBool (b : bool)
| JNum (z : Z)
| JStr (s : string)
| JArr (l : list json)
| JObj (fields : list (string * json)).

Fixpoint assoc {A} (k : string) (l : list (string * A)) : option A :=
  match l with
  | [] => None
  | (k', v) :: l' => if String.eqb k k' then Some v else assoc k l'
  end.

(** ** Exceptions and outcomes *)

Inductive exn :=
| KeyError (key : string)
| TypeError (msg : string)
| AttributeError (msg : string)
| ZeroDivisionError
| JSONDecodeError
| ClientError (code : string)
| Exception (msg : string).

Inductive outcome (A : Type) :=
| Returned (a : A)
| Raised (e : exn).
Arguments Returned {A} a.
Arguments Raised {A} e.

(** ** The services *)

(** DynamoDB attribute values: [{'S': ..}], [{'L': ..}], [{'M': ..}] *)
Inductive attr :=
| AttrS (s : string)
| AttrL (l : list attr)
| AttrM (m : list (string * attr)).

Record sqs_message := {
  MessageBody : string;
  MessageAttributes : list (string * string)
}.

Record execution := {
  exec_name : string;
  exec_input : string
}.

Record put_request := {
  put_Bucket : option string;
  put_Key : string;
  put_Body : list byte;
  put_ContentType : string;
  put_Metadata : list (string * string)
}.

Record world := {
  clock : nat;                                   (* reads of the clock so far *)
  sqs_queue : list sqs_message;                  (* messages accepted by the queue *)
  sfn_executions : list execution;               (* workflow runs started *)
  ddb_table : gmap string (gmap string attr);    (* status table, by image_id key *)
  ddb_requests : list (string * list (string * attr)); (* key and SET list of every update_item sent *)
  s3_get_requests : list (option string * string); (* (Bucket, Key) of every get_object sent *)
  s3_puts : list put_request                     (* objects written *)
}.

Definition world0 : world :=
  {| clock := 0%nat; sqs_queue := []; sfn_executions := []; ddb_table := ∅;
     ddb_requests := []; s3_get_requests := []; s3_puts := [] |}.

Definition tick (w : world) : world :=
  {| clock := S (clock w); sqs_queue := sqs_queue w;
     sfn_executions := sfn_executions w; ddb_table := ddb_table w;
     ddb_requests := ddb_requests w; s3_get_requests := s3_get_requests w;
     s3_puts := s3_puts w |}.

Definition enqueue (m : sqs_message) (w : world) : world :=
  {| clock := clock w; sqs_queue := sqs_queue w ++ [m];
     sfn_executions := sfn_executions w; ddb_table := ddb_table w;
     ddb_requests := ddb_requests w; s3_get_requests := s3_get_requests w;
     s3_puts := s3_puts w |}.

Definition started (x : execution) (w : world) : world :=
  {| clock := clock w; sqs_queue := sqs_queue w;
     sfn_executions := sfn_executions w ++ [x]; ddb_table := ddb_table w;
     ddb_requests := ddb_requests w; s3_get_requests := s3_get_requests w;
     s3_puts := s3_puts w |}.

(** An [update_item] request for [key] reached the table service. *)
Definition requested (key : string) (sets : list (string * attr)) (w : world) : world :=
  {| clock := clock w; sqs_queue := sqs_queue w;
     sfn_executions := sfn_executions w; ddb_table := ddb_table w;
     ddb_requests := ddb_requests w ++ [(key, sets)]; s3_get_requests := s3_get_requests w;
     s3_puts := s3_puts w |}.

(** [SET a1 = v1, ...] on the item under [key], created when absent. *)
Definition set_attrs (key : string) (sets : list (string * attr)) (w : world) : world :=
  let item := default {[ "image_id" := AttrS key ]} (ddb_table w !! key) in
  {| clock := clock w; sqs_queue := sqs_queue w;
     sfn_executions := sfn_executions w;
     ddb_table := <[ key := foldl (λ m kv, <[ kv.1 := kv.2 ]> m) item sets ]> (ddb_table w);
     ddb_requests := ddb_requests w; s3_get_requests := s3_get_requests w;
     s3_puts := s3_puts w |}.

Definition got (bucket : option string) (key : string) (w : world) : world :=
  {| clock := clock w; sqs_queue := sqs_queue w;
     sfn_executions := sfn_executions w; ddb_table := ddb_table w;
     ddb_requests := ddb_requests w;
     s3_get_requests := s3_get_requests w ++ [(bucket, key)];
     s3_puts := s3_puts w |}.

Definition stored (r : put_request) (w : world) : world :=
  {| clock := clock w; sqs_queue := sqs_queue w;
     sfn_executions := sfn_executions w; ddb_table := ddb_table w;
     ddb_requests := ddb_requests w; s3_get_requests := s3_get_requests w;
     s3_puts := s3_puts w ++ [r] |}.

(** ** The handler monad: state of the services, and exceptions *)

Definition py (A : Type) : Type := world → outcome A * world.

Global Instance py_ret : MRet py := λ A a w, (Returned a, w).
Global Instance py_bind : MBind py := λ A B f m w,
  match m w with
  | (Returned a, w') => f a w'
  | (Raised e, w') => (Raised e, w')
  end.

Definition raise {A} (e : exn) : py A := λ w, (Raised e, w).

(** [try: m except Exception as e: h e] *)
Definition try_except {A} (m : py A) (h : exn → py A) : py A := λ w,
  match m w with
  | (Returned a, w') => (Returned a, w')
  | (Raised e, w') => h e w'
  end.

Definition lift {A} (o : outcome A) : py A := λ w, (o, w).

(** [d[k]] on a dict given by its items *)
Definition getitem {A} (d : list (string * A)) (k : string) : py A :=
  match assoc k d with
  | Some v => mret v
  | None => raise (KeyError k)
  end.

(** [for x in l: body x] *)
Fixpoint for_each {A} (l : list A) (body : A → py ()) : py () :=
  match l with
  | [] => mret ()
  | x :: l' => body x ;; for_each l' body
  end.

(** The dict a Lambda [main] returns: [body] is the [json.dumps] of the
    payload; [headers] is empty for the handlers that set none. *)
Record response := {
  statusCode : Z;
  headers : list (string * string);
  body : string
}.

(** [str(e)] *)
Definition exn_str (e : exn) : string :=
  match e with
  | KeyError k => "'" +:+ k +:+ "'"
  | TypeError msg => msg
  | AttributeError msg => msg
  | ZeroDivisionError => "division by zero"
  | JSONDecodeError => "Expecting value: line 1 column 1 (char 0)"
  | ClientError code => "An error occurred (" +:+ code +:+ ")"
  | Exception msg => msg
  end.

(** ** s3_event_handler/main.py *)

Module S3EventHandler.

(** An S3 notification record.  [record['eventName']], the bucket name
    and the object key are read before anything else; the object size
    and [record['eventTime']] are read only when a message is built. *)
Record s3_record := {
  eventName : string;
  eventTime : option string;
  s3_bucket_name : string;
  s3_object_key : string;
  s3_object_size : option Z
}.

Record user_info := {
  user_id : string;
  filename : string
}.

Definition extract_user_info_from_key (object_key : string) : option user_info :=
  let parts := Str.split "/" object_key in
  match parts with
  | [p0; p1; p2] =>
      if negb (String.eqb p0 "uploads") then None
      else
        let user_id := p1 in
        let filename := p2 in
        if String.eqb user_id "" then None
        else Some {| user_id := user_id; filename := filename |}
  | _ => None
  end.

Section Handler.
Variable isoformat : nat → string.            (* datetime.utcnow().isoformat() *)
Variable json_dumps : json → string.
Variable sqs_fault : world → sqs_message → option exn.  (* SQS refusing a send *)

Definition utcnow : py string := λ w, (Returned (isoformat (clock w)), tick w).

Definition sqs_send_message (m : sqs_message) : py () := λ w,
  match sqs_fault w m with
  | Some e => (Raised e, w)
  | None => (Returned (), enqueue m w)
  end.

Definition send_sqs_message (message_body : list (string * json)) : py () :=
  try_except
    (uid ← getitem message_body "user_id";
     iid ← getitem message_body "image_id";
     match uid, iid with
     | JStr uid, JStr iid =>
         let message_attributes :=
           [("MessageType", "ImageUploadEvent"); ("UserId", uid); ("ImageId", iid)] in
         sqs_send_message {| MessageBody := json_dumps (JObj message_body);
                             MessageAttributes := message_attributes |}
     | _, _ => raise (TypeError "StringValue must be a string")
     end)
    (λ e, raise e).

Definition build_message (record : s3_record) (info : user_info)
    (size : Z) (event_time now : string) : list (string * json) :=
  [("image_id", JStr (s3_object_key record));
   ("bucket_name", JStr (s3_bucket_name record));
   ("user_id", JStr (user_id info));
   ("user_email", JStr "unknown");
   ("file_size", JNum size);
   ("event_timestamp", JStr event_time);
   ("event_name", JStr (eventName record));
   ("upload_timestamp", JStr now);
   ("original_filename", JStr (filename info))].

Definition process_s3_event (record : s3_record) : py () :=
  try_except
    (let bucket_name := s3_bucket_name record in
     let object_key := s3_object_key record in
     let event_name := eventName record in
     if negb (Str.startswith "ObjectCreated" event_name) then mret ()
     else
       match extract_user_info_from_key object_key with
       | None => mret ()
       | Some info =>
           size ← match s3_object_size record with
                  | Some n => mret n
                  | None => raise (KeyError "size")
                  end;
           event_time ← match eventTime record with
                        | Some t => mret t
                        | None => raise (KeyError "eventTime")
                        end;
           now ← utcnow;
           send_sqs_message (build_message record info size event_time now)
       end)
    (λ e, raise e).

Definition main (records : list s3_record) : py response :=
  try_except
    (for_each records process_s3_event ;;
     mret {| statusCode := 200; headers := [];
             body := json_dumps (JObj [("message", JStr "S3 events processed successfully")]) |})
    (λ e, mret {| statusCode := 500; headers := [];
                  body := json_dumps (JObj [("error", JStr "Internal server error")]) |}).

End Handler.

End S3EventHandler.

(** ** orchestrator/main.py *)

Module Orchestrator.

(** One SQS record of the event; only [record['body']] decides anything. *)
Record sqs_record := {
  messageId : string;
  receiptHandle : string;
  record_body : string
}.

(** [d[k]] on a parsed JSON value: only an object can be indexed by a
    string. *)
Definition subscript (d : json) (k : string) : py json :=
  match d with
  | JObj fields => getitem fields k
  | _ => raise (TypeError "indices must be integers")
  end.

(** [d.get(k, dflt)] on a dict *)
Definition dict_get (d : json) (k : string) (dflt : json) : json :=
  match d with
  | JObj fields => default dflt (assoc k fields)
  | _ => dflt
  end.

(** [x[:8]] on a JSON value: strings and lists can be sliced. *)
Definition slice8 (x : json) : py json :=
  match x with
  | JStr s => mret (JStr (Str.take 8 s))
  | JArr l => mret (JArr (take 8 l))
  | _ => raise (TypeError "object is not subscriptable")
  end.

Section Handler.
Variable isoformat : nat → string.          (* datetime.utcnow().isoformat() *)
Variable timestamp : nat → Z.               (* int(datetime.utcnow().timestamp()) *)
Variable json_loads : string → option json. (* None: JSONDecodeError *)
Variable json_dumps : json → string.
Variable py_repr : json → string.           (* how an f-string shows a value that is not a str *)
Variable md5_hexdigest : string → string.
Variable sfn_response : world → execution → outcome string.  (* executionArn, or the engine refusing *)
Variable ddb_fault : world → string → option exn.            (* the table refusing an update *)

Definition utcnow : py string := λ w, (Returned (isoformat (clock w)), tick w).
Definition utcnow_timestamp : py Z := λ w, (Returned (timestamp (clock w)), tick w).

Definition format_value (x : json) : string :=
  match x with
  | JStr s => s
  | _ => py_repr x
  end.

Definition start_execution (x : execution) : py string := λ w,
  match sfn_response w x with
  | Returned arn => (Returned arn, started x w)
  | Raised e => (Raised e, w)
  end.

Definition update_item (key : string) (sets : list (string * attr)) : py () := λ w,
  match ddb_fault w key with
  | Some e => (Raised e, requested key sets w)
  | None => (Returned (), set_attrs key sets (requested key sets w))
  end.

Definition start_workflow (workflow_input : list (string * json)) : py string :=
  try_except
    (ts ← utcnow_timestamp;
     image_id ← getitem workflow_input "image_id";
     user_id ← getitem workflow_input "user_id";
     image_hash ← match image_id with
                  | JStr s => mret (Str.take 8 (md5_hexdigest s))
                  | _ => raise (AttributeError "object has no attribute 'encode'")
                  end;
     user_prefix ← slice8 user_id;
     let execution_name :=
       "img-" +:+ format_value user_prefix +:+ "-" +:+ image_hash +:+ "-" +:+ pretty ts in
     let workflow_input_json := json_dumps (JObj workflow_input) in
     start_execution {| exec_name := execution_name; exec_input := workflow_input_json |})
    (λ e, raise e).

Definition update_dynamodb_status (image_id : json) (user_id : json) (status : string)
    (execution_arn : option string) : py () :=
  try_except
    (now ← utcnow;
     let sets := [("status", AttrS status); ("updated_at", AttrS now)] in
     let sets := match execution_arn with
                 | Some arn => if String.eqb arn "" then sets
                               else sets ++ [("execution_arn", AttrS arn)]
                 | None => sets
                 end in
     match image_id with
     | JStr key => update_item key sets
     | _ => raise (Exception "ParamValidationError")
     end)
    (λ e, mret ()).

Definition process_sqs_message (record : sqs_record) : py () :=
  try_except
    (message_body ← match json_loads (record_body record) with
                    | Some j => mret j
                    | None => raise JSONDecodeError
                    end;
     image_id ← subscript message_body "image_id";
     bucket_name ← subscript message_body "bucket_name";
     user_id ← subscript message_body "user_id";
     let user_email := dict_get message_body "user_email" (JStr "unknown") in
     upload_timestamp ← subscript message_body "upload_timestamp";
     let original_filename := dict_get message_body "original_filename" (JStr "unknown") in
     file_size ← subscript message_body "file_size";
     now ← utcnow;
     let workflow_input :=
       [("image_id", image_id); ("bucket_name", bucket_name); ("user_id", user_id);
        ("user_email", user_email); ("upload_timestamp", upload_timestamp);
        ("original_filename", original_filename); ("file_size", file_size);
        ("processing_start_time", JStr now); ("status", JStr "processing")] in
     execution_arn ← start_workflow workflow_input;
     update_dynamodb_status image_id user_id "processing" (Some execution_arn))
    (λ e, raise e).

Definition main (records : list sqs_record) : py response :=
  try_except
    (for_each records process_sqs_message ;;
     mret {| statusCode := 200; headers := [];
             body := json_dumps (JObj [("message", JStr "SQS messages processed successfully")]) |})
    (λ e, mret {| statusCode := 500; headers := [];
                  body := json_dumps (JObj [("error", JStr "Internal server error")]) |}).

End Handler.

End Orchestrator.

(** ** validation/main.py *)

Module Validation.

Definition MAX_FILE_SIZE : Z := 10 * 1024 * 1024.
Definition ALLOWED_FORMATS : list string := ["jpeg"; "jpg"; "png"; "gif"].

(** [len(data)] *)
Definition len (data : list byte) : Z := Z.of_nat (length data).

(** [data[-n:]] *)
Definition last_n (n : nat) (data : list byte) : list byte :=
  drop (length data - n) data.

Definition JPEG_SOI : list byte := [xff; xd8].
Definition JPEG_EOI : list byte := [xff; xd9].
Definition PNG_SIGNATURE : list byte := [x89; x50; x4e; x47; x0d; x0a; x1a; x0a].
Definition GIF87a : list byte := [x47; x49; x46; x38; x37; x61].
Definition GIF89a : list byte := [x47; x49; x46; x38; x39; x61].

Definition bytes_eqb (a b : list byte) : bool := bool_decide (a = b).

Definition validate_image_headers (image_data : list byte) (format_type : string) : bool :=
  if bool_decide (image_data = []) || (len image_data <? 8) then false
  else if bool_decide (format_type ∈ ["jpeg"; "jpg"]) then
    bytes_eqb (take 2 image_data) JPEG_SOI && bytes_eqb (last_n 2 image_data) JPEG_EOI
  else if String.eqb format_type "png" then
    bytes_eqb (take 8 image_data) PNG_SIGNATURE
  else if String.eqb format_type "gif" then
    bool_decide (take 6 image_data ∈ [GIF87a; GIF89a])
  else true.

Record image_info := {
  info_format : string;
  size_bytes : Z;
  dimensions_validated : bool
}.

(** The dict [validate_image] returns: [{'is_valid': True, 'image_info': ..}]
    or [{'is_valid': False, 'error': ..}]. *)
Inductive validation_result :=
| Valid (info : image_info)
| Invalid (error : string).

Definition is_valid (r : validation_result) : bool :=
  match r with Valid _ => true | Invalid _ => false end.

Definition result_json (r : validation_result) : json :=
  match r with
  | Valid info =>
      JObj [("is_valid", JBool true);
            ("image_info", JObj [("format", JStr (info_format info));
                                 ("size_bytes", JNum (size_bytes info));
                                 ("dimensions_validated", JBool (dimensions_validated info))])]
  | Invalid error => JObj [("is_valid", JBool false); ("error", JStr error)]
  end.

(** [str(ALLOWED_FORMATS)] *)
Definition ALLOWED_FORMATS_str : string := "['jpeg', 'jpg', 'png', 'gif']".

(** The run context of the stage; [None]: the key is absent. *)
Record event := {
  image_id : option string;
  bucket_name : option string;
  user_id : option string;
  user_email : option string
}.

(** What [main] returns to the workflow engine. *)
Record stage_result := {
  res_statusCode : Z;
  res_image_id : string;
  res_validation_result : validation_result;
  res_status : string
}.

Section Handler.
Variable isoformat : nat → string.
Variable json_dumps : json → string.
Variable imghdr_what : list byte → option string.   (* imghdr.what(None, h=data) *)
Variable s3_object : world → string → string → outcome (list byte).  (* get_object(Bucket, Key) *)
Variable ddb_fault : world → string → option exn.

Definition utcnow : py string := λ w, (Returned (isoformat (clock w)), tick w).

Definition update_item (key : string) (sets : list (string * attr)) : py () := λ w,
  match ddb_fault w key with
  | Some e => (Raised e, requested key sets w)
  | None => (Returned (), set_attrs key sets (requested key sets w))
  end.

(** Both [except] branches of [download_image] return [None]. *)
Definition download_image (bucket_name image_id : string) : py (option (list byte)) := λ w,
  match s3_object w bucket_name image_id with
  | Returned image_data => (Returned (Some image_data), got (Some bucket_name) image_id w)
  | Raised _ => (Returned None, got (Some bucket_name) image_id w)
  end.

Definition validate_image (image_data : list byte) (image_id : string) : validation_result :=
  let file_size := len image_data in
  if MAX_FILE_SIZE <? file_size then
    Invalid ("File size " +:+ pretty file_size +:+ " exceeds maximum allowed size "
             +:+ pretty MAX_FILE_SIZE)
  else
    let image_format := imghdr_what image_data in
    match image_format with
    | None =>
        Invalid ("Invalid file format: None. Allowed formats: " +:+ ALLOWED_FORMATS_str)
    | Some fmt =>
        if String.eqb fmt "" || negb (bool_decide (Str.lower fmt ∈ ALLOWED_FORMATS)) then
          Invalid ("Invalid file format: " +:+ fmt +:+ ". Allowed formats: "
                   +:+ ALLOWED_FORMATS_str)
        else if negb (validate_image_headers image_data fmt) then
          Invalid ("Invalid image file header for format: " +:+ fmt)
        else
          Valid {| info_format := fmt; size_bytes := file_size;
                   dimensions_validated := false |}
    end.

Definition update_validation_status (image_id status : string) (validation_result : json)
    : py () :=
  try_except
    (let dumped := json_dumps validation_result in
     now ← utcnow;
     update_item image_id
       [("status", AttrS status); ("validation_result", AttrS dumped);
        ("updated_at", AttrS now)])
    (λ e, mret ()).

Definition required (name : string) (field : option string) : py string :=
  match field with
  | Some v => mret v
  | None => raise (KeyError name)
  end.

Definition main (ev : event) : py stage_result :=
  try_except
    (image_id ← required "image_id" (image_id ev);
     bucket_name ← required "bucket_name" (bucket_name ev);
     user_id ← required "user_id" (user_id ev);
     user_email ← required "user_email" (user_email ev);
     downloaded ← download_image bucket_name image_id;
     image_data ← match downloaded with
                  | None | Some [] => raise (Exception ("Failed to download image: " +:+ image_id))
                  | Some image_data => mret image_data
                  end;
     let validation_result := validate_image image_data image_id in
     match validation_result with
     | Valid _ =>
         update_validation_status image_id "validated" (result_json validation_result) ;;
         mret {| res_statusCode := 200; res_image_id := image_id;
                 res_validation_result := validation_result; res_status := "validated" |}
     | Invalid error =>
         update_validation_status image_id "validation_failed" (result_json validation_result) ;;
         raise (Exception ("Image validation failed: " +:+ error))
     end)
    (λ e,
       match image_id ev with
       | Some image_id =>
           update_validation_status image_id "validation_error"
             (JObj [("error", JStr (exn_str e))])
       | None => mret ()
       end ;;
       raise e).

End Handler.

End Validation.

(** ** Python floats

    A finite double is the rational it denotes.  [round] is IEEE 754
    binary64 rounding to nearest, ties to even, of a real in the normal
    range (no overflow to infinity, no subnormals): the quotients and
    products of image and box dimensions stay far inside that range. *)

Module Float.

Definition pow2 (e : Z) : Q := (2 ^ e)%Q.

(** [ilog2 x = floor (log2 x)] for [0 < x] *)
Definition ilog2 (x : Q) : Z :=
  let e := Z.log2 (Qnum x) - Z.log2 (Zpos (Qden x)) in
  if Qle_bool (pow2 e) x then e else e - 1.

(** The nearest integer, the even one of the two at a tie. *)
Definition rne (x : Q) : Z :=
  let f := Qfloor x in
  match (x - inject_Z f ?= 1 # 2)%Q with
  | Lt => f
  | Gt => f + 1
  | Eq => if Z.even f then f else f + 1
  end.

(** 53 significant bits: scale into [[2^52, 2^53)], round, scale back. *)
Definition round_pos (x : Q) : Q :=
  let e := ilog2 x in
  (inject_Z (rne (x * pow2 (52 - e))) * pow2 (e - 52))%Q.

Definition round (x : Q) : Q :=
  match Qnum x with
  | Z0 => 0%Q
  | Zpos _ => round_pos x
  | Zneg _ => (- round_pos (- x))%Q
  end.

(** [a / b] on two ints (true division, correctly rounded), [b] not 0 *)
Definition div_int (a b : Z) : Q := round (inject_Z a / inject_Z b).

(** [a / x] and [a * x] for an int [a] and a float [x] *)
Definition int_div (a : Z) (x : Q) : Q := round (round (inject_Z a) / x).
Definition int_mul (a : Z) (x : Q) : Q := round (round (inject_Z a) * x).

(** [x > y] *)
Definition gtb (x y : Q) : bool := negb (Qle_bool x y).

(** [int(x)]: towards zero *)
Definition truncate (x : Q) : Z := Z.quot (Qnum x) (Zpos (Qden x)).

End Float.

(** ** What resize and watermark share *)

(** The run context a stage receives; [None]: the key is absent. *)
Record run_context := {
  ctx_image_id : option string;          (* the full key of the original *)
  ctx_bucket_name : option string;
  ctx_user_id : option string;
  ctx_original_filename : option string
}.

(** The event is the context itself, or carries it under ['input']. *)
Record stage_event := {
  ev_input : option run_context;
  ev_top : run_context
}.

Definition input_data_of (event : stage_event) : run_context :=
  match ev_input event with
  | Some input_data => input_data
  | None => ev_top event
  end.

(** [if not s] for a value that is a str or [None] *)
Definition truthy (s : option string) : bool :=
  match s with
  | Some s => negb (String.eqb s "")
  | None => false
  end.

(** The lines both stages open with: the name under which outputs and the
    status record are filed is the second segment of the key. *)
Definition derive_actual_image_id (image_key : option string) (user_id : string) : string :=
  match image_key with
  | Some key =>
      if negb (String.eqb key "") && Str.contains "/" key then
        let path_parts := Str.split "/" key in
        if (3 <=? length path_parts)%nat then default user_id (path_parts !! 1%nat)
        else user_id
      else user_id
  | None => user_id
  end.

(** Which encoder the original's format selects: extension and content
    type. *)
Definition output_format (original_format : string) : string * string :=
  if bool_decide (Str.upper original_format ∈ ["JPEG"; "JPG"]) then ("jpg", "image/jpeg")
  else if String.eqb (Str.upper original_format) "PNG" then ("png", "image/png")
  else ("jpg", "image/jpeg").

(** The name of the encoder [save] is called with. *)
Definition save_format (original_format : string) : string :=
  if bool_decide (Str.upper original_format ∈ ["JPEG"; "JPG"]) then "JPEG"
  else if String.eqb (Str.upper original_format) "PNG" then "PNG"
  else "JPEG".

Definition base_name_of (original_filename actual_image_id : string) : string :=
  if negb (String.eqb original_filename "image") then Str.splitext_root original_filename
  else actual_image_id.

(** [f"{w}x{h}"] *)
Definition size_str (w h : Z) : string := pretty w +:+ "x" +:+ pretty h.

(** ** resize/main.py *)

Module Resize.

Definition RESIZE_DIMENSIONS : list (Z * Z) := [(800, 600); (1200, 900); (400, 300)].

(** The new size for one box, from the image's size. *)
Definition fit_within (iw ih : Z) (box : Z * Z) : Z * Z :=
  let '(width, height) := box in
  let img_ratio := Float.div_int iw ih in
  let target_ratio := Float.div_int width height in
  if Float.gtb img_ratio target_ratio then
    (width, Float.truncate (Float.int_div width img_ratio))
  else
    (Float.truncate (Float.int_mul height img_ratio), height).

Definition output_key (actual_image_id base_name : string) (new_size : Z * Z)
    (file_extension : string) : string :=
  "resized/" +:+ actual_image_id +:+ "/" +:+ base_name +:+ "_"
  +:+ size_str new_size.1 new_size.2 +:+ "." +:+ file_extension.

Record processed_image := {
  pi_key : string;
  pi_size : string;
  pi_format : string;
  pi_content_type : string
}.

Record result := {
  res_status : string;
  res_message : string;
  res_processed_images : list processed_image;
  res_original_size : string;
  res_original_format : string;
  res_image_id : string;
  res_user_id : string
}.

Definition descriptor_attr (img : processed_image) : attr :=
  AttrM [("key", AttrS (pi_key img)); ("size", AttrS (pi_size img));
         ("format", AttrS (pi_format img))].

Section Handler.
Variable INPUT_BUCKET OUTPUT_BUCKET : option string.     (* os.environ.get(..) *)
Variable isoformat : nat → string.
Variable s3_object : world → option string → string → outcome (list byte).
Variable s3_put_fault : world → put_request → option exn.
Variable ddb_fault : world → string → option exn.
(** Pillow *)
Variable image : Type.
Variable Image_open : list byte → outcome image.
Variable im_width im_height : image → Z.
Variable im_format : image → option string.
Variable im_mode : image → string.
Variable im_resize : image → Z * Z → outcome image.
Variable im_convert : image → string → image.
Variable paste_on_white : image → bool → image.       (* onto a new white RGB image; with the alpha band as mask, or none *)
Variable im_save : image → string → outcome (list byte).

Definition utcnow : py string := λ w, (Returned (isoformat (clock w)), tick w).

Definition get_object (bucket : option string) (key : string) : py (list byte) := λ w,
  (s3_object w bucket key, got bucket key w).

Definition put_object (r : put_request) : py () := λ w,
  match s3_put_fault w r with
  | Some e => (Raised e, w)
  | None => (Returned (), stored r w)
  end.

Definition update_item (key : string) (sets : list (string * attr)) : py () := λ w,
  match ddb_fault w key with
  | Some e => (Raised e, requested key sets w)
  | None => (Returned (), set_attrs key sets (requested key sets w))
  end.

(** The body of the loop, for one box. *)
Definition resize_one (img : image) (image_key user_id original_filename actual_image_id
    original_format : string) (box : Z * Z) : py processed_image :=
  (if im_height img =? 0 then raise ZeroDivisionError else mret ()) ;;
  let new_size := fit_within (im_width img) (im_height img) box in
  resized_image ← lift (im_resize img new_size);
  let resized_image :=
    if bool_decide (im_mode resized_image ∈ ["RGBA"; "LA"; "P"]) then
      let resized_image :=
        if String.eqb (im_mode resized_image) "P" then im_convert resized_image "RGBA"
        else resized_image in
      paste_on_white resized_image (String.eqb (im_mode resized_image) "RGBA")
    else resized_image in
  resized_data ← lift (im_save resized_image (save_format original_format));
  let '(file_extension, content_type) := output_format original_format in
  let base_name := base_name_of original_filename actual_image_id in
  let key := output_key actual_image_id base_name new_size file_extension in
  now ← utcnow;
  put_object {| put_Bucket := OUTPUT_BUCKET; put_Key := key; put_Body := resized_data;
                put_ContentType := content_type;
                put_Metadata :=
                  [("original-key", image_key);
                   ("original-size", size_str (im_width img) (im_height img));
                   ("resized-size", size_str new_size.1 new_size.2);
                   ("user-id", user_id);
                   ("processed-by", "lambda-resize");
                   ("processing-date", now)] |} ;;
  mret {| pi_key := key; pi_size := size_str new_size.1 new_size.2;
          pi_format := file_extension; pi_content_type := content_type |}.

(** [for width, height in RESIZE_DIMENSIONS: ... processed_images.append(..)] *)
Fixpoint resize_each (boxes : list (Z * Z)) (one : Z * Z → py processed_image)
    : py (list processed_image) :=
  match boxes with
  | [] => mret []
  | box :: rest =>
      p ← one box;
      ps ← resize_each rest one;
      mret (p :: ps)
  end.

Definition main (event : stage_event) : py result :=
  let input_data := input_data_of event in
  let image_key := ctx_image_id input_data in
  let bucket_name := ctx_bucket_name input_data in
  let user_id := default "unknown" (ctx_user_id input_data) in
  let original_filename := default "image" (ctx_original_filename input_data) in
  let actual_image_id := derive_actual_image_id image_key user_id in
  try_except
    (image_key ← (if truthy image_key then mret (default "" image_key)
                  else raise (Exception "image_key is required but not provided"));
     (if truthy bucket_name then mret ()
      else raise (Exception "bucket_name is required but not provided")) ;;
     image_data ← get_object INPUT_BUCKET image_key;
     img ← lift (Image_open image_data);
     let original_format := default "JPEG" (im_format img) in
     let original_format := if String.eqb original_format "" then "JPEG" else original_format in
     processed_images ← resize_each RESIZE_DIMENSIONS
       (resize_one img image_key user_id original_filename actual_image_id original_format);
     now ← utcnow;
     update_item actual_image_id
       [("processing_status", AttrS "resized");
        ("resize_results", AttrL (descriptor_attr <$> processed_images));
        ("updated_at", AttrS now)] ;;
     mret {| res_status := "success";
             res_message := "Successfully resized image to "
                            +:+ pretty (Z.of_nat (length processed_images)) +:+ " variants";
             res_processed_images := processed_images;
             res_original_size := size_str (im_width img) (im_height img);
             res_original_format := original_format;
             res_image_id := actual_image_id;
             res_user_id := user_id |})
    (λ e,
       let error_msg := "Error in resize function: " +:+ exn_str e in
       try_except
         (now ← utcnow;
          update_item actual_image_id
            [("processing_status", AttrS "resize_failed");
             ("error_message", AttrS error_msg);
             ("updated_at", AttrS now)])
         (λ db_error, mret ()) ;;
       raise (Exception error_msg)).

End Handler.

End Resize.

(** ** watermark/main.py *)

Module Watermark.

(** Where the text is drawn, from the image size and the measured text
    size. *)
Definition position_of (WATERMARK_POSITION : string) (width height text_width text_height : Z)
    : Z * Z :=
  if String.eqb WATERMARK_POSITION "top-left" then (10, 10)
  else if String.eqb WATERMARK_POSITION "top-right" then (width - text_width - 10, 10)
  else if String.eqb WATERMARK_POSITION "bottom-left" then (10, height - text_height - 10)
  else if String.eqb WATERMARK_POSITION "center" then
    ((width - text_width) `div` 2, (height - text_height) `div` 2)
  else (width - text_width - 10, height - text_height - 10).

Definition output_key (actual_image_id base_name file_extension : string) : string :=
  "watermarked/" +:+ actual_image_id +:+ "/" +:+ base_name +:+ "_watermarked."
  +:+ file_extension.

Record watermarked_image := {
  wm_key : string;
  wm_watermark_text : string;
  wm_position : string;
  wm_format : string;
  wm_content_type : string
}.

Record result := {
  res_status : string;
  res_message : string;
  res_watermarked_image : watermarked_image;
  res_original_size : string;
  res_original_format : string;
  res_image_id : string;
  res_user_id : string
}.

Section Handler.
Variable INPUT_BUCKET OUTPUT_BUCKET : option string.
Variable WATERMARK_TEXT : string.
Variable WATERMARK_OPACITY : Z.
Variable WATERMARK_POSITION : string.
Variable isoformat : nat → string.
Variable utc_date : nat → string.                 (* datetime.utcnow().strftime('%Y-%m-%d') *)
Variable s3_object : world → option string → string → outcome (list byte).
Variable s3_put_fault : world → put_request → option exn.
Variable ddb_fault : world → string → option exn.
(** Pillow; the font is the one the chain of fallbacks resolves to. *)
Variable image : Type.
Variable Image_open : list byte → outcome image.
Variable im_width im_height : image → Z.
Variable im_format : image → option string.
Variable im_mode : image → string.
Variable im_convert : image → string → image.
Variable new_layer : Z * Z → image.                   (* Image.new('RGBA', size, (0, 0, 0, 0)) *)
Variable textbbox : image → string → Z * Z * Z * Z.   (* draw.textbbox((0, 0), text, font=font) *)
Variable draw_text : image → Z * Z → string → Z → image.
Variable alpha_composite : image → image → outcome image.
Variable paste_on_white : image → bool → image.
Variable im_save : image → string → outcome (list byte).

Definition utcnow : py string := λ w, (Returned (isoformat (clock w)), tick w).
Definition utcnow_date : py string := λ w, (Returned (utc_date (clock w)), tick w).

Definition get_object (bucket : option string) (key : string) : py (list byte) := λ w,
  (s3_object w bucket key, got bucket key w).

Definition put_object (r : put_request) : py () := λ w,
  match s3_put_fault w r with
  | Some e => (Raised e, w)
  | None => (Returned (), stored r w)
  end.

Definition update_item (key : string) (sets : list (string * attr)) : py () := λ w,
  match ddb_fault w key with
  | Some e => (Raised e, requested key sets w)
  | None => (Returned (), set_attrs key sets (requested key sets w))
  end.

Definition main (event : stage_event) : py result :=
  let input_data := input_data_of event in
  let image_key := ctx_image_id input_data in
  let bucket_name := ctx_bucket_name input_data in
  let user_id := default "unknown" (ctx_user_id input_data) in
  let original_filename := default "image" (ctx_original_filename input_data) in
  let actual_image_id := derive_actual_image_id image_key user_id in
  try_except
    (image_key ← (if truthy image_key then mret (default "" image_key)
                  else raise (Exception "image_key is required but not provided"));
     (if truthy bucket_name then mret ()
      else raise (Exception "bucket_name is required but not provided")) ;;
     image_data ← get_object INPUT_BUCKET image_key;
     img0 ← lift (Image_open image_data);
     let original_format := default "JPEG" (im_format img0) in
     let original_format := if String.eqb original_format "" then "JPEG" else original_format in
     let original_size := (im_width img0, im_height img0) in
     let img := if negb (String.eqb (im_mode img0) "RGBA") then im_convert img0 "RGBA"
                else img0 in
     date ← utcnow_date;
     let watermark_text := WATERMARK_TEXT +:+ " - " +:+ date in
     let watermark_layer := new_layer (im_width img, im_height img) in
     let '(x0, y0, x1, y1) := textbbox watermark_layer watermark_text in
     let text_width := x1 - x0 in
     let text_height := y1 - y0 in
     let position :=
       position_of WATERMARK_POSITION (im_width img) (im_height img) text_width text_height in
     let watermark_layer :=
       draw_text watermark_layer position watermark_text WATERMARK_OPACITY in
     watermarked ← lift (alpha_composite img watermark_layer);
     let watermarked :=
       if bool_decide (Str.upper original_format ∈ ["JPEG"; "JPG"]) then
         paste_on_white watermarked (String.eqb (im_mode watermarked) "RGBA")
       else watermarked in
     watermarked_data ← lift (im_save watermarked (save_format original_format));
     let '(file_extension, content_type) := output_format original_format in
     let base_name := base_name_of original_filename actual_image_id in
     let key := output_key actual_image_id base_name file_extension in
     now ← utcnow;
     put_object {| put_Bucket := OUTPUT_BUCKET; put_Key := key; put_Body := watermarked_data;
                   put_ContentType := content_type;
                   put_Metadata :=
                     [("original-key", image_key);
                      ("original-size", size_str original_size.1 original_size.2);
                      ("watermark-text", watermark_text);
                      ("watermark-position", WATERMARK_POSITION);
                      ("watermark-opacity", pretty WATERMARK_OPACITY);
                      ("user-id", user_id);
                      ("processed-by", "lambda-watermark");
                      ("processing-date", now)] |} ;;
     now ← utcnow;
     update_item actual_image_id
       [("processing_status", AttrS "watermarked");
        ("watermark_result",
         AttrM [("key", AttrS key); ("watermark_text", AttrS watermark_text);
                ("position", AttrS WATERMARK_POSITION); ("format", AttrS file_extension)]);
        ("updated_at", AttrS now)] ;;
     mret {| res_status := "success";
             res_message := "Successfully watermarked image";
             res_watermarked_image :=
               {| wm_key := key; wm_watermark_text := watermark_text;
                  wm_position := WATERMARK_POSITION; wm_format := file_extension;
                  wm_content_type := content_type |};
             res_original_size := size_str original_size.1 original_size.2;
             res_original_format := original_format;
             res_image_id := actual_image_id;
             res_user_id := user_id |})
    (λ e,
       let error_msg := "Error in watermark function: " +:+ exn_str e in
       try_except
         (now ← utcnow;
          update_item actual_image_id
            [("processing_status", AttrS "watermark_failed");
             ("error_message", AttrS error_msg);
             ("updated_at", AttrS now)])
         (λ db_error, mret ()) ;;
       raise (Exception error_msg)).

End Handler.

End Watermark.

(** ** image_retrieval/main.py *)

Module ImageRetrieval.

(** A key of the event dict: absent, present with [null], or present with a
    value.  API Gateway sends [null] for [queryStringParameters] and
    [headers] when the request has none. *)
Inductive field (A : Type) :=
| Absent
| Null
| Present (a : A).
Arguments Absent {A}.
Arguments Null {A}.
Arguments Present {A} a.

Record event := {
  httpMethod : option string;
  ev_headers : field (list (string * string));
  queryStringParameters : field (list (string * string))
}.

Record user_info := {
  sub : string;
  email : string;
  email_verified : bool
}.

(** The response of [cognito_client.get_user]. *)
Record cognito_user := {
  Username : string;
  UserAttributes : list (string * string)
}.

Definition CORS_HEADERS : list (string * string) :=
  [("Content-Type", "application/json");
   ("Access-Control-Allow-Origin", "*");
   ("Access-Control-Allow-Headers", "Content-Type,Authorization");
   ("Access-Control-Allow-Methods", "GET,OPTIONS")].

(** [event.get(k, {}).get(name, dflt)]: the default [{}] stands in for an
    absent key only; on [null] the second [.get] raises. *)
Definition get_get {A} (f : field (list (string * string))) (name : string)
    (found : option string → A) : outcome A :=
  match f with
  | Absent => Returned (found None)
  | Null => Raised (AttributeError "'NoneType' object has no attribute 'get'")
  | Present d => Returned (found (assoc name d))
  end.

Definition quote : string := String (ascii_of_nat 34) EmptyString.

Section Handler.
Variable OUTPUT_BUCKET : option string.
Variable json_dumps : json → string.
Variable cognito_get_user : string → outcome cognito_user.
Variable s3_head_fault : option string → string → option exn.   (* head_object raising *)
Variable presign : option string → string → Z → outcome string. (* generate_presigned_url *)

Definition create_response (status_code : Z) (payload : json) : response :=
  {| statusCode := status_code; headers := CORS_HEADERS; body := json_dumps payload |}.

Definition validate_token (token : string) : option user_info :=
  match cognito_get_user token with
  | Returned response =>
      (* a dict comprehension: of two attributes of one name the later stays *)
      let user_attributes := reverse (UserAttributes response) in
      Some {| sub := Username response;
              email := default "" (assoc "email" user_attributes);
              email_verified :=
                String.eqb (default "false" (assoc "email_verified" user_attributes)) "true" |}
  | Raised _ => None
  end.

Definition not_found (image_id user_id image_key : string) : response :=
  create_response 404
    (JObj [("error", JStr "Image not found");
           ("message", JStr ("The requested image " +:+ quote +:+ image_id +:+ quote
                             +:+ " was not found in your processed images."));
           ("image_id", JStr image_id);
           ("user_id", JStr user_id);
           ("searched_path", JStr image_key)]).

Definition check_failed : response :=
  create_response 500
    (JObj [("error", JStr "Error checking image availability");
           ("message", JStr "Unable to verify if the image exists. Please try again later.")]).

Definition internal_error (e : exn) : response :=
  {| statusCode := 500; headers := CORS_HEADERS;
     body := json_dumps
       (JObj [("error", JStr "Internal server error");
              ("message", JStr ("Error in image retrieval function: " +:+ exn_str e))]) |}.

Definition image_key_of (user_id image_id file_extension : string) : string :=
  "watermarked/" +:+ user_id +:+ "/" +:+ image_id +:+ "_watermarked." +:+ file_extension.

Definition handle_image_retrieval (ev : event) : py response :=
  try_except
    (auth_header ← lift (get_get (ev_headers ev) "Authorization" (default ""));
     if negb (Str.startswith "Bearer " auth_header) then
       mret (create_response 401 (JObj [("error", JStr "Authorization header required")]))
     else
       let token := default "" (Str.split " " auth_header !! 1%nat) in
       match validate_token token with
       | None => mret (create_response 401 (JObj [("error", JStr "Invalid token")]))
       | Some user_info =>
           image_id ← lift (get_get (queryStringParameters ev) "image_id" id);
           if negb (truthy image_id) then
             mret (create_response 400 (JObj [("error", JStr "image_id parameter is required")]))
           else
             let image_id := default "" image_id in
             let user_id := sub user_info in
             file_extension ← lift (get_get (queryStringParameters ev) "extension" (default "jpg"));
             let image_key := image_key_of user_id image_id file_extension in
             match s3_head_fault OUTPUT_BUCKET image_key with
             | Some (ClientError error_code) =>
                 if String.eqb error_code "404" || String.eqb error_code "NoSuchKey" then
                   mret (not_found image_id user_id image_key)
                 else mret check_failed
             | Some e => raise e
             | None =>
                 presigned_url ← lift (presign OUTPUT_BUCKET image_key 3600);
                 mret {| statusCode := 200; headers := CORS_HEADERS;
                         body := json_dumps
                           (JObj [("image_id", JStr image_id);
                                  ("user_id", JStr user_id);
                                  ("processed_image",
                                   JObj [("key", JStr image_key);
                                         ("download_url", JStr presigned_url);
                                         ("expires_in", JStr "1 hour");
                                         ("extension", JStr file_extension)])]) |}
             end
       end)
    (λ e, mret (internal_error e)).

Definition main (ev : event) : py response :=
  try_except
    (match httpMethod ev with
     | Some "GET" => handle_image_retrieval ev
     | Some "OPTIONS" => mret (create_response 200 (JObj []))
     | _ => mret (create_response 405 (JObj [("error", JStr "Method not allowed")]))
     end)
    (λ e, mret (create_response 500 (JObj [("error", JStr "Internal server error")]))).

End Handler.

End ImageRetrieval.

(** ** upload_handler/main.py *)

Module UploadHandler.

(** The API Gateway event, as far as the handler reads it; [Null]: the key
    is there with the value [null], as for a request without a body. *)
Record event := {
  httpMethod : option string;
  ev_headers : ImageRetrieval.field (list (string * string));
  ev_body : ImageRetrieval.field string
}.

Definition CORS_HEADERS : list (string * string) :=
  [("Content-Type", "application/json");
   ("Access-Control-Allow-Origin", "*");
   ("Access-Control-Allow-Headers",
    "Content-Type,X-Amz-Date,Authorization,X-Api-Key,X-Amz-Security-Token");
   ("Access-Control-Allow-Methods", "GET,POST,PUT,DELETE,OPTIONS")].

Definition allowed_types : list string := ["image/jpeg"; "image/png"; "image/gif"].

(** [if not x] for a value that came out of [json.loads] *)
Definition json_truthy (x : json) : bool :=
  match x with
  | JNull => false
  | JBool b => b
  | JNum z => negb (z =? 0)
  | JStr s => negb (String.eqb s "")
  | JArr l => negb (bool_decide (l = []))
  | JObj fields => negb (bool_decide (fields = []))
  end.

(** [body.get(k)]: only a dict has [get]. *)
Definition body_get (body : json) (k : string) : outcome json :=
  match body with
  | JObj fields => Returned (default JNull (assoc k fields))
  | _ => Raised (AttributeError "object has no attribute 'get'")
  end.

Definition get_file_extension (file_type : string) : string :=
  default "" (assoc file_type
                [("image/jpeg", ".jpg"); ("image/png", ".png"); ("image/gif", ".gif")]).

(** [not file_type or '/' not in file_type or len(file_type.split('/')) != 2] *)
Definition content_type_malformed (file_type : string) : bool :=
  String.eqb file_type "" || negb (Str.contains "/" file_type)
  || negb (length (Str.split "/" file_type) =? 2)%nat.

Section Handler.
Variable INPUT_BUCKET : option string.
Variable S3_KMS_KEY_ID : string.        (* os.environ.get('S3_KMS_KEY_ID', 'alias/aws/s3') *)
Variable uuid4 : string.                (* str(uuid.uuid4()), drawn once per request *)
Variable json_loads : string → option json.   (* None: JSONDecodeError *)
Variable json_dumps : json → string.
Variable cognito_get_user : string → outcome ImageRetrieval.cognito_user.
(** [generate_presigned_url('put_object', Params={Bucket, Key, ContentType,
    ServerSideEncryption: 'aws:kms', SSEKMSKeyId}, ExpiresIn)] *)
Variable presign_put : option string → string → string → string → Z → outcome string.

Definition create_response (status_code : Z) (payload : json) : response :=
  {| statusCode := status_code; headers := CORS_HEADERS; body := json_dumps payload |}.

Definition handle_cors_preflight : response := create_response 200 (JObj []).

Definition validate_token (token : string) : option ImageRetrieval.user_info :=
  match cognito_get_user token with
  | Returned response =>
      let user_attributes := reverse (ImageRetrieval.UserAttributes response) in
      Some {| ImageRetrieval.sub := ImageRetrieval.Username response;
              ImageRetrieval.email := default "" (assoc "email" user_attributes);
              ImageRetrieval.email_verified :=
                String.eqb (default "false" (assoc "email_verified" user_attributes)) "true" |}
  | Raised _ => None
  end.

Definition generate_presigned_url (file_key file_type : string)
    (user_info : ImageRetrieval.user_info) : py string :=
  try_except
    (let kms_key_id := S3_KMS_KEY_ID in
     lift (presign_put INPUT_BUCKET file_key file_type kms_key_id 7200))
    (λ e, raise e).

Definition handle_upload_request (ev : event) : py response :=
  try_except
    (auth_header ← lift (ImageRetrieval.get_get (ev_headers ev) "Authorization" (default ""));
     if negb (Str.startswith "Bearer " auth_header) then
       mret (create_response 401 (JObj [("error", JStr "Authorization header required")]))
     else
       let token := default "" (Str.split " " auth_header !! 1%nat) in
       match validate_token token with
       | None => mret (create_response 401 (JObj [("error", JStr "Invalid token")]))
       | Some user_info =>
           text ← match ev_body ev with
                  | ImageRetrieval.Absent => mret "{}"
                  | ImageRetrieval.Null =>
                      raise (TypeError "the JSON object must be str, bytes or bytearray, not NoneType")
                  | ImageRetrieval.Present s => mret s
                  end;
           body ← match json_loads text with
                  | Some j => mret j
                  | None => raise JSONDecodeError
                  end;
           file_name ← lift (body_get body "fileName");
           file_type ← lift (body_get body "fileType");
           if negb (json_truthy file_name) || negb (json_truthy file_type) then
             mret (create_response 400
                     (JObj [("error", JStr "fileName and fileType are required")]))
           else
             match file_type with
             | JStr file_type =>
                 if negb (bool_decide (file_type ∈ allowed_types)) then
                   mret (create_response 400
                           (JObj [("error",
                                   JStr "Invalid file type. Only JPEG, PNG, and GIF are allowed.")]))
                 else if content_type_malformed file_type then
                   mret (create_response 400
                           (JObj [("error",
                                   JStr "Invalid Content-Type format. Must be in format: type/subtype")]))
                 else
                   let file_extension := get_file_extension file_type in
                   let file_key :=
                     "uploads/" +:+ ImageRetrieval.sub user_info +:+ "/" +:+ uuid4
                     +:+ file_extension in
                   presigned_url ← generate_presigned_url file_key file_type user_info;
                   let response_data :=
                     JObj [("uploadUrl", JStr presigned_url); ("fileKey", JStr file_key);
                           ("expiresIn", JNum 3600)] in
                   mret (create_response 200 response_data)
             | _ =>
                 (* a value that is not a str is in no list of strs *)
                 mret (create_response 400
                         (JObj [("error",
                                 JStr "Invalid file type. Only JPEG, PNG, and GIF are allowed.")]))
             end
       end)
    (λ e,
       match e with
       | JSONDecodeError =>
           mret (create_response 400 (JObj [("error", JStr "Invalid JSON in request body")]))
       | _ => mret (create_response 500 (JObj [("error", JStr "Internal server error")]))
       end).

Definition main (ev : event) : py response :=
  try_except
    (match httpMethod ev with
     | Some "POST" => handle_upload_request ev
     | Some "OPTIONS" => mret handle_cors_preflight
     | _ => mret (create_response 405 (JObj [("error", JStr "Method not allowed")]))
     end)
    (λ e, mret (create_response 500 (JObj [("error", JStr "Internal server error")]))).

End Handler.

End UploadHandler.

(** ** A small concrete environment

    Stand-ins for the clock, the libraries and the services, to run the
    handlers on examples. *)

Module Fixture.

Definition isoformat (n : nat) : string := "2024-05-01T12:00:00." +:+ pretty (Z.of_nat n).
Definition utc_date (n : nat) : string := "2024-05-01".
Definition timestamp (n : nat) : Z := 1714564800 + Z.of_nat n.

Definition quoted (s : string) : string :=
  String (ascii_of_nat 34) s +:+ String (ascii_of_nat 34) EmptyString.

(** A printer in the manner of [json.dumps], without escapes. *)
Fixpoint json_dumps (j : json) : string :=
  match j with
  | JNull => "null"
  | JBool true => "true"
  | JBool false => "false"
  | JNum z => pretty z
  | JStr s => quoted s
  | JArr l =>
      "[" +:+ (fix items (l : list json) : string :=
                 match l with
                 | [] => ""
                 | [x] => json_dumps x
                 | x :: l' => json_dumps x +:+ ", " +:+ items l'
                 end) l +:+ "]"
  | JObj fields =>
      "{" +:+ (fix items (l : list (string * json)) : string :=
                 match l with
                 | [] => ""
                 | [(k, v)] => quoted k +:+ ": " +:+ json_dumps v
                 | (k, v) :: l' => quoted k +:+ ": " +:+ json_dumps v +:+ ", " +:+ items l'
                 end) fields +:+ "}"
  end.

(** The bodies this parser knows are the printed forms of [samples]. *)
Definition json_loads_of (samples : list json) (s : string) : option json :=
  assoc s ((λ j, (json_dumps j, j)) <$> samples).

Definition md5_hexdigest (s : string) : string := "5f4dcc3b5aa765d61d8327deb882cf99".

Definition sfn_response (w : world) (x : execution) : outcome string :=
  Returned ("arn:aws:states:us-east-1:000000000000:execution:pipeline:" +:+ exec_name x).

Definition no_ddb_fault (w : world) (key : string) : option exn := None.
Definition no_sqs_fault (w : world) (m : sqs_message) : option exn := None.
Definition no_put_fault (w : world) (r : put_request) : option exn := None.

(** [imghdr.what(None, h)]: the tests of the standard library module, in
    its order, for the formats met here. *)
Definition imghdr_what (h : list byte) : option string :=
  let slice (i j : nat) := take (j - i) (drop i h) in
  if bool_decide (slice 6%nat 10%nat ∈ [[x4a; x46; x49; x46]; [x45; x78; x69; x66]])
  then Some "jpeg"
  else if bool_decide (take 4 h = [xff; xd8; xff; xdb]) then Some "jpeg"
  else if bool_decide (take 8 h = Validation.PNG_SIGNATURE) then Some "png"
  else if bool_decide (take 6 h ∈ [Validation.GIF87a; Validation.GIF89a]) then Some "gif"
  else if bool_decide (take 2 h ∈ [[x4d; x4d]; [x49; x49]]) then Some "tiff"
  else if bool_decide (take 2 h = [x42; x4d]) then Some "bmp"
  else None.

(** A JFIF file of 24 bytes, a PNG of 12, a bitmap of 10. *)
Definition jpeg_bytes : list byte :=
  [xff; xd8; xff; xe0; x00; x10; x4a; x46; x49; x46; x00; x01;
   x01; x00; x00; x01; x00; x01; x00; x00; x00; x00; xff; xd9].
Definition png_bytes : list byte :=
  Validation.PNG_SIGNATURE ++ [x00; x00; x00; x0d].
Definition bmp_bytes : list byte :=
  [x42; x4d; x46; x00; x00; x00; x00; x00; x00; x00].

(** The input bucket ["in"], with three objects. *)
Definition s3_named (bucket key : string) : outcome (list byte) :=
  if String.eqb bucket "in" then
    if String.eqb key "uploads/u1/abc.jpg" then Returned jpeg_bytes
    else if String.eqb key "uploads/u1/pic.png" then Returned png_bytes
    else if String.eqb key "uploads/u1/notes.bmp" then Returned bmp_bytes
    else Raised (ClientError "NoSuchKey")
  else Raised (ClientError "NoSuchBucket").

Definition s3_object_named (w : world) (bucket key : string) : outcome (list byte) :=
  s3_named bucket key.

Definition s3_object (w : world) (bucket : option string) (key : string)
    : outcome (list byte) :=
  match bucket with
  | Some b => s3_named b key
  | None => Raised (Exception "ParamValidationError")
  end.

(** Images, as far as the handlers look at them. *)
Record image := {
  width : Z;
  height : Z;
  format : option string;
  mode : string
}.

Definition Image_open (data : list byte) : outcome image :=
  match imghdr_what data with
  | Some "jpeg" => Returned {| width := 1600; height := 900; format := Some "JPEG"; mode := "RGB" |}
  | Some "png" => Returned {| width := 300; height := 500; format := Some "PNG"; mode := "RGBA" |}
  | _ => Raised (Exception "cannot identify image file")
  end.

Definition im_resize (img : image) (size : Z * Z) : outcome image :=
  if (0 <? size.1) && (0 <? size.2) then
    Returned {| width := size.1; height := size.2; format := None; mode := mode img |}
  else Raised (Exception "height and width must be > 0").

Definition im_convert (img : image) (m : string) : image :=
  {| width := width img; height := height img; format := None; mode := m |}.

Definition paste_on_white (img : image) (mask : bool) : image :=
  {| width := width img; height := height img; format := None; mode := "RGB" |}.

Definition im_save (img : image) (fmt : string) : outcome (list byte) :=
  Returned (if String.eqb fmt "PNG" then png_bytes else jpeg_bytes).

Definition new_layer (size : Z * Z) : image :=
  {| width := size.1; height := size.2; format := None; mode := "RGBA" |}.

Definition textbbox (layer : image) (text : string) : Z * Z * Z * Z :=
  (0, 4, 60 * Z.of_nat (String.length text), 96).

Definition draw_text (layer : image) (position : Z * Z) (text : string) (opacity : Z)
    : image := layer.

Definition alpha_composite (a b : image) : outcome image :=
  if bool_decide ((width a, height a) = (width b, height b)) then Returned a
  else Raised (Exception "images do not match").

(** Cognito knows one token. *)
Definition cognito_get_user (token : string) : outcome ImageRetrieval.cognito_user :=
  if String.eqb token "token-u1" then
    Returned {| ImageRetrieval.Username := "u1";
                ImageRetrieval.UserAttributes :=
                  [("email", "u1@example.org"); ("email_verified", "true")] |}
  else Raised (ClientError "NotAuthorizedException").

(** The output bucket holds one watermarked object. *)
Definition s3_head_fault (bucket : option string) (key : string) : option exn :=
  if String.eqb key "watermarked/u1/abc_watermarked.jpg" then None
  else Some (ClientError "404").

Definition presign (bucket : option string) (key : string) (ttl : Z) : outcome string :=
  Returned ("https://out.s3.amazonaws.com/" +:+ key +:+ "?X-Amz-Expires=" +:+ pretty ttl).

End Fixture.

(** * Properties *)

(** ** Strings *)

Lemma split_not_nil sep s : Str.split sep s ≠ [].
Proof.
  destruct s as [|c s]; simpl; [done|].
  destruct (Ascii.eqb c sep); [done|].
  by destruct (Str.split sep s).
Qed.

Lemma split_no_sep sep s : Str.contains sep s = false → Str.split sep s = [s].
Proof.
  induction s as [|c s IH]; simpl; [done|].
  intros [Hc Hs]%orb_false_iff. rewrite Hc, (IH Hs). done.
Qed.

Lemma split_app_sep sep a b :
  Str.contains sep a = false →
  Str.split sep (a +:+ String sep b) = a :: Str.split sep b.
Proof.
  induction a as [|c a IH]; simpl.
  - intros _. by rewrite Ascii.eqb_refl.
  - intros [Hc Ha]%orb_false_iff. rewrite Hc, (IH Ha). done.
Qed.

Lemma split_upload_key u f :
  Str.contains "/" u = false → Str.contains "/" f = false →
  Str.split "/" ("uploads/" +:+ u +:+ "/" +:+ f) = ["uploads"; u; f].
Proof.
  intros Hu Hf.
  change ("uploads/" +:+ u +:+ "/" +:+ f)
    with ("uploads" +:+ String "/" (u +:+ String "/" f)).
  rewrite split_app_sep by done.
  rewrite split_app_sep by done.
  by rewrite split_no_sep.
Qed.

(** ** The ingestion adapter *)

Ltac py_unfold :=
  unfold mbind, py_bind, mret, py_ret, try_except, raise, lift, getitem in *.

(** The message [process_s3_event] hands to the queue for a record whose
    key names user [u] and file [f]. *)
Definition job_message (json_dumps : json → string) (record : S3EventHandler.s3_record)
    (u f : string) (size : Z) (event_time now : string) : sqs_message :=
  {| MessageBody :=
       json_dumps (JObj (S3EventHandler.build_message record
                           {| S3EventHandler.user_id := u; S3EventHandler.filename := f |}
                           size event_time now));
     MessageAttributes :=
       [("MessageType", "ImageUploadEvent"); ("UserId", u);
        ("ImageId", S3EventHandler.s3_object_key record)] |}.

Section Ingestion.
Variable isoformat : nat → string.
Variable json_dumps : json → string.
Variable sqs_fault : world → sqs_message → option exn.

Lemma extract_valid key u f :
  Str.split "/" key = ["uploads"; u; f] → u ≠ "" →
  S3EventHandler.extract_user_info_from_key key
  = Some {| S3EventHandler.user_id := u; S3EventHandler.filename := f |}.
Proof.
  intros Hs Hu. unfold S3EventHandler.extract_user_info_from_key. rewrite Hs. simpl.
  destruct (String.eqb_spec u ""); [done|]. done.
Qed.

Lemma extract_malformed key :
  length (Str.split "/" key) ≠ 3%nat ∨ Str.split "/" key !! 0%nat ≠ Some "uploads" →
  S3EventHandler.extract_user_info_from_key key = None.
Proof.
  unfold S3EventHandler.extract_user_info_from_key.
  destruct (Str.split "/" key) as [|p0 [|p1 [|p2 [|p3 l]]]]; simpl; try done.
  intros [H|H]; [done|].
  destruct (String.eqb_spec p0 "uploads") as [->|]; [done|]. done.
Qed.

(** C8.  A key of exactly three segments [uploads/u/f] with [u] not empty
    yields the user info [{u, f}], and for a creation event the queue
    receives exactly one message, the one built from [u] and [f]; a key
    with another number of segments or another first segment, and any
    event that is not a creation, leaves the queue as it was and returns
    without raising. *)
Theorem ingestion_extracts_and_publishes (record : S3EventHandler.s3_record) (w : world) :
  let key := S3EventHandler.s3_object_key record in
  let process := S3EventHandler.process_s3_event isoformat json_dumps sqs_fault in
  (∀ u f, Str.split "/" key = ["uploads"; u; f] → u ≠ "" →
     S3EventHandler.extract_user_info_from_key key
     = Some {| S3EventHandler.user_id := u; S3EventHandler.filename := f |}
     ∧ ∀ size event_time,
         Str.startswith "ObjectCreated" (S3EventHandler.eventName record) = true →
         S3EventHandler.s3_object_size record = Some size →
         S3EventHandler.eventTime record = Some event_time →
         let m := job_message json_dumps record u f size event_time (isoformat (clock w)) in
         sqs_fault (tick w) m = None →
         process record w = (Returned (), enqueue m (tick w)))
  ∧ (length (Str.split "/" key) ≠ 3%nat
     ∨ Str.split "/" key !! 0%nat ≠ Some "uploads"
     ∨ Str.startswith "ObjectCreated" (S3EventHandler.eventName record) = false →
     process record w = (Returned (), w)).
Proof.
  intros key process. subst key process. split.
  - intros u f Hs Hu. split; [by apply extract_valid|].
    intros size event_time Hcreated Hsize Htime m Hok.
    unfold S3EventHandler.process_s3_event. py_unfold.
    rewrite Hcreated. simpl.
    rewrite (extract_valid _ u f Hs Hu), Hsize, Htime. simpl.
    unfold S3EventHandler.send_sqs_message, S3EventHandler.sqs_send_message. py_unfold. simpl.
    unfold m, job_message in Hok. simpl in Hok. rewrite Hok. done.
  - intros H. unfold S3EventHandler.process_s3_event. py_unfold.
    destruct (Str.startswith "ObjectCreated" (S3EventHandler.eventName record)) eqn:Hc;
      simpl; [|done].
    rewrite extract_malformed; [done|].
    destruct H as [H|[H|H]]; [by left|by right|done].
Qed.

End Ingestion.

(** ** The orchestrator *)

Lemma for_each_app {A} (l1 l2 : list A) (body : A → py ()) (w : world) :
  for_each (l1 ++ l2) body w
  = match for_each l1 body w with
    | (Returned _, w1) => for_each l2 body w1
    | (Raised e, w1) => (Raised e, w1)
    end.
Proof.
  revert w. induction l1 as [|x l1 IH]; intros w; simpl; [done|].
  py_unfold. destruct (body x w) as [[[]|e] w1]; [apply IH|done].
Qed.

Lemma for_each_raises_first {A} (x : A) (l : list A) (body : A → py ()) (w : world) e w1 :
  body x w = (Raised e, w1) → for_each (x :: l) body w = (Raised e, w1).
Proof. intros H. simpl. py_unfold. by rewrite H. Qed.

Definition REQUIRED_FIELDS : list string :=
  ["image_id"; "bucket_name"; "user_id"; "upload_timestamp"; "file_size"].

(** A delivered message whose body is not JSON, or is JSON but no object
    (null, a number, a string, a list: it holds no field at all), or is a
    JSON object that lacks a required field. *)
Definition malformed (json_loads : string → option json) (record : Orchestrator.sqs_record)
    : Prop :=
  json_loads (Orchestrator.record_body record) = None
  ∨ (∃ j, json_loads (Orchestrator.record_body record) = Some j
          ∧ ∀ fields, j ≠ JObj fields)
  ∨ ∃ fields k, json_loads (Orchestrator.record_body record) = Some (JObj fields)
                ∧ k ∈ REQUIRED_FIELDS ∧ assoc k fields = None.

Definition response_500 (json_dumps : json → string) : response :=
  {| statusCode := 500; headers := [];
     body := json_dumps (JObj [("error", JStr "Internal server error")]) |}.

Section OrchestratorSpec.
Variable isoformat : nat → string.
Variable timestamp : nat → Z.
Variable json_loads : string → option json.
Variable json_dumps : json → string.
Variable py_repr : json → string.
Variable md5_hexdigest : string → string.
Variable sfn_response : world → execution → outcome string.
Variable ddb_fault : world → string → option exn.

Let process := Orchestrator.process_sqs_message isoformat timestamp json_loads json_dumps
                 py_repr md5_hexdigest sfn_response ddb_fault.
Let main := Orchestrator.main isoformat timestamp json_loads json_dumps
              py_repr md5_hexdigest sfn_response ddb_fault.

(** A malformed message makes [process_sqs_message] raise before it has
    touched any service. *)
Lemma process_malformed_raises record w :
  malformed json_loads record → ∃ e, process record w = (Raised e, w).
Proof.
  intros [Hnone | [(j & Hother & Hshape) | (fields & k & Hobj & Hk & Hmiss)]];
    unfold process, Orchestrator.process_sqs_message; py_unfold.
  - rewrite Hnone. by eexists.
  - rewrite Hother. simpl. unfold Orchestrator.subscript. py_unfold.
    destruct j as [| | | | |fields]; try by eexists.
    by destruct (Hshape fields).
  - rewrite Hobj. simpl. unfold Orchestrator.subscript. py_unfold.
    unfold REQUIRED_FIELDS in Hk.
    repeat match goal with
           | |- context [assoc ?f fields] =>
               lazymatch goal with
               | H : assoc f fields = _ |- _ => fail
               | _ => destruct (assoc f fields) eqn:?; simpl; [|by eexists]
               end
           end.
    exfalso. set_unfold. destruct Hk as [->|[->|[->|[->|[->|[]]]]]]; congruence.
Qed.

(** [main] turns every exception into a returned response. *)
Lemma main_never_raises records w : ∃ r w', main records w = (Returned r, w').
Proof.
  unfold main, Orchestrator.main. py_unfold.
  destruct (for_each records _ w) as [[[]|e] w1]; by do 2 eexists.
Qed.

(** C1, as the code has it.  When a batch holds a malformed message (a
    body that is not JSON, or JSON but no object, or an object without one
    of the five required fields), the
    message makes [process_sqs_message] raise, no message after it is
    processed (the outcome is that of the batch cut after the malformed
    message, and when all earlier messages went through, the services are
    left as those messages left them), and [main] does not let the error
    out: it returns the response with status 500. *)
Theorem orchestrator_malformed_message pre bad post w :
  malformed json_loads bad →
  (∀ w0, ∃ e, process bad w0 = (Raised e, w0))
  ∧ main (pre ++ bad :: post) w = main (pre ++ [bad]) w
  ∧ ∃ w', main (pre ++ bad :: post) w = (Returned (response_500 json_dumps), w')
          ∧ ∀ w1, for_each pre process w = (Returned (), w1) → w' = w1.
Proof.
  intros Hbad.
  assert (Hraise : ∀ w0, ∃ e, process bad w0 = (Raised e, w0))
    by (intros w0; by apply process_malformed_raises).
  assert (Hcut : ∀ rest, for_each (pre ++ bad :: rest) process w
                         = for_each (pre ++ [bad]) process w).
  { intros rest. rewrite !for_each_app.
    destruct (for_each pre process w) as [[[]|e] w1]; [|done].
    destruct (Hraise w1) as [e He].
    by rewrite !(for_each_raises_first _ _ _ _ e w1 He). }
  split; [done|]. split.
  - unfold main, Orchestrator.main. py_unfold. fold process. by rewrite (Hcut post).
  - unfold main, Orchestrator.main. py_unfold. fold process.
    rewrite for_each_app.
    destruct (for_each pre process w) as [[[]|e] w1] eqn:Hpre.
    + destruct (Hraise w1) as [e He].
      rewrite (for_each_raises_first _ _ _ _ e w1 He).
      exists w1. split; [done|]. by intros ? [= ->].
    + exists w1. split; [done|]. by intros ? [=].
Qed.

End OrchestratorSpec.

(** ** The ingestion adapter and the orchestrator on examples *)

Definition put_abc : S3EventHandler.s3_record :=
  {| S3EventHandler.eventName := "ObjectCreated:Put";
     S3EventHandler.eventTime := Some "2024-05-01T11:59:58.000Z";
     S3EventHandler.s3_bucket_name := "in";
     S3EventHandler.s3_object_key := "uploads/u1/abc.jpg";
     S3EventHandler.s3_object_size := Some 2000 |}.

Definition removed_abc : S3EventHandler.s3_record :=
  {| S3EventHandler.eventName := "ObjectRemoved:Delete";
     S3EventHandler.eventTime := Some "2024-05-01T11:59:59.000Z";
     S3EventHandler.s3_bucket_name := "in";
     S3EventHandler.s3_object_key := "uploads/u1/abc.jpg";
     S3EventHandler.s3_object_size := None |}.

Lemma ingestion_extracts_and_publishes_witness :
  S3EventHandler.extract_user_info_from_key "uploads/u1/abc.jpg"
  = Some {| S3EventHandler.user_id := "u1"; S3EventHandler.filename := "abc.jpg" |}
  ∧ sqs_queue
      (S3EventHandler.process_s3_event Fixture.isoformat Fixture.json_dumps
         Fixture.no_sqs_fault put_abc world0).2
    = [job_message Fixture.json_dumps put_abc "u1" "abc.jpg" 2000
         "2024-05-01T11:59:58.000Z" (Fixture.isoformat 0)]
  ∧ S3EventHandler.process_s3_event Fixture.isoformat Fixture.json_dumps
      Fixture.no_sqs_fault removed_abc world0
    = (Returned (), world0).
Proof.
  destruct (ingestion_extracts_and_publishes Fixture.isoformat Fixture.json_dumps
              Fixture.no_sqs_fault put_abc world0) as [Hvalid _].
  destruct (Hvalid "u1" "abc.jpg" eq_refl ltac:(discriminate)) as [Hinfo Hsend].
  destruct (ingestion_extracts_and_publishes Fixture.isoformat Fixture.json_dumps
              Fixture.no_sqs_fault removed_abc world0) as [_ Hdrop].
  split; [exact Hinfo|]. split.
  - rewrite (Hsend 2000 "2024-05-01T11:59:58.000Z" eq_refl eq_refl eq_refl eq_refl).
    reflexivity.
  - apply Hdrop. right. right. reflexivity.
Defined.

(** The job message the adapter builds for [put_abc], and a body that is
    not JSON. *)
Definition job_abc : json :=
  JObj (S3EventHandler.build_message put_abc
          {| S3EventHandler.user_id := "u1"; S3EventHandler.filename := "abc.jpg" |}
          2000 "2024-05-01T11:59:58.000Z" (Fixture.isoformat 0)).

Definition json_loads_abc : string → option json := Fixture.json_loads_of [job_abc].

Definition delivery (n : Z) (payload : string) : Orchestrator.sqs_record :=
  {| Orchestrator.messageId := "msg-" +:+ pretty n;
     Orchestrator.receiptHandle := "handle-" +:+ pretty n;
     Orchestrator.record_body := payload |}.

Definition orchestrator_main : list Orchestrator.sqs_record → py response :=
  Orchestrator.main Fixture.isoformat Fixture.timestamp json_loads_abc Fixture.json_dumps
    Fixture.json_dumps Fixture.md5_hexdigest Fixture.sfn_response Fixture.no_ddb_fault.

(** C1 as the specification words it fails: on a batch made of one message
    whose body is not JSON, the invocation raises nothing; it returns. *)
Lemma orchestrator_error_does_not_propagate :
  orchestrator_main [delivery 1 "not json"] world0
  = (Returned (response_500 Fixture.json_dumps), world0)
  ∧ ¬ ∃ e w', orchestrator_main [delivery 1 "not json"] world0 = (Raised e, w').
Proof.
  assert (H : orchestrator_main [delivery 1 "not json"] world0
              = (Returned (response_500 Fixture.json_dumps), world0))
    by (vm_compute; reflexivity).
  split; [exact H|]. intros (e & w' & H'). rewrite H in H'. discriminate.
Qed.

Lemma orchestrator_malformed_message_witness :
  ∃ w', orchestrator_main
          [delivery 1 (Fixture.json_dumps job_abc); delivery 2 "not json";
           delivery 3 (Fixture.json_dumps job_abc)] world0
        = (Returned (response_500 Fixture.json_dumps), w')
        ∧ length (sfn_executions w') = 1%nat.
Proof.
  destruct (orchestrator_malformed_message Fixture.isoformat Fixture.timestamp json_loads_abc
              Fixture.json_dumps Fixture.json_dumps Fixture.md5_hexdigest
              Fixture.sfn_response Fixture.no_ddb_fault
              [delivery 1 (Fixture.json_dumps job_abc)] (delivery 2 "not json")
              [delivery 3 (Fixture.json_dumps job_abc)] world0)
    as (_ & _ & w' & Hmain & Hpre).
  { left. vm_compute. reflexivity. }
  exists w'. split; [exact Hmain|].
  rewrite (Hpre _ eq_refl). vm_compute. reflexivity.
Defined.

(** ** The validation stage: which bytes it accepts *)

(** The header rule for a sniffed format: both markers for JPEG, the
    signature for PNG, one of the two signatures for GIF, nothing for any
    other format. *)
Definition header_rule (fmt : string) (data : list byte) : Prop :=
  (fmt ∈ ["jpeg"; "jpg"] →
     take 2 data = Validation.JPEG_SOI ∧ Validation.last_n 2 data = Validation.JPEG_EOI)
  ∧ (fmt = "png" → take 8 data = Validation.PNG_SIGNATURE)
  ∧ (fmt = "gif" → take 6 data ∈ [Validation.GIF87a; Validation.GIF89a]).

Lemma headers_ok_iff data fmt :
  Validation.validate_image_headers data fmt = true
  ↔ 8 ≤ Validation.len data ∧ header_rule fmt data.
Proof.
  unfold Validation.validate_image_headers, header_rule, Validation.bytes_eqb.
  case_bool_decide as Hnil; simpl.
  { subst data. split; [done|]. intros [H _]. by vm_compute in H. }
  destruct (Z.ltb_spec (Validation.len data) 8) as [Hlt|Hge].
  { split; [done|]. intros [H _]. lia. }
  case_bool_decide as Hj.
  { rewrite andb_true_iff, !bool_decide_eq_true. split.
    - intros [H1 H2]. split; [done|]. split; [done|].
      split; intros ->; set_solver.
    - intros [_ [H _]]. by apply H. }
  destruct (String.eqb_spec fmt "png") as [->|Hp].
  { rewrite bool_decide_eq_true. split.
    - intros H. split; [done|]. split; [set_unfold; naive_solver|]. split; [done|]. done.
    - intros [_ [_ [H _]]]. by apply H. }
  destruct (String.eqb_spec fmt "gif") as [->|Hg].
  { rewrite bool_decide_eq_true. split.
    - intros H. split; [done|]. split; [done|]. split; done.
    - intros [_ [_ [_ H]]]. by apply H. }
  split; [|done]. intros _. split; [done|]. split; [done|]. split; done.
Qed.

Lemma last_n_app (n : nat) (a b : list byte) :
  length b = n → Validation.last_n n (a ++ b) = b.
Proof.
  intros <-. unfold Validation.last_n. rewrite length_app.
  replace (length a + length b - length b)%nat with (length a) by lia.
  by rewrite drop_app_length.
Qed.

Section ValidationRule.
Variable imghdr_what : list byte → option string.

(** The sniffer names formats in lower case, as [imghdr] does. *)
Hypothesis what_lower : ∀ data fmt, imghdr_what data = Some fmt → Str.lower fmt = fmt.

(** C4, with the length guard of the header check.  The stage accepts a
    byte string exactly when it is no longer than 10 MiB, at least 8 bytes
    long, sniffed as one of jpeg, jpg, png, gif, and passes the header rule
    of its format.  A PNG passes the header check whatever follows its
    signature, a JPEG whose last two bytes are not the end marker fails it,
    and a format outside the four passes it unexamined. *)
Theorem validation_accepts_iff (data : list byte) (image_id : string) :
  (Validation.is_valid (Validation.validate_image imghdr_what data image_id) = true
   ↔ Validation.len data ≤ 10 * 1024 * 1024 ∧ 8 ≤ Validation.len data
     ∧ ∃ fmt, imghdr_what data = Some fmt ∧ fmt ∈ ["jpeg"; "jpg"; "png"; "gif"]
              ∧ header_rule fmt data)
  ∧ (∀ tail, Validation.validate_image_headers (Validation.PNG_SIGNATURE ++ tail) "png" = true)
  ∧ (∀ body tail, length tail = 2%nat → tail ≠ Validation.JPEG_EOI →
       Validation.validate_image_headers (body ++ tail) "jpeg" = false)
  ∧ (∀ fmt, fmt ∉ ["jpeg"; "jpg"; "png"; "gif"] → 8 ≤ Validation.len data →
       Validation.validate_image_headers data fmt = true).
Proof.
  split; [|split; [|split]].
  - unfold Validation.validate_image. change Validation.MAX_FILE_SIZE with (10 * 1024 * 1024).
    destruct (Z.ltb_spec (10 * 1024 * 1024) (Validation.len data)) as [Hbig|Hsmall].
    { simpl. split; [done|]. lia. }
    destruct (imghdr_what data) as [fmt|] eqn:Hfmt.
    2:{ simpl. split; [done|]. by intros (_ & _ & fmt & [=] & _). }
    rewrite (what_lower _ _ Hfmt).
    destruct (String.eqb_spec fmt "") as [->|Hne]; simpl.
    { split; [done|]. intros (_ & _ & fmt & [= <-] & Hin & _). set_solver. }
    case_bool_decide as Hallowed; simpl.
    2:{ split; [done|]. intros (_ & _ & fmt' & [= <-] & Hin & _). done. }
    destruct (Validation.validate_image_headers data fmt) eqn:Hh; simpl.
    + apply headers_ok_iff in Hh as [Hlen Hrule]. split; [|done].
      intros _. split; [done|]. split; [done|]. by exists fmt.
    + split; [done|]. intros (_ & Hlen & fmt' & [= <-] & _ & Hrule).
      assert (Validation.validate_image_headers data fmt = true) by by apply headers_ok_iff.
      congruence.
  - intros tail. apply headers_ok_iff. split.
    + unfold Validation.len. rewrite length_app. simpl. lia.
    + split; [intros H; set_solver|]. split; [done|]. done.
  - intros body tail Hlen Htail.
    destruct (Validation.validate_image_headers (body ++ tail) "jpeg") eqn:Hh; [|done].
    apply headers_ok_iff in Hh as [_ [Hj _]].
    destruct Hj as [_ Hj]; [set_solver|].
    rewrite last_n_app in Hj by done. done.
  - intros fmt Hfmt Hlen. apply headers_ok_iff. split; [done|].
    split; [intros H; set_solver|]. split; intros ->; set_solver.
Qed.

End ValidationRule.

Lemma fixture_what_lower data fmt :
  Fixture.imghdr_what data = Some fmt → Str.lower fmt = fmt.
Proof.
  unfold Fixture.imghdr_what.
  repeat case_bool_decide; intros [= <-]; reflexivity.
Qed.

Lemma validation_accepts_iff_witness :
  Validation.is_valid
    (Validation.validate_image Fixture.imghdr_what Fixture.jpeg_bytes "uploads/u1/abc.jpg")
  = true
  ∧ Validation.validate_image_headers
      (Fixture.jpeg_bytes ++ [x00; x00]) "jpeg" = false.
Proof.
  destruct (validation_accepts_iff Fixture.imghdr_what fixture_what_lower
              Fixture.jpeg_bytes "uploads/u1/abc.jpg") as (Hiff & _ & Hjpeg & _).
  split.
  - apply Hiff. split; [by vm_compute|]. split; [by vm_compute|].
    exists "jpeg". split; [reflexivity|]. split; [set_solver|].
    split; [intros _; split; reflexivity|]. split; discriminate.
  - apply Hjpeg; [reflexivity|discriminate].
Defined.

(** C4 as the specification words it, without the length guard, fails on
    the six bytes [GIF89a]: they are sniffed as gif and carry the GIF
    signature, and the stage rejects them. *)
Lemma validation_rejects_six_byte_gif :
  let data := Validation.GIF89a in
  ¬ (Validation.is_valid (Validation.validate_image Fixture.imghdr_what data "uploads/u1/a.gif")
     = true
     ↔ Validation.len data ≤ 10 * 1024 * 1024
       ∧ ∃ fmt, Fixture.imghdr_what data = Some fmt ∧ fmt ∈ ["jpeg"; "jpg"; "png"; "gif"]
                ∧ header_rule fmt data).
Proof.
  intros data [_ H].
  assert (Hfalse : Validation.is_valid
            (Validation.validate_image Fixture.imghdr_what data "uploads/u1/a.gif") = false)
    by reflexivity.
  rewrite H in Hfalse; [discriminate|].
  split; [by vm_compute|]. exists "gif". split; [reflexivity|]. split; [set_solver|].
  split; [intros Hin; set_solver|]. split; [discriminate|]. intros _. set_solver.
Qed.

(** ** The validation stage: what it records *)

(** What the status table holds for [key] under attribute [name]. *)
Definition recorded (w : world) (key name : string) : option attr :=
  ddb_table w !! key ≫= λ item, item !! name.

(** The statuses sent to the table, in the order of the requests. *)
Definition statuses_sent (w : world) : list (string * option attr) :=
  (λ r, (r.1, assoc "status" r.2)) <$> ddb_requests w.

Section ValidationStage.
Variable isoformat : nat → string.
Variable json_dumps : json → string.
Variable imghdr_what : list byte → option string.
Variable s3_object : world → string → string → outcome (list byte).
Variable ddb_fault : world → string → option exn.

Let main := Validation.main isoformat json_dumps imghdr_what s3_object ddb_fault.

Hypothesis table_up : ∀ w key, ddb_fault w key = None.

Lemma recorded_after_update w key status result now :
  recorded
    (set_attrs key [("status", AttrS status); ("validation_result", AttrS result);
                    ("updated_at", AttrS now)] w) key "status"
  = Some (AttrS status).
Proof.
  unfold recorded, set_attrs. simpl. rewrite lookup_insert_eq. simpl.
  by simplify_map_eq.
Qed.

(** A policy rejection, on a table that takes every update: the stage
    raises, and it has sent two updates for the image: first
    [validation_failed], then, from the handler that catches the
    rejection's own exception, [validation_error], which is what the
    table holds at the end. *)
Lemma validation_rejection_recorded_twice ev key bucket uid mail data error w :
  Validation.image_id ev = Some key → Validation.bucket_name ev = Some bucket →
  Validation.user_id ev = Some uid → Validation.user_email ev = Some mail →
  s3_object w bucket key = Returned data → data ≠ [] →
  Validation.validate_image imghdr_what data key = Validation.Invalid error →
  ∃ w', main ev w = (Raised (Exception ("Image validation failed: " +:+ error)), w')
        ∧ statuses_sent w'
          = statuses_sent w ++ [(key, Some (AttrS "validation_failed"));
                                (key, Some (AttrS "validation_error"))]
        ∧ recorded w' key "status" = Some (AttrS "validation_error").
Proof.
  intros Hid Hbucket Huid Hmail Hget Hdata Hinvalid.
  unfold main, Validation.main, Validation.required. py_unfold.
  rewrite Hid, Hbucket, Huid, Hmail. simpl.
  unfold Validation.download_image. rewrite Hget.
  destruct data as [|b data]; [done|]. simpl.
  rewrite Hinvalid. simpl.
  unfold Validation.update_validation_status, Validation.update_item, Validation.utcnow.
  py_unfold. simpl. rewrite !table_up. simpl.
  eexists. split; [reflexivity|]. split.
  - unfold statuses_sent. simpl. rewrite !fmap_app. simpl. by rewrite <- app_assoc.
  - apply recorded_after_update.
Qed.

(** Success: [validated] is sent, and held, before the stage returns. *)
Lemma validation_success_recorded ev key bucket uid mail data info w :
  Validation.image_id ev = Some key → Validation.bucket_name ev = Some bucket →
  Validation.user_id ev = Some uid → Validation.user_email ev = Some mail →
  s3_object w bucket key = Returned data → data ≠ [] →
  Validation.validate_image imghdr_what data key = Validation.Valid info →
  ∃ r w', main ev w = (Returned r, w')
          ∧ Validation.res_status r = "validated"
          ∧ statuses_sent w' = statuses_sent w ++ [(key, Some (AttrS "validated"))]
          ∧ recorded w' key "status" = Some (AttrS "validated").
Proof.
  intros Hid Hbucket Huid Hmail Hget Hdata Hvalid.
  unfold main, Validation.main, Validation.required. py_unfold.
  rewrite Hid, Hbucket, Huid, Hmail. simpl.
  unfold Validation.download_image. rewrite Hget.
  destruct data as [|b data]; [done|]. simpl.
  rewrite Hvalid. simpl.
  unfold Validation.update_validation_status, Validation.update_item, Validation.utcnow.
  py_unfold. simpl. rewrite !table_up. simpl.
  do 2 eexists. split; [reflexivity|]. split; [done|]. split.
  - unfold statuses_sent. simpl. by rewrite !fmap_app.
  - apply recorded_after_update.
Qed.

(** A download that fails: one update, [validation_error]. *)
Lemma validation_download_failure_recorded ev key bucket uid mail e w :
  Validation.image_id ev = Some key → Validation.bucket_name ev = Some bucket →
  Validation.user_id ev = Some uid → Validation.user_email ev = Some mail →
  s3_object w bucket key = Raised e →
  ∃ w', main ev w = (Raised (Exception ("Failed to download image: " +:+ key)), w')
        ∧ statuses_sent w' = statuses_sent w ++ [(key, Some (AttrS "validation_error"))]
        ∧ recorded w' key "status" = Some (AttrS "validation_error").
Proof.
  intros Hid Hbucket Huid Hmail Hget.
  unfold main, Validation.main, Validation.required. py_unfold.
  rewrite Hid, Hbucket, Huid, Hmail. simpl.
  unfold Validation.download_image. rewrite Hget. simpl.
  unfold Validation.update_validation_status, Validation.update_item, Validation.utcnow.
  py_unfold. simpl. rewrite !table_up. simpl.
  eexists. split; [reflexivity|]. split.
  - unfold statuses_sent. simpl. by rewrite !fmap_app.
  - apply recorded_after_update.
Qed.

End ValidationStage.

Definition bmp_event : Validation.event :=
  {| Validation.image_id := Some "uploads/u1/notes.bmp";
     Validation.bucket_name := Some "in";
     Validation.user_id := Some "u1";
     Validation.user_email := Some "u1@example.org" |}.

Definition validation_main : Validation.event → py Validation.stage_result :=
  Validation.main Fixture.isoformat Fixture.json_dumps Fixture.imghdr_what
    Fixture.s3_object_named Fixture.no_ddb_fault.

(** C2 on a bitmap, a format the policy rejects: the stage raises, having
    sent [validation_failed] and then [validation_error] for the image; the
    table ends with [validation_error]. *)
Theorem validation_rejection_ends_as_error :
  (validation_main bmp_event world0).1
  = Raised (Exception ("Image validation failed: Invalid file format: bmp. "
                       +:+ "Allowed formats: ['jpeg', 'jpg', 'png', 'gif']"))
  ∧ statuses_sent (validation_main bmp_event world0).2
    = [("uploads/u1/notes.bmp", Some (AttrS "validation_failed"));
       ("uploads/u1/notes.bmp", Some (AttrS "validation_error"))]
  ∧ recorded (validation_main bmp_event world0).2 "uploads/u1/notes.bmp" "status"
    = Some (AttrS "validation_error").
Proof.
  destruct (validation_rejection_recorded_twice Fixture.isoformat Fixture.json_dumps
              Fixture.imghdr_what Fixture.s3_object_named Fixture.no_ddb_fault
              (λ _ _, eq_refl) bmp_event "uploads/u1/notes.bmp" "in" "u1" "u1@example.org"
              Fixture.bmp_bytes
              "Invalid file format: bmp. Allowed formats: ['jpeg', 'jpg', 'png', 'gif']"
              world0 eq_refl eq_refl eq_refl eq_refl eq_refl ltac:(discriminate) eq_refl)
    as (w' & Hmain & Hsent & Hrec).
  unfold validation_main. rewrite Hmain. simpl. by rewrite Hsent, Hrec.
Qed.

(** ** One pipeline run on the example upload *)

Definition abc_context : run_context :=
  {| ctx_image_id := Some "uploads/u1/abc.jpg";
     ctx_bucket_name := Some "in";
     ctx_user_id := Some "u1";
     ctx_original_filename := Some "abc.jpg" |}.

Definition abc_event : stage_event := {| ev_input := None; ev_top := abc_context |}.

Definition abc_validation_event : Validation.event :=
  {| Validation.image_id := Some "uploads/u1/abc.jpg";
     Validation.bucket_name := Some "in";
     Validation.user_id := Some "u1";
     Validation.user_email := Some "unknown" |}.

Definition resize_main : stage_event → py Resize.result :=
  Resize.main (Some "in") (Some "out") Fixture.isoformat Fixture.s3_object
    Fixture.no_put_fault Fixture.no_ddb_fault Fixture.image Fixture.Image_open
    Fixture.width Fixture.height Fixture.format Fixture.mode Fixture.im_resize
    Fixture.im_convert Fixture.paste_on_white Fixture.im_save.

Definition watermark_main : stage_event → py Watermark.result :=
  Watermark.main (Some "in") (Some "out") "PROCESSED" 128 "bottom-right"
    Fixture.isoformat Fixture.utc_date Fixture.s3_object
    Fixture.no_put_fault Fixture.no_ddb_fault Fixture.image Fixture.Image_open
    Fixture.width Fixture.height Fixture.format Fixture.mode
    Fixture.im_convert Fixture.new_layer Fixture.textbbox Fixture.draw_text
    Fixture.alpha_composite Fixture.paste_on_white Fixture.im_save.

(** Orchestrator, then the three stages on the run context, each from the
    world the one before left. *)
Definition abc_run : world :=
  let w1 := (orchestrator_main [delivery 1 (Fixture.json_dumps job_abc)] world0).2 in
  let w2 := (validation_main abc_validation_event w1).2 in
  let w3 := (resize_main abc_event w2).2 in
  (watermark_main abc_event w3).2.

(** C3 on the example run.  The orchestrator and the validation stage file
    their status under the full key of the upload, the resize and the
    watermark stage under its second segment: the four updates of one run
    go to two records. *)
Theorem run_updates_two_records :
  (ddb_requests abc_run).*1
  = ["uploads/u1/abc.jpg"; "uploads/u1/abc.jpg"; "u1"; "u1"]
  ∧ size (ddb_table abc_run) = 2%nat
  ∧ recorded abc_run "uploads/u1/abc.jpg" "status" = Some (AttrS "validated")
  ∧ recorded abc_run "u1" "processing_status" = Some (AttrS "watermarked").
Proof. by vm_compute. Qed.

Lemma string_length_app a b :
  String.length (a +:+ b) = (String.length a + String.length b)%nat.
Proof. induction a as [|c a IH]; simpl; [done|]. by rewrite IH. Qed.

Lemma contains_app c a b :
  Str.contains c (a +:+ b) = Str.contains c a || Str.contains c b.
Proof. induction a as [|d a IH]; simpl; [done|]. by rewrite IH, orb_assoc. Qed.

(** For every well-formed upload key the name the resize and watermark
    stages derive is the uploader's segment, never the key itself. *)
Lemma derive_upload_key u f uid :
  Str.contains "/" u = false → Str.contains "/" f = false →
  let key := "uploads/" +:+ u +:+ "/" +:+ f in
  derive_actual_image_id (Some key) uid = u ∧ u ≠ key.
Proof.
  intros Hu Hf key. split.
  - unfold derive_actual_image_id, key.
    rewrite split_upload_key by done. reflexivity.
  - intros Heq. assert (Hl : String.length u = String.length key) by by rewrite <- Heq.
    unfold key in Hl. rewrite !string_length_app in Hl. simpl in Hl. lia.
Qed.

(** ** Which bucket the resize and watermark stages read *)

(** [m] sends exactly the get requests [l], whatever its outcome. *)
Definition gets {A} (l : list (option string * string)) (m : py A) : Prop :=
  ∀ w, s3_get_requests (m w).2 = s3_get_requests w ++ l.

Lemma gets_ret {A} (a : A) : gets [] (mret a).
Proof. intros w. simpl. by rewrite app_nil_r. Qed.

Lemma gets_raise {A} e : gets [] (raise e : py A).
Proof. intros w. simpl. by rewrite app_nil_r. Qed.

Lemma gets_lift {A} (o : outcome A) : gets [] (lift o).
Proof. intros w. simpl. by rewrite app_nil_r. Qed.

Lemma gets_bind {A B} (m : py A) (f : A → py B) :
  gets [] m → (∀ a, gets [] (f a)) → gets [] (m ≫= f).
Proof.
  intros Hm Hf w. unfold mbind, py_bind. specialize (Hm w).
  destruct (m w) as [[a|e] w1]; simpl in *; [|done].
  rewrite (Hf a w1), Hm. by rewrite app_nil_r.
Qed.

Lemma gets_try {A} (m : py A) (h : exn → py A) :
  gets [] m → (∀ e, gets [] (h e)) → gets [] (try_except m h).
Proof.
  intros Hm Hh w. unfold try_except. specialize (Hm w).
  destruct (m w) as [[a|e] w1]; simpl in *; [done|].
  rewrite (Hh e w1), Hm. by rewrite app_nil_r.
Qed.

Lemma gets_try_ret_bind {A B} l (a : A) (f : A → py B) (h : exn → py B) :
  gets l (try_except (f a) h) → gets l (try_except (mret a ≫= f) h).
Proof. intros H w. exact (H w). Qed.

Create HintDb gets discriminated.
#[local] Hint Resolve gets_ret gets_raise gets_lift : gets.

Ltac gets_step :=
  first
    [ apply gets_ret | apply gets_raise | apply gets_lift
    | apply gets_bind; [|intros ?]
    | apply gets_try; [|intros ?]
    | solve [eauto with gets]
    | match goal with
      | |- gets _ (if ?b then _ else _) => destruct b
      | |- gets _ (match ?x with _ => _ end) => destruct x
      | |- gets _ (let '(_, _) := ?p in _) => destruct p
      end ].

Definition set_bucket (b : option string) (event : stage_event) : stage_event :=
  let put ctx :=
    {| ctx_image_id := ctx_image_id ctx; ctx_bucket_name := b;
       ctx_user_id := ctx_user_id ctx;
       ctx_original_filename := ctx_original_filename ctx |} in
  match ev_input event with
  | Some ctx => {| ev_input := Some (put ctx); ev_top := ev_top event |}
  | None => {| ev_input := None; ev_top := put (ev_top event) |}
  end.

Section Download.
Variable INPUT_BUCKET OUTPUT_BUCKET : option string.
Variable WATERMARK_TEXT : string.
Variable WATERMARK_OPACITY : Z.
Variable WATERMARK_POSITION : string.
Variable isoformat utc_date : nat → string.
Variable s3_object : world → option string → string → outcome (list byte).
Variable s3_put_fault : world → put_request → option exn.
Variable ddb_fault : world → string → option exn.
Variable image : Type.
Variable Image_open : list byte → outcome image.
Variable im_width im_height : image → Z.
Variable im_format : image → option string.
Variable im_mode : image → string.
Variable im_resize : image → Z * Z → outcome image.
Variable im_convert : image → string → image.
Variable paste_on_white : image → bool → image.
Variable im_save : image → string → outcome (list byte).
Variable new_layer : Z * Z → image.
Variable textbbox : image → string → Z * Z * Z * Z.
Variable draw_text : image → Z * Z → string → Z → image.
Variable alpha_composite : image → image → outcome image.

Let resize := Resize.main INPUT_BUCKET OUTPUT_BUCKET isoformat s3_object s3_put_fault
  ddb_fault image Image_open im_width im_height im_format im_mode im_resize im_convert
  paste_on_white im_save.
Let watermark := Watermark.main INPUT_BUCKET OUTPUT_BUCKET WATERMARK_TEXT WATERMARK_OPACITY
  WATERMARK_POSITION isoformat utc_date s3_object s3_put_fault ddb_fault image Image_open
  im_width im_height im_format im_mode im_convert new_layer textbbox draw_text
  alpha_composite paste_on_white im_save.

Lemma gets_resize_utcnow : gets [] (Resize.utcnow isoformat).
Proof. intros w. simpl. by rewrite app_nil_r. Qed.

Lemma gets_resize_put r : gets [] (Resize.put_object s3_put_fault r).
Proof.
  intros w. unfold Resize.put_object.
  destruct (s3_put_fault w r); simpl; by rewrite app_nil_r.
Qed.

Lemma gets_resize_update key sets : gets [] (Resize.update_item ddb_fault key sets).
Proof.
  intros w. unfold Resize.update_item.
  destruct (ddb_fault w key); simpl; by rewrite app_nil_r.
Qed.

Lemma gets_watermark_utcnow : gets [] (Watermark.utcnow isoformat).
Proof. intros w. simpl. by rewrite app_nil_r. Qed.

Lemma gets_watermark_date : gets [] (Watermark.utcnow_date utc_date).
Proof. intros w. simpl. by rewrite app_nil_r. Qed.

Lemma gets_watermark_put r : gets [] (Watermark.put_object s3_put_fault r).
Proof.
  intros w. unfold Watermark.put_object.
  destruct (s3_put_fault w r); simpl; by rewrite app_nil_r.
Qed.

Lemma gets_watermark_update key sets : gets [] (Watermark.update_item ddb_fault key sets).
Proof.
  intros w. unfold Watermark.update_item.
  destruct (ddb_fault w key); simpl; by rewrite app_nil_r.
Qed.

#[local] Hint Resolve gets_resize_utcnow gets_resize_put gets_resize_update
  gets_watermark_utcnow gets_watermark_date gets_watermark_put gets_watermark_update : gets.

Lemma gets_resize_each boxes (one : Z * Z → py Resize.processed_image) :
  (∀ box, gets [] (one box)) → gets [] (Resize.resize_each boxes one).
Proof.
  intros Hone. induction boxes as [|box rest IH]; simpl; repeat gets_step; done.
Qed.

(** After the download, whatever the object store answered, no further
    get request follows, in the body or in the handler. *)
Lemma gets_try_download {A} bucket key (rest : list byte → py A) (h : exn → py A) :
  (∀ d, gets [] (rest d)) → (∀ e, gets [] (h e)) →
  gets [(bucket, key)] (try_except (Resize.get_object s3_object bucket key ≫= rest) h).
Proof.
  intros Hrest Hh w. unfold try_except, mbind, py_bind, Resize.get_object.
  destruct (s3_object w bucket key) as [d|e].
  - pose proof (Hrest d (got bucket key w)) as Hr.
    destruct (rest d (got bucket key w)) as [[a|e] w1]; simpl in *.
    + by rewrite Hr, app_nil_r.
    + by rewrite (Hh e w1), Hr, !app_nil_r.
  - by rewrite (Hh e (got bucket key w)), app_nil_r.
Qed.

Lemma resize_gets event key :
  ctx_image_id (input_data_of event) = Some key → key ≠ "" →
  truthy (ctx_bucket_name (input_data_of event)) = true →
  gets [(INPUT_BUCKET, key)] (resize event).
Proof.
  intros Hkey Hne Hbucket. unfold resize, Resize.main. cbv zeta.
  rewrite Hkey, Hbucket. simpl truthy.
  destruct (String.eqb_spec key "") as [|_]; [done|]. simpl negb. cbv iota.
  do 2 apply gets_try_ret_bind.
  apply gets_try_download.
  - intros d. repeat gets_step.
  - intros e. repeat gets_step.
Qed.

Lemma watermark_gets event key :
  ctx_image_id (input_data_of event) = Some key → key ≠ "" →
  truthy (ctx_bucket_name (input_data_of event)) = true →
  gets [(INPUT_BUCKET, key)] (watermark event).
Proof.
  intros Hkey Hne Hbucket. unfold watermark, Watermark.main. cbv zeta.
  rewrite Hkey, Hbucket. simpl truthy.
  destruct (String.eqb_spec key "") as [|_]; [done|]. simpl negb. cbv iota.
  do 2 apply gets_try_ret_bind.
  apply (gets_try_download INPUT_BUCKET key).
  - intros d. repeat gets_step.
  - intros e. repeat gets_step.
Qed.

Lemma input_data_of_set_bucket b event :
  input_data_of (set_bucket b event)
  = {| ctx_image_id := ctx_image_id (input_data_of event); ctx_bucket_name := b;
       ctx_user_id := ctx_user_id (input_data_of event);
       ctx_original_filename := ctx_original_filename (input_data_of event) |}.
Proof. by destruct event as [[ctx|] top]. Qed.

(** C10.  For a run context that names the original, both stages send
    their one get request to [INPUT_BUCKET] with the context's key; the
    context's [bucket_name] only has to be there: any two values of it give
    the same run, and without it the stage raises before any request. *)
Theorem stages_read_input_bucket event key w :
  ctx_image_id (input_data_of event) = Some key → key ≠ "" →
  (truthy (ctx_bucket_name (input_data_of event)) = true →
     s3_get_requests (resize event w).2 = s3_get_requests w ++ [(INPUT_BUCKET, key)]
     ∧ s3_get_requests (watermark event w).2 = s3_get_requests w ++ [(INPUT_BUCKET, key)])
  ∧ (∀ b b', truthy b = true → truthy b' = true →
       resize (set_bucket b event) w = resize (set_bucket b' event) w
       ∧ watermark (set_bucket b event) w = watermark (set_bucket b' event) w)
  ∧ (truthy (ctx_bucket_name (input_data_of event)) = false →
       ∃ w1 w2,
         resize event w
         = (Raised (Exception
              "Error in resize function: bucket_name is required but not provided"), w1)
         ∧ s3_get_requests w1 = s3_get_requests w
         ∧ watermark event w
           = (Raised (Exception
                "Error in watermark function: bucket_name is required but not provided"), w2)
         ∧ s3_get_requests w2 = s3_get_requests w).
Proof.
  intros Hkey Hne. split; [|split].
  - intros Hbucket. split.
    + by apply resize_gets.
    + by apply watermark_gets.
  - intros b b' Hb Hb'.
    unfold resize, watermark, Resize.main, Watermark.main. cbv zeta.
    rewrite !input_data_of_set_bucket. simpl ctx_bucket_name. simpl ctx_image_id.
    simpl ctx_user_id. simpl ctx_original_filename.
    by rewrite Hb, Hb'.
  - intros Hbucket.
    unfold resize, watermark, Resize.main, Watermark.main. cbv zeta.
    rewrite Hkey, Hbucket. simpl truthy.
    destruct (String.eqb_spec key "") as [|_]; [done|]. simpl negb.
    unfold Resize.update_item, Watermark.update_item. py_unfold. simpl.
    destruct (ddb_fault _ _); do 2 eexists;
      (split; [reflexivity|]; split; [reflexivity|]; split; reflexivity).
Qed.

End Download.


Lemma stages_read_input_bucket_witness :
  s3_get_requests (resize_main abc_event world0).2 = [(Some "in", "uploads/u1/abc.jpg")]
  ∧ s3_get_requests (watermark_main abc_event world0).2 = [(Some "in", "uploads/u1/abc.jpg")]
  ∧ resize_main (set_bucket (Some "elsewhere") abc_event) world0
    = resize_main (set_bucket (Some "in") abc_event) world0.
Proof.
  destruct (stages_read_input_bucket (Some "in") (Some "out") "PROCESSED" 128 "bottom-right"
              Fixture.isoformat Fixture.utc_date Fixture.s3_object
              Fixture.no_put_fault Fixture.no_ddb_fault Fixture.image Fixture.Image_open
              Fixture.width Fixture.height Fixture.format Fixture.mode Fixture.im_resize
              Fixture.im_convert Fixture.paste_on_white Fixture.im_save
              Fixture.new_layer Fixture.textbbox Fixture.draw_text Fixture.alpha_composite
              abc_event "uploads/u1/abc.jpg" world0 eq_refl ltac:(discriminate))
    as (Hget & Hsame & _).
  destruct (Hget eq_refl) as [Hr Hw].
  destruct (Hsame (Some "elsewhere") (Some "in") eq_refl eq_refl) as [Hs _].
  split; [exact Hr|]. split; [exact Hw|]. exact Hs.
Defined.

(** ** The retrieval service: which response each failure gets *)

Section Retrieval.
Variable OUTPUT_BUCKET : option string.
Variable json_dumps : json → string.
Variable cognito_get_user : string → outcome ImageRetrieval.cognito_user.
Variable s3_head_fault : option string → string → option exn.
Variable presign : option string → string → Z → outcome string.

Let handle := ImageRetrieval.handle_image_retrieval OUTPUT_BUCKET json_dumps
  cognito_get_user s3_head_fault presign.
Let respond := ImageRetrieval.create_response json_dumps.

(** The event of an authenticated caller: a bearer token Cognito accepts. *)
Definition authenticated (ev : ImageRetrieval.event) (user : ImageRetrieval.cognito_user)
    : Prop :=
  ∃ hs token, ImageRetrieval.ev_headers ev = ImageRetrieval.Present hs
              ∧ assoc "Authorization" hs = Some ("Bearer " +:+ token)
              ∧ Str.contains " " token = false
              ∧ cognito_get_user token = Returned user.

Lemma bearer_token token :
  Str.contains " " token = false →
  Str.startswith "Bearer " ("Bearer " +:+ token) = true
  ∧ Str.split " " ("Bearer " +:+ token) !! 1%nat = Some token.
Proof.
  intros H. split; [done|].
  change ("Bearer " +:+ token) with ("Bearer" +:+ String " " token).
  rewrite split_app_sep by done. by rewrite split_no_sep.
Qed.

(** No bearer header, or a token Cognito refuses: unauthorized. *)
Lemma retrieval_unauthorized ev w :
  (ImageRetrieval.ev_headers ev = ImageRetrieval.Absent
   ∨ ∃ hs, ImageRetrieval.ev_headers ev = ImageRetrieval.Present hs
           ∧ (Str.startswith "Bearer " (default "" (assoc "Authorization" hs)) = false
              ∨ ∃ token e, assoc "Authorization" hs = Some ("Bearer " +:+ token)
                           ∧ Str.contains " " token = false
                           ∧ cognito_get_user token = Raised e)) →
  ∃ payload, handle ev w = (Returned (respond 401 payload), w).
Proof.
  unfold handle, ImageRetrieval.handle_image_retrieval. py_unfold.
  intros [Habsent | (hs & Hhs & [Hnob | (token & e & Hauth & Htok & Hcog)])].
  - rewrite Habsent. simpl. by eexists.
  - rewrite Hhs. unfold ImageRetrieval.get_get. cbv beta iota. rewrite Hnob. simpl. by eexists.
  - rewrite Hhs. unfold ImageRetrieval.get_get. cbv beta iota. rewrite Hauth.
    destruct (bearer_token token Htok) as [Hstart Hsplit].
    cbn [default id]. rewrite Hstart, Hsplit. simpl.
    unfold ImageRetrieval.validate_token. rewrite Hcog. by eexists.
Qed.

(** An authenticated request whose parameters, absent or present, hold no
    [image_id]: bad request. *)
Lemma retrieval_bad_request ev user w :
  authenticated ev user →
  (ImageRetrieval.queryStringParameters ev = ImageRetrieval.Absent
   ∨ ∃ qs, ImageRetrieval.queryStringParameters ev = ImageRetrieval.Present qs
           ∧ truthy (assoc "image_id" qs) = false) →
  handle ev w
  = (Returned (respond 400 (JObj [("error", JStr "image_id parameter is required")])), w).
Proof.
  intros (hs & token & Hhs & Hauth & Htok & Hcog) Hqs.
  unfold handle, ImageRetrieval.handle_image_retrieval. py_unfold.
  rewrite Hhs. unfold ImageRetrieval.get_get. cbv beta iota. rewrite Hauth.
  destruct (bearer_token token Htok) as [Hstart Hsplit].
  cbn [default id]. rewrite Hstart, Hsplit. simpl.
  unfold ImageRetrieval.validate_token. rewrite Hcog.
  destruct Hqs as [Habsent | (qs & Hqs & Hnone)].
  - by rewrite Habsent.
  - rewrite Hqs. simpl. by rewrite Hnone.
Qed.

(** An authenticated request whose parameters are [null]: the lookup of
    [image_id] raises, and the answer is the internal error. *)
Lemma retrieval_null_parameters ev user w :
  authenticated ev user →
  ImageRetrieval.queryStringParameters ev = ImageRetrieval.Null →
  handle ev w
  = (Returned (ImageRetrieval.internal_error json_dumps
                 (AttributeError "'NoneType' object has no attribute 'get'")), w).
Proof.
  intros (hs & token & Hhs & Hauth & Htok & Hcog) Hqs.
  unfold handle, ImageRetrieval.handle_image_retrieval. py_unfold.
  rewrite Hhs. unfold ImageRetrieval.get_get. cbv beta iota. rewrite Hauth.
  destruct (bearer_token token Htok) as [Hstart Hsplit].
  cbn [default id]. rewrite Hstart, Hsplit. simpl.
  unfold ImageRetrieval.validate_token. rewrite Hcog.
  by rewrite Hqs.
Qed.

(** The existence check: not found carries the ids and the key searched;
    any other client error is the availability error. *)
Lemma retrieval_existence_check ev user qs image_id code w :
  authenticated ev user →
  ImageRetrieval.queryStringParameters ev = ImageRetrieval.Present qs →
  assoc "image_id" qs = Some image_id → image_id ≠ "" →
  let user_id := ImageRetrieval.Username user in
  let image_key :=
    ImageRetrieval.image_key_of user_id image_id (default "jpg" (assoc "extension" qs)) in
  s3_head_fault OUTPUT_BUCKET image_key = Some (ClientError code) →
  handle ev w
  = (Returned (if bool_decide (code ∈ ["404"; "NoSuchKey"])
               then ImageRetrieval.not_found json_dumps image_id user_id image_key
               else ImageRetrieval.check_failed json_dumps), w).
Proof.
  intros (hs & token & Hhs & Hauth & Htok & Hcog) Hqs Hid Hne user_id image_key Hhead.
  unfold handle, ImageRetrieval.handle_image_retrieval. py_unfold.
  rewrite Hhs. unfold ImageRetrieval.get_get. cbv beta iota. rewrite Hauth.
  destruct (bearer_token token Htok) as [Hstart Hsplit].
  cbn [default id]. rewrite Hstart, Hsplit. simpl.
  unfold ImageRetrieval.validate_token. rewrite Hcog.
  rewrite Hqs. simpl. rewrite Hid. simpl.
  destruct (String.eqb_spec image_id "") as [|_]; [done|]. simpl.
  fold user_id. fold image_key. rewrite Hhead.
  destruct (String.eqb_spec code "404") as [->|H404]; [done|].
  destruct (String.eqb_spec code "NoSuchKey") as [->|Hnsk]; [done|].
  by rewrite bool_decide_eq_false_2 by set_solver.
Qed.

End Retrieval.

Definition retrieval_handle : ImageRetrieval.event → py response :=
  ImageRetrieval.handle_image_retrieval (Some "out") Fixture.json_dumps
    Fixture.cognito_get_user Fixture.s3_head_fault Fixture.presign.

(** A GET with a good token and no query string at all, as API Gateway
    delivers it. *)
Definition get_without_query : ImageRetrieval.event :=
  {| ImageRetrieval.httpMethod := Some "GET";
     ImageRetrieval.ev_headers := ImageRetrieval.Present [("Authorization", "Bearer token-u1")];
     ImageRetrieval.queryStringParameters := ImageRetrieval.Null |}.

(** C9 on that request: it has no [image_id], and the answer is the
    internal error with status 500, not a bad request. *)
Theorem retrieval_without_query_is_500 :
  ∃ r, retrieval_handle get_without_query world0 = (Returned r, world0)
       ∧ statusCode r = 500
       ∧ body r = Fixture.json_dumps
           (JObj [("error", JStr "Internal server error");
                  ("message", JStr ("Error in image retrieval function: "
                                    +:+ "'NoneType' object has no attribute 'get'"))]).
Proof.
  eexists. split; [|split].
  - apply (retrieval_null_parameters (Some "out") Fixture.json_dumps Fixture.cognito_get_user
             Fixture.s3_head_fault Fixture.presign get_without_query
             {| ImageRetrieval.Username := "u1";
                ImageRetrieval.UserAttributes :=
                  [("email", "u1@example.org"); ("email_verified", "true")] |}).
    + exists [("Authorization", "Bearer token-u1")], "token-u1". by repeat split.
    + reflexivity.
  - reflexivity.
  - reflexivity.
Qed.

(** ** The watermark position *)

(** The five anchors of [position_of]. *)
Lemma position_of_anchors (W H tw th : Z) :
  Watermark.position_of "top-left" W H tw th = (10, 10)
  ∧ Watermark.position_of "top-right" W H tw th = (W - tw - 10, 10)
  ∧ Watermark.position_of "bottom-left" W H tw th = (10, H - th - 10)
  ∧ Watermark.position_of "bottom-right" W H tw th = (W - tw - 10, H - th - 10)
  ∧ Watermark.position_of "center" W H tw th = ((W - tw) `div` 2, (H - th) `div` 2)
  ∧ (∀ anchor, anchor ∉ ["top-left"; "top-right"; "bottom-left"; "center"] →
       Watermark.position_of anchor W H tw th = (W - tw - 10, H - th - 10)).
Proof.
  do 5 (split; [reflexivity|]).
  intros anchor Hanchor. unfold Watermark.position_of.
  repeat match goal with
         | |- context [String.eqb anchor ?s] =>
             destruct (String.eqb_spec anchor s) as [->|?]; [set_solver|]
         end.
  reflexivity.
Qed.

Lemma floor_half (n : Z) : 2 * (n `div` 2) ≤ n < 2 * (n `div` 2) + 2.
Proof.
  pose proof (Z.mod_pos_bound n 2 eq_refl). pose proof (Z.div_mod n 2 ltac:(lia)). lia.
Qed.

Section WatermarkDraw.
Variable INPUT_BUCKET OUTPUT_BUCKET : option string.
Variable WATERMARK_TEXT : string.
Variable WATERMARK_OPACITY : Z.
Variable WATERMARK_POSITION : string.
Variable isoformat utc_date : nat → string.
Variable s3_object : world → option string → string → outcome (list byte).
Variable s3_put_fault : world → put_request → option exn.
Variable ddb_fault : world → string → option exn.
Variable image : Type.
Variable Image_open : list byte → outcome image.
Variable im_width im_height : image → Z.
Variable im_format : image → option string.
Variable im_mode : image → string.
Variable im_convert : image → string → image.
Variable paste_on_white : image → bool → image.
Variable im_save : image → string → outcome (list byte).
Variable new_layer : Z * Z → image.
Variable textbbox : image → string → Z * Z * Z * Z.
Variable draw_text : image → Z * Z → string → Z → image.
Variable alpha_composite : image → image → outcome image.

Let watermark := Watermark.main INPUT_BUCKET OUTPUT_BUCKET WATERMARK_TEXT WATERMARK_OPACITY
  WATERMARK_POSITION isoformat utc_date s3_object s3_put_fault ddb_fault image Image_open
  im_width im_height im_format im_mode im_convert new_layer textbbox draw_text
  alpha_composite paste_on_white im_save.

(** [if image.mode != 'RGBA': image = image.convert('RGBA')] *)
Definition as_rgba (img0 : image) : image :=
  if negb (String.eqb (im_mode img0) "RGBA") then im_convert img0 "RGBA" else img0.

(** The bytes [main] stores when it draws [text] at [origin]: a
    transparent layer of the image's size with the text drawn on it, laid
    over the image, flattened onto white for JPEG, and encoded. *)
Definition drawn_at (img : image) (origin : Z * Z) (text original_format : string)
    : outcome (list byte) :=
  let watermark_layer := new_layer (im_width img, im_height img) in
  match alpha_composite img (draw_text watermark_layer origin text WATERMARK_OPACITY) with
  | Returned watermarked =>
      let watermarked :=
        if bool_decide (Str.upper original_format ∈ ["JPEG"; "JPG"]) then
          paste_on_white watermarked (String.eqb (im_mode watermarked) "RGBA")
        else watermarked in
      im_save watermarked (save_format original_format)
  | Raised e => Raised e
  end.

(** What a run that returns has drawn: the text, measured on the layer,
    at the position [position_of] gives for the measured width and height;
    the bytes of that picture are the body of the one object it wrote. *)
Lemma watermark_draws event w r w' :
  watermark event w = (Returned r, w') →
  ∃ data img0 x0 y0 x1 y1 bytes put,
    s3_object w INPUT_BUCKET (default "" (ctx_image_id (input_data_of event))) = Returned data
    ∧ Image_open data = Returned img0
    ∧ textbbox (new_layer (im_width (as_rgba img0), im_height (as_rgba img0)))
        (WATERMARK_TEXT +:+ " - " +:+ utc_date (clock w)) = (x0, y0, x1, y1)
    ∧ drawn_at (as_rgba img0)
        (Watermark.position_of WATERMARK_POSITION (im_width (as_rgba img0))
           (im_height (as_rgba img0)) (x1 - x0) (y1 - y0))
        (WATERMARK_TEXT +:+ " - " +:+ utc_date (clock w)) (Watermark.res_original_format r)
      = Returned bytes
    ∧ s3_puts w' = s3_puts w ++ [put]
    ∧ put_Body put = bytes.
Proof.
  unfold watermark, Watermark.main. cbv zeta.
  unfold Watermark.get_object, Watermark.put_object, Watermark.update_item,
    Watermark.utcnow, Watermark.utcnow_date.
  py_unfold. intros Hrun.
  destruct (truthy (ctx_image_id (input_data_of event))); [|simpl in Hrun;
    repeat (match type of Hrun with
            | context [ddb_fault ?a ?b] => destruct (ddb_fault a b)
            end; simpl in Hrun); discriminate].
  destruct (truthy (ctx_bucket_name (input_data_of event))); [|simpl in Hrun;
    repeat (match type of Hrun with
            | context [ddb_fault ?a ?b] => destruct (ddb_fault a b)
            end; simpl in Hrun); discriminate].
  cbv beta iota in Hrun.
  destruct (s3_object w INPUT_BUCKET _) as [data|e] eqn:Hget; [|simpl in Hrun;
    repeat (match type of Hrun with
            | context [ddb_fault ?a ?b] => destruct (ddb_fault a b)
            end; simpl in Hrun); discriminate].
  destruct (Image_open data) as [img0|e] eqn:Hopen; [|simpl in Hrun;
    repeat (match type of Hrun with
            | context [ddb_fault ?a ?b] => destruct (ddb_fault a b)
            end; simpl in Hrun); discriminate].
  exists data, img0. cbv beta iota in Hrun. cbn [clock got] in Hrun.
  fold (as_rgba img0) in Hrun.
  unfold drawn_at.
  destruct (textbbox _ _) as [[[x0 y0] x1] y1] eqn:Hbox.
  exists x0, y0, x1, y1. cbv beta iota in Hrun.
  destruct (alpha_composite _ _) as [watermarked|e] eqn:Hover; [|simpl in Hrun;
    repeat (match type of Hrun with
            | context [ddb_fault ?a ?b] => destruct (ddb_fault a b)
            end; simpl in Hrun); discriminate].
  cbv beta iota in Hrun.
  destruct (im_save _ _) as [bytes|e] eqn:Hsave; [|simpl in Hrun;
    repeat (match type of Hrun with
            | context [ddb_fault ?a ?b] => destruct (ddb_fault a b)
            end; simpl in Hrun); discriminate].
  cbv beta iota in Hrun.
  destruct (output_format _) as [file_extension content_type].
  destruct (s3_put_fault _ _) as [e|]; [simpl in Hrun;
    repeat (match type of Hrun with
            | context [ddb_fault ?a ?b] => destruct (ddb_fault a b)
            end; simpl in Hrun); discriminate|].
  cbv beta iota in Hrun.
  destruct (ddb_fault _ _); [simpl in Hrun;
    repeat (match type of Hrun with
            | context [ddb_fault ?a ?b] => destruct (ddb_fault a b)
            end; simpl in Hrun); discriminate|].
  injection Hrun as <- <-. cbn [Watermark.res_original_format].
  exists bytes. eexists. repeat split; first [reflexivity | eassumption].
Qed.

(** C6.  In a run that returns, the text is drawn once, on an image of
    size [W x H], with a measured text size [tw x th], at the origin the
    anchor names with the margin of 10: the four corners, the centre by
    floor division, and the bottom-right corner for any anchor that is
    none of the five names; what is drawn there is what the run stores. *)
Theorem watermark_position_formulas (event : stage_event) (w w' : world)
    (r : Watermark.result) :
  watermark event w = (Returned r, w') →
  ∃ data img0 x0 y0 x1 y1 origin bytes put,
    s3_object w INPUT_BUCKET (default "" (ctx_image_id (input_data_of event))) = Returned data
    ∧ Image_open data = Returned img0
    ∧ let img := as_rgba img0 in
      let text := WATERMARK_TEXT +:+ " - " +:+ utc_date (clock w) in
      let W := im_width img in
      let H := im_height img in
      let tw := x1 - x0 in
      let th := y1 - y0 in
      textbbox (new_layer (W, H)) text = (x0, y0, x1, y1)
      ∧ drawn_at img origin text (Watermark.res_original_format r) = Returned bytes
      ∧ s3_puts w' = s3_puts w ++ [put]
      ∧ put_Body put = bytes
      ∧ (WATERMARK_POSITION = "top-left" → origin = (10, 10))
      ∧ (WATERMARK_POSITION = "top-right" → origin = (W - tw - 10, 10))
      ∧ (WATERMARK_POSITION = "bottom-left" → origin = (10, H - th - 10))
      ∧ (WATERMARK_POSITION = "bottom-right" → origin = (W - tw - 10, H - th - 10))
      ∧ (WATERMARK_POSITION = "center" →
           origin = ((W - tw) `div` 2, (H - th) `div` 2)
           ∧ 2 * origin.1 ≤ W - tw < 2 * origin.1 + 2
           ∧ 2 * origin.2 ≤ H - th < 2 * origin.2 + 2)
      ∧ (WATERMARK_POSITION ∉ ["top-left"; "top-right"; "bottom-left"; "center"] →
           origin = (W - tw - 10, H - th - 10)).
Proof.
  intros Hrun.
  destruct (watermark_draws event w r w' Hrun)
    as (data & img0 & x0 & y0 & x1 & y1 & bytes & put & Hget & Hopen & Hbox & Hdrawn
        & Hputs & Hbody).
  exists data, img0, x0, y0, x1, y1.
  eexists. exists bytes, put.
  split; [exact Hget|]. split; [exact Hopen|]. cbv zeta.
  split; [exact Hbox|]. split; [exact Hdrawn|]. split; [exact Hputs|].
  split; [exact Hbody|].
  destruct (position_of_anchors (im_width (as_rgba img0)) (im_height (as_rgba img0))
              (x1 - x0) (y1 - y0)) as (Htl & Htr & Hbl & Hbr & Hc & Hother).
  split; [by intros ->|]. split; [by intros ->|]. split; [by intros ->|].
  split; [by intros ->|]. split.
  - intros ->. rewrite Hc. cbn [fst snd]. split; [done|]. split; apply floor_half.
  - exact (Hother WATERMARK_POSITION).
Qed.

End WatermarkDraw.

Lemma watermark_position_formulas_witness :
  ∃ put origin bytes,
    s3_puts (watermark_main abc_event world0).2 = [put]
    ∧ put_Body put = bytes
    ∧ origin = (270, 798)
    ∧ drawn_at 128 Fixture.image Fixture.width Fixture.height Fixture.mode
        Fixture.paste_on_white Fixture.im_save Fixture.new_layer Fixture.draw_text
        Fixture.alpha_composite
        {| Fixture.width := 1600; Fixture.height := 900; Fixture.format := None;
           Fixture.mode := "RGBA" |}
        origin "PROCESSED - 2024-05-01" "JPEG"
      = Returned bytes.
Proof.
  destruct (watermark_main abc_event world0) as [[r|e] w'] eqn:Hrun;
    [|vm_compute in Hrun; discriminate].
  assert (Hfmt : Watermark.res_original_format r = "JPEG").
  { assert (H : (watermark_main abc_event world0).1 = Returned r) by by rewrite Hrun.
    vm_compute in H. by injection H as <-. }
  destruct (watermark_position_formulas (Some "in") (Some "out") "PROCESSED" 128
              "bottom-right" Fixture.isoformat Fixture.utc_date Fixture.s3_object
              Fixture.no_put_fault Fixture.no_ddb_fault Fixture.image Fixture.Image_open
              Fixture.width Fixture.height Fixture.format Fixture.mode
              Fixture.im_convert Fixture.paste_on_white Fixture.im_save
              Fixture.new_layer Fixture.textbbox Fixture.draw_text Fixture.alpha_composite
              abc_event world0 w' r Hrun)
    as (data & img0 & x0 & y0 & x1 & y1 & origin & bytes & put & Hget & Hopen & Hbox
        & Hdrawn & Hputs & Hbody & _ & _ & _ & Hcorner & _).
  vm_compute in Hget. injection Hget as <-.
  vm_compute in Hopen. injection Hopen as <-.
  vm_compute in Hbox. injection Hbox as <- <- <- <-.
  specialize (Hcorner eq_refl). vm_compute in Hcorner.
  rewrite Hfmt in Hdrawn.
  exists put, origin, bytes. cbn [snd].
  split; [exact Hputs|]. split; [exact Hbody|]. split; [exact Hcorner|exact Hdrawn].
Defined.

(** ** The key of the watermarked object, written and looked up *)

Lemma rfind_none c s : Str.contains c s = false → Str.rfind c s = -1.
Proof.
  induction s as [|d s IH]; simpl; [done|].
  intros [Hd Hs]%orb_false_iff. rewrite (IH Hs), Hd. done.
Qed.

Lemma rfind_ge c s : -1 ≤ Str.rfind c s.
Proof.
  induction s as [|d s IH]; simpl; [done|].
  destruct (Z.leb_spec 0 (Str.rfind c s)); [lia|]. destruct (Ascii.eqb d c); lia.
Qed.

Lemma rfind_last c a b :
  Str.contains c b = false →
  Str.rfind c (a +:+ String c b) = Z.of_nat (String.length a).
Proof.
  intros Hb. induction a as [|d a IH].
  - simpl. rewrite (rfind_none _ _ Hb). simpl. by rewrite Ascii.eqb_refl.
  - simpl String.append. simpl Str.rfind. rewrite IH. simpl String.length.
    destruct (Z.leb_spec 0 (Z.of_nat (String.length a))); lia.
Qed.

Lemma take_app_length a b : Str.take (String.length a) (a +:+ b) = a.
Proof. induction a as [|c a IH]; simpl; [by destruct b|]. by rewrite IH. Qed.

Lemma splitext_root_simple base ext :
  Str.contains "/" base = false → Str.contains "/" ext = false →
  Str.contains "." ext = false → Str.all_dots base = false →
  Str.splitext_root (base +:+ "." +:+ ext) = base.
Proof.
  intros Hb He Hd Hdots. unfold Str.splitext_root.
  change (base +:+ "." +:+ ext) with (base +:+ String "." ext).
  rewrite (rfind_last "." base ext Hd).
  rewrite rfind_none by (rewrite contains_app; simpl; by rewrite Hb, He).
  unfold Str.slice. simpl Z.add. rewrite Z.sub_0_r, Nat2Z.id. simpl Str.drop.
  rewrite take_app_length, Hdots.
  destruct (Z.ltb_spec (-1) (Z.of_nat (String.length base))); [|lia].
  simpl. by rewrite Z.sub_0_r, Nat2Z.id, take_app_length.
Qed.

Lemma base_name_of_upload base ext actual :
  Str.contains "/" base = false → Str.contains "/" ext = false →
  Str.contains "." ext = false → Str.all_dots base = false →
  base_name_of (base +:+ "." +:+ ext) actual = base.
Proof.
  intros Hb He Hd Hdots. unfold base_name_of.
  destruct (String.eqb_spec (base +:+ "." +:+ ext) "image") as [Heq|_].
  - assert (Hc : Str.contains "." (base +:+ "." +:+ ext) = true).
    { rewrite contains_app. simpl. by rewrite orb_true_r. }
    by rewrite Heq in Hc.
  - simpl. by apply splitext_root_simple.
Qed.

Section WatermarkKey.
Variable INPUT_BUCKET OUTPUT_BUCKET : option string.
Variable WATERMARK_TEXT : string.
Variable WATERMARK_OPACITY : Z.
Variable WATERMARK_POSITION : string.
Variable isoformat utc_date : nat → string.
Variable json_dumps : json → string.
Variable s3_object : world → option string → string → outcome (list byte).
Variable s3_put_fault : world → put_request → option exn.
Variable ddb_fault : world → string → option exn.
Variable image : Type.
Variable Image_open : list byte → outcome image.
Variable im_width im_height : image → Z.
Variable im_format : image → option string.
Variable im_mode : image → string.
Variable im_convert : image → string → image.
Variable paste_on_white : image → bool → image.
Variable im_save : image → string → outcome (list byte).
Variable new_layer : Z * Z → image.
Variable textbbox : image → string → Z * Z * Z * Z.
Variable draw_text : image → Z * Z → string → Z → image.
Variable alpha_composite : image → image → outcome image.
Variable cognito_get_user : string → outcome ImageRetrieval.cognito_user.
Variable s3_head_fault : option string → string → option exn.
Variable presign : option string → string → Z → outcome string.

Let watermark := Watermark.main INPUT_BUCKET OUTPUT_BUCKET WATERMARK_TEXT WATERMARK_OPACITY
  WATERMARK_POSITION isoformat utc_date s3_object s3_put_fault ddb_fault image Image_open
  im_width im_height im_format im_mode im_convert new_layer textbbox draw_text
  alpha_composite paste_on_white im_save.
Let handle := ImageRetrieval.handle_image_retrieval OUTPUT_BUCKET json_dumps
  cognito_get_user s3_head_fault presign.

(** A watermark run that returns has written one object, to the output
    bucket, under the key made of the derived id, the base name and the
    extension it reports. *)
Lemma watermark_writes_key event w r w' :
  watermark event w = (Returned r, w') →
  let ctx := input_data_of event in
  let actual :=
    derive_actual_image_id (ctx_image_id ctx) (default "unknown" (ctx_user_id ctx)) in
  let base := base_name_of (default "image" (ctx_original_filename ctx)) actual in
  let key :=
    Watermark.output_key actual base (Watermark.wm_format (Watermark.res_watermarked_image r)) in
  Watermark.wm_key (Watermark.res_watermarked_image r) = key
  ∧ ∃ put, s3_puts w' = s3_puts w ++ [put] ∧ put_Key put = key
           ∧ put_Bucket put = OUTPUT_BUCKET.
Proof.
  unfold watermark, Watermark.main. cbv zeta.
  unfold Watermark.get_object, Watermark.put_object, Watermark.update_item,
    Watermark.utcnow, Watermark.utcnow_date.
  py_unfold. intros Hrun.
  repeat (match type of Hrun with
          | context [truthy ?x] => destruct (truthy x)
          | context [s3_object ?a ?b ?c] => destruct (s3_object a b c)
          | context [Image_open ?d] => destruct (Image_open d)
          | context [textbbox ?l ?t] => destruct (textbbox l t) as [[[? ?] ?] ?]
          | context [alpha_composite ?a ?b] => destruct (alpha_composite a b)
          | context [im_save ?a ?b] => destruct (im_save a b)
          | context [output_format ?f] => destruct (output_format f)
          | context [s3_put_fault ?a ?b] => destruct (s3_put_fault a b)
          | context [ddb_fault ?a ?b] => destruct (ddb_fault a b)
          end; simpl in Hrun); try discriminate.
  all: injection Hrun as <- <-; simpl; (split; [done|]); by eexists.
Qed.

(** The request of the owner for the image, with a token Cognito accepts,
    when the object is there: a signed URL for the key made of the caller's
    id, the image id and the extension, whatever the world. *)
Lemma retrieval_found ev user qs image_id url w :
  authenticated cognito_get_user ev user →
  ImageRetrieval.queryStringParameters ev = ImageRetrieval.Present qs →
  assoc "image_id" qs = Some image_id → image_id ≠ "" →
  let user_id := ImageRetrieval.Username user in
  let extension := default "jpg" (assoc "extension" qs) in
  let image_key := ImageRetrieval.image_key_of user_id image_id extension in
  s3_head_fault OUTPUT_BUCKET image_key = None →
  presign OUTPUT_BUCKET image_key 3600 = Returned url →
  handle ev w
  = (Returned
       {| statusCode := 200; headers := ImageRetrieval.CORS_HEADERS;
          body := json_dumps
            (JObj [("image_id", JStr image_id); ("user_id", JStr user_id);
                   ("processed_image",
                    JObj [("key", JStr image_key); ("download_url", JStr url);
                          ("expires_in", JStr "1 hour");
                          ("extension", JStr extension)])]) |}, w).
Proof.
  intros (hs & token & Hhs & Hauth & Htok & Hcog) Hqs Hid Hne user_id extension image_key
    Hhead Hurl.
  unfold handle, ImageRetrieval.handle_image_retrieval. py_unfold.
  rewrite Hhs. unfold ImageRetrieval.get_get. cbv beta iota. rewrite Hauth.
  destruct (bearer_token token Htok) as [Hstart Hsplit].
  cbn [default id]. rewrite Hstart, Hsplit. simpl.
  unfold ImageRetrieval.validate_token. rewrite Hcog.
  rewrite Hqs. simpl. rewrite Hid. simpl.
  destruct (String.eqb_spec image_id "") as [|_]; [done|]. simpl.
  fold user_id. fold extension. fold image_key. by rewrite Hhead, Hurl.
Qed.

(** C7.  An original at [uploads/u/base.ext], its file name in the run
    context as the ingestion adapter extracts it, and a watermark run that
    returns with the jpg extension: the one object the run wrote has the key
    [watermarked/u/base_watermarked.jpg], and that is the key the retrieval
    service makes from the caller's id [u], the image id [base] and the
    extension jpg; it is the key it checks and signs (or reports as
    searched), in any world, the status table never being looked at. *)
Theorem watermark_key_round_trip u base ext event w r w' ev user qs url w0 :
  Str.contains "/" u = false → u ≠ "" →
  Str.contains "/" base = false → Str.all_dots base = false →
  Str.contains "/" ext = false → Str.contains "." ext = false →
  let key := "uploads/" +:+ u +:+ "/" +:+ base +:+ "." +:+ ext in
  let written := "watermarked/" +:+ u +:+ "/" +:+ base +:+ "_watermarked.jpg" in
  ctx_image_id (input_data_of event) = Some key →
  ctx_original_filename (input_data_of event) = Some (base +:+ "." +:+ ext) →
  watermark event w = (Returned r, w') →
  Watermark.wm_format (Watermark.res_watermarked_image r) = "jpg" →
  authenticated cognito_get_user ev user → ImageRetrieval.Username user = u →
  ImageRetrieval.queryStringParameters ev = ImageRetrieval.Present qs →
  assoc "image_id" qs = Some base → default "jpg" (assoc "extension" qs) = "jpg" →
  S3EventHandler.extract_user_info_from_key key
  = Some {| S3EventHandler.user_id := u; S3EventHandler.filename := base +:+ "." +:+ ext |}
  ∧ (∃ put, s3_puts w' = s3_puts w ++ [put] ∧ put_Key put = written)
  ∧ ImageRetrieval.image_key_of u base "jpg" = written
  ∧ (s3_head_fault OUTPUT_BUCKET written = None →
     presign OUTPUT_BUCKET written 3600 = Returned url →
     handle ev w0
     = (Returned
          {| statusCode := 200; headers := ImageRetrieval.CORS_HEADERS;
             body := json_dumps
               (JObj [("image_id", JStr base); ("user_id", JStr u);
                      ("processed_image",
                       JObj [("key", JStr written); ("download_url", JStr url);
                             ("expires_in", JStr "1 hour");
                             ("extension", JStr "jpg")])]) |}, w0))
  ∧ (s3_head_fault OUTPUT_BUCKET written = Some (ClientError "404") →
     handle ev w0 = (Returned (ImageRetrieval.not_found json_dumps base u written), w0)).
Proof.
  intros Hu Hune Hbase Hdots Hext Hdot key written Hkey Hname Hrun Hjpg Hauth Huser Hqs
    Hid Hextension.
  assert (Hfile : Str.contains "/" (base +:+ "." +:+ ext) = false).
  { rewrite !contains_app. simpl. by rewrite Hbase, Hext. }
  assert (Hbase_ne : base ≠ "") by (intros ->; done).
  destruct (derive_upload_key u (base +:+ "." +:+ ext) (default "unknown"
              (ctx_user_id (input_data_of event))) Hu Hfile) as [Hderive _].
  assert (Hwritten : ImageRetrieval.image_key_of u base "jpg" = written) by reflexivity.
  split; [|split; [|split; [|split]]].
  - apply extract_valid; [|done]. by apply split_upload_key.
  - destruct (watermark_writes_key event w r w' Hrun) as (_ & put & Hputs & Hput & _).
    exists put. split; [done|].
    rewrite Hput, Hkey, Hname, Hjpg. simpl default. fold key in Hderive.
    rewrite Hderive. by rewrite base_name_of_upload.
  - done.
  - intros Hhead Hurl.
    pose proof (retrieval_found ev user qs base url w0 Hauth Hqs Hid Hbase_ne) as Hfound.
    simpl in Hfound. rewrite Hextension, Huser, Hwritten in Hfound. by apply Hfound.
  - intros Hhead.
    pose proof (retrieval_existence_check OUTPUT_BUCKET json_dumps cognito_get_user
                  s3_head_fault presign ev user qs base "404" w0 Hauth Hqs Hid Hbase_ne)
      as Hcheck.
    simpl in Hcheck. rewrite Hextension, Huser, Hwritten in Hcheck. by apply Hcheck.
Qed.

End WatermarkKey.


(** The owner asking for image [abc]. *)
Definition get_abc : ImageRetrieval.event :=
  {| ImageRetrieval.httpMethod := Some "GET";
     ImageRetrieval.ev_headers := ImageRetrieval.Present [("Authorization", "Bearer token-u1")];
     ImageRetrieval.queryStringParameters := ImageRetrieval.Present [("image_id", "abc")] |}.

Lemma watermark_key_round_trip_witness :
  put_Key <$> s3_puts (watermark_main abc_event world0).2
  = ["watermarked/u1/abc_watermarked.jpg"]
  ∧ ImageRetrieval.image_key_of "u1" "abc" "jpg" = "watermarked/u1/abc_watermarked.jpg"
  ∧ ∃ r, retrieval_handle get_abc world0 = (Returned r, world0) ∧ statusCode r = 200.
Proof.
  destruct (watermark_main abc_event world0) as [[r|e] w'] eqn:Hrun;
    [|vm_compute in Hrun; discriminate].
  assert (Hjpg : Watermark.wm_format (Watermark.res_watermarked_image r) = "jpg").
  { assert (H : (watermark_main abc_event world0).1 = Returned r) by by rewrite Hrun.
    vm_compute in H. by injection H as <-. }
  destruct (watermark_key_round_trip (Some "in") (Some "out") "PROCESSED" 128 "bottom-right"
              Fixture.isoformat Fixture.utc_date Fixture.json_dumps Fixture.s3_object
              Fixture.no_put_fault Fixture.no_ddb_fault Fixture.image Fixture.Image_open
              Fixture.width Fixture.height Fixture.format Fixture.mode
              Fixture.im_convert Fixture.paste_on_white Fixture.im_save
              Fixture.new_layer Fixture.textbbox Fixture.draw_text Fixture.alpha_composite
              Fixture.cognito_get_user Fixture.s3_head_fault Fixture.presign
              "u1" "abc" "jpg" abc_event world0 r w' get_abc
              {| ImageRetrieval.Username := "u1";
                 ImageRetrieval.UserAttributes :=
                   [("email", "u1@example.org"); ("email_verified", "true")] |}
              [("image_id", "abc")]
              "https://out.s3.amazonaws.com/watermarked/u1/abc_watermarked.jpg?X-Amz-Expires=3600"
              world0)
    as (_ & (put & Hputs & Hput) & Hsame & Hfound & _);
    try reflexivity; try discriminate; try exact Hrun; try exact Hjpg.
  { exists [("Authorization", "Bearer token-u1")], "token-u1". by repeat split. }
  split; [|split].
  - simpl. rewrite Hputs. simpl. by rewrite Hput.
  - exact Hsame.
  - eexists. split; [apply Hfound; reflexivity|reflexivity].
Defined.

(** ** Python floats: rounding to 53 bits *)
Lemma pow2_pos e : (0 < Float.pow2 e)%Q.
Proof. apply Qpower_0_lt. reflexivity. Qed.

Lemma pow2_add a b : (Float.pow2 (a + b) == Float.pow2 a * Float.pow2 b)%Q.
Proof. apply Qpower_plus. discriminate. Qed.


Lemma pow2_le a b : a ≤ b → (Float.pow2 a <= Float.pow2 b)%Q.
Proof. intros H. apply Qpower_le_compat_l; [done|discriminate]. Qed.


Lemma pow2_Z n : 0 ≤ n → (Float.pow2 n == inject_Z (2 ^ n))%Q.
Proof. intros H. unfold Float.pow2. by rewrite Zpower_Qpower. Qed.

Lemma pow2_lt_inv a b : (Float.pow2 a < Float.pow2 b)%Q → a < b.
Proof. intros H. apply (Qpower_lt_compat_l_inv 2); [done|reflexivity]. Qed.

(** [x = n / d] between the powers of two that frame [n] and [d] *)
Lemma ilog2_spec x :
  (0 < x)%Q → (Float.pow2 (Float.ilog2 x) <= x < Float.pow2 (Float.ilog2 x + 1))%Q.
Proof.
  intros Hx. unfold Float.ilog2.
  remember (Z.log2 (Qnum x) - Z.log2 (Z.pos (Qden x))) as e eqn:He.
  assert (Hn : 0 < Qnum x) by (destruct x as [n d]; unfold Qlt in Hx; simpl in *; lia).
  destruct (Z.log2_spec (Qnum x) Hn) as [Hn1 Hn2].
  destruct (Z.log2_spec (Z.pos (Qden x)) eq_refl) as [Hd1 Hd2].
  pose proof (Z.log2_nonneg (Qnum x)) as Hln.
  pose proof (Z.log2_nonneg (Z.pos (Qden x))) as Hld.
  remember (Z.log2 (Qnum x)) as ln eqn:Eln. remember (Z.log2 (Z.pos (Qden x))) as ld eqn:Eld.
  assert (Hxq : (x == inject_Z (Qnum x) / inject_Z (Z.pos (Qden x)))%Q).
  { destruct x as [n d]. simpl. apply Qmake_Qdiv. }
  assert (Hdpos : (0 < inject_Z (Z.pos (Qden x)))%Q) by (rewrite <- (Zlt_Qlt 0); lia).
  assert (Hmul : (x * inject_Z (Z.pos (Qden x)) == inject_Z (Qnum x))%Q).
  { rewrite Hxq at 1. field. intros H. rewrite H in Hdpos. by apply Qlt_irrefl in Hdpos. }
  (* n < 2^(ln+1), 2^ld <= d  :  x < pow2 (e + 1) *)
  assert (Hup : (x < Float.pow2 (e + 1))%Q).
  { apply (Qmult_lt_r _ _ (inject_Z (Z.pos (Qden x)))); [done|]. rewrite Hmul.
    apply Qlt_le_trans with (inject_Z (2 ^ (ln + 1))); [by rewrite <- Zlt_Qlt|].
    rewrite <- pow2_Z by lia.
    replace (ln + 1) with ((e + 1) + ld) by lia. rewrite pow2_add.
    apply Qmult_le_l; [apply pow2_pos|]. rewrite pow2_Z by lia. by rewrite <- Zle_Qle. }
  (* 2^ln <= n, d < 2^(ld+1)  :  pow2 (e - 1) < x *)
  assert (Hlow : (Float.pow2 (e - 1) < x)%Q).
  { apply (Qmult_lt_r _ _ (inject_Z (Z.pos (Qden x)))); [done|]. rewrite Hmul.
    apply Qlt_le_trans with (inject_Z (2 ^ ln)); [|by rewrite <- Zle_Qle].
    rewrite <- pow2_Z by lia.
    replace (Float.pow2 ln) with (Float.pow2 ((e - 1) + (ld + 1))) by (f_equal; lia).
    rewrite pow2_add.
    apply Qmult_lt_l; [apply pow2_pos|]. rewrite pow2_Z by lia. by rewrite <- Zlt_Qlt. }
  destruct (Qle_bool (Float.pow2 e) x) eqn:Hb.
  - apply Qle_bool_iff in Hb. by split.
  - split; [by apply Qlt_le_weak|].
    replace (e - 1 + 1) with e by lia.
    apply Qnot_le_lt. intros H. apply Qle_bool_iff in H. congruence.
Qed.

Lemma ilog2_unique x e :
  (Float.pow2 e <= x < Float.pow2 (e + 1))%Q → Float.ilog2 x = e.
Proof.
  intros [H1 H2].
  assert (Hx : (0 < x)%Q) by (eapply Qlt_le_trans; [apply pow2_pos|done]).
  destruct (ilog2_spec x Hx) as [H3 H4].
  assert (Float.ilog2 x < e + 1).
  { apply pow2_lt_inv. eapply Qle_lt_trans; done. }
  assert (e < Float.ilog2 x + 1).
  { apply pow2_lt_inv. eapply Qle_lt_trans; done. }
  lia.
Qed.

Lemma rne_cases x :
  let f := Qfloor x in
  (Float.rne x = f ∧ (x - inject_Z f <= 1 # 2)%Q
   ∧ ((x - inject_Z f == 1 # 2)%Q → Z.even f = true))
  ∨ (Float.rne x = f + 1 ∧ (1 # 2 <= x - inject_Z f)%Q
     ∧ ((x - inject_Z f == 1 # 2)%Q → Z.even f = false)).
Proof.
  intros f. unfold Float.rne. fold f.
  destruct (x - inject_Z f ?= 1 # 2)%Q eqn:Hc.
  - apply Qeq_alt in Hc. destruct (Z.even f) eqn:He.
    + left. split; [done|]. split; [by rewrite Hc|done].
    + right. split; [done|]. split; [by rewrite Hc|done].
  - apply Qlt_alt in Hc. left. split; [done|]. split; [by apply Qlt_le_weak|].
    intros H. rewrite H in Hc. by apply Qlt_irrefl in Hc.
  - apply Qgt_alt in Hc. right. split; [done|]. split; [by apply Qlt_le_weak|].
    intros H. rewrite H in Hc. by apply Qlt_irrefl in Hc.
Qed.


Lemma rne_mono x y : (x <= y)%Q → Float.rne x ≤ Float.rne y.
Proof.
  intros Hxy. pose proof (Qfloor_resp_le x y Hxy) as Hf.
  destruct (rne_cases x) as [(-> & Hx & Hxe) | (-> & Hx & Hxe)];
    destruct (rne_cases y) as [(-> & Hy & Hye) | (-> & Hy & Hye)]; try lia.
  destruct (Z.eq_dec (Qfloor x) (Qfloor y)) as [Heq|]; [|lia].
  exfalso. rewrite <- Heq in Hy, Hye.
  assert (Hhalf : (x - inject_Z (Qfloor x) == 1 # 2)%Q) by lra.
  assert (Hhalf' : (y - inject_Z (Qfloor x) == 1 # 2)%Q) by lra.
  rewrite (Hxe Hhalf) in Hye. by specialize (Hye Hhalf').
Qed.

Lemma rne_Z x k : (x == inject_Z k)%Q → Float.rne x = k.
Proof.
  intros H. unfold Float.rne.
  assert (Hf : Qfloor x = k) by (by rewrite (Qfloor_comp x (inject_Z k) H), Qfloor_Z).
  rewrite Hf.
  assert (Hc : (x - inject_Z k ?= 1 # 2)%Q = Lt) by (apply -> Qlt_alt; lra).
  by rewrite Hc.
Qed.

(** The scaled significand lies in [2^52, 2^53). *)
Lemma scaled_range x :
  (0 < x)%Q →
  (Float.pow2 52 <= x * Float.pow2 (52 - Float.ilog2 x) < Float.pow2 53)%Q.
Proof.
  intros Hx. destruct (ilog2_spec x Hx) as [Hlo Hhi].
  remember (Float.ilog2 x) as e eqn:He. clear He.
  pose proof (pow2_pos (52 - e)) as Hp.
  replace (Float.pow2 52) with (Float.pow2 (e + (52 - e))) by (f_equal; lia).
  replace (Float.pow2 53) with (Float.pow2 ((e + 1) + (52 - e))) by (f_equal; lia).
  rewrite (pow2_add e), (pow2_add (e + 1)). split.
  - apply Qmult_le_compat_r; [exact Hlo|by apply Qlt_le_weak].
  - apply Qmult_lt_compat_r; [exact Hp|exact Hhi].
Qed.

Lemma significand_range x :
  (0 < x)%Q → 2 ^ 52 ≤ Float.rne (x * Float.pow2 (52 - Float.ilog2 x)) ≤ 2 ^ 53.
Proof.
  intros Hx. destruct (scaled_range x Hx) as [Hlo Hhi].
  split.
  - rewrite <- (rne_Z (Float.pow2 52) (2 ^ 52)) by (by rewrite pow2_Z).
    by apply rne_mono.
  - rewrite <- (rne_Z (Float.pow2 53) (2 ^ 53)) by (by rewrite pow2_Z).
    apply rne_mono. by apply Qlt_le_weak.
Qed.

Lemma round_pos_range x :
  (0 < x)%Q →
  (Float.pow2 (Float.ilog2 x) <= Float.round_pos x <= Float.pow2 (Float.ilog2 x + 1))%Q.
Proof.
  intros Hx. destruct (significand_range x Hx) as [Hlo Hhi].
  unfold Float.round_pos. remember (Float.ilog2 x) as e eqn:He. clear He.
  remember (Float.rne (x * Float.pow2 (52 - e))) as m eqn:Hm. clear Hm.
  pose proof (pow2_pos (e - 52)) as Hp.
  rewrite Zle_Qle in Hlo, Hhi. rewrite <- pow2_Z in Hlo, Hhi by lia.
  replace (Float.pow2 e) with (Float.pow2 (52 + (e - 52))) by (f_equal; lia).
  replace (Float.pow2 (e + 1)) with (Float.pow2 (53 + (e - 52))) by (f_equal; lia).
  rewrite (pow2_add 52), (pow2_add 53).
  split; (apply Qmult_le_compat_r; [assumption|by apply Qlt_le_weak]).
Qed.

Lemma ilog2_mono x y : (0 < x)%Q → (x <= y)%Q → Float.ilog2 x ≤ Float.ilog2 y.
Proof.
  intros Hx Hxy.
  assert (Hy : (0 < y)%Q) by (eapply Qlt_le_trans; done).
  destruct (ilog2_spec x Hx) as [Hx1 _]. destruct (ilog2_spec y Hy) as [_ Hy2].
  assert (Float.ilog2 x < Float.ilog2 y + 1); [|lia].
  apply pow2_lt_inv. eapply Qle_lt_trans; [exact Hx1|]. eapply Qle_lt_trans; done.
Qed.

Lemma round_pos_mono x y :
  (0 < x)%Q → (x <= y)%Q → (Float.round_pos x <= Float.round_pos y)%Q.
Proof.
  intros Hx Hxy.
  assert (Hy : (0 < y)%Q) by (eapply Qlt_le_trans; done).
  pose proof (ilog2_mono x y Hx Hxy) as He.
  destruct (Z.eq_dec (Float.ilog2 x) (Float.ilog2 y)) as [Heq|Hne].
  - unfold Float.round_pos. rewrite <- Heq.
    apply Qmult_le_compat_r; [|apply Qlt_le_weak, pow2_pos].
    rewrite <- Zle_Qle. apply rne_mono.
    apply Qmult_le_compat_r; [done|apply Qlt_le_weak, pow2_pos].
  - destruct (round_pos_range x Hx) as [_ Hhi]. destruct (round_pos_range y Hy) as [Hlo _].
    eapply Qle_trans; [exact Hhi|]. eapply Qle_trans; [|exact Hlo].
    apply pow2_le. lia.
Qed.



Lemma Qnum_pos x : (0 < x)%Q ↔ 0 < Qnum x.
Proof. destruct x as [n d]. unfold Qlt. simpl. lia. Qed.

Lemma round_of_pos x : (0 < x)%Q → Float.round x = Float.round_pos x.
Proof.
  intros Hx%Qnum_pos. unfold Float.round. destruct (Qnum x); [lia|done|lia].
Qed.

Lemma round_positive x : (0 < x)%Q → (0 < Float.round x)%Q.
Proof.
  intros Hx. rewrite (round_of_pos x Hx).
  destruct (round_pos_range x Hx) as [Hlo _].
  eapply Qlt_le_trans; [apply pow2_pos|exact Hlo].
Qed.

Lemma round_mono x y : (0 <= x)%Q → (x <= y)%Q → (Float.round x <= Float.round y)%Q.
Proof.
  intros Hx Hxy.
  destruct (Qlt_le_dec 0 x) as [Hpos|Hzero].
  - assert (Hy : (0 < y)%Q) by (eapply Qlt_le_trans; done).
    rewrite (round_of_pos x Hpos), (round_of_pos y Hy). by apply round_pos_mono.
  - assert (Hx0 : Qnum x = 0).
    { destruct x as [n d]. unfold Qle in *. simpl in *. lia. }
    unfold Float.round at 1. rewrite Hx0.
    destruct (Qlt_le_dec 0 y) as [Hy|Hy].
    + apply Qlt_le_weak. by apply round_positive.
    + assert (Hy0 : Qnum y = 0).
      { assert (0 <= y)%Q by (eapply Qle_trans; done).
        destruct y as [n d]. unfold Qle in *. simpl in *. lia. }
      unfold Float.round. rewrite Hy0. apply Qle_refl.
Qed.



(** [int(x)] of a float that is not negative is its floor. *)
Lemma truncate_floor x : (0 <= x)%Q → Float.truncate x = Qfloor x.
Proof.
  intros Hx. destruct x as [n d]. unfold Float.truncate, Qfloor. simpl.
  apply Z.quot_div_nonneg; [|done]. unfold Qle in Hx. simpl in Hx. lia.
Qed.



Lemma gtb_true x y : Float.gtb x y = true ↔ (y < x)%Q.
Proof.
  unfold Float.gtb. rewrite negb_true_iff. split.
  - intros H. apply Qnot_le_lt. intros Hle. apply Qle_bool_iff in Hle. congruence.
  - intros H. destruct (Qle_bool x y) eqn:Hb; [|done].
    apply Qle_bool_iff in Hb. exfalso. by apply (Qlt_not_le y x).
Qed.

Lemma gtb_false x y : Float.gtb x y = false ↔ (x <= y)%Q.
Proof.
  unfold Float.gtb. rewrite negb_false_iff. apply Qle_bool_iff.
Qed.

Lemma ratio_pos a b : 0 < a → 0 < b → (0 < inject_Z a / inject_Z b)%Q.
Proof.
  intros Ha Hb. apply Qlt_shift_div_l; [rewrite <- (Zlt_Qlt 0); lia|].
  rewrite Qmult_0_l, <- (Zlt_Qlt 0). lia.
Qed.

Lemma div_int_pos a b : 0 < a → 0 < b → (0 < Float.div_int a b)%Q.
Proof. intros Ha Hb. apply round_positive. by apply ratio_pos. Qed.















(** ** The resize stage: the three variants and their sizes *)



(** [image.format or 'JPEG'] *)
Definition original_format_of (format : option string) : string :=
  let original_format := default "JPEG" format in
  if String.eqb original_format "" then "JPEG" else original_format.

(** The descriptor of the variant for one box. *)
Definition variant_of (actual_image_id base_name original_format : string) (iw ih : Z)
    (box : Z * Z) : Resize.processed_image :=
  let new_size := Resize.fit_within iw ih box in
  {| Resize.pi_key :=
       Resize.output_key actual_image_id base_name new_size (output_format original_format).1;
     Resize.pi_size := size_str new_size.1 new_size.2;
     Resize.pi_format := (output_format original_format).1;
     Resize.pi_content_type := (output_format original_format).2 |}.

Section ResizeVariants.
Variable INPUT_BUCKET OUTPUT_BUCKET : option string.
Variable isoformat : nat → string.
Variable s3_object : world → option string → string → outcome (list byte).
Variable s3_put_fault : world → put_request → option exn.
Variable ddb_fault : world → string → option exn.
Variable image : Type.
Variable Image_open : list byte → outcome image.
Variable im_width im_height : image → Z.
Variable im_format : image → option string.
Variable im_mode : image → string.
Variable im_resize : image → Z * Z → outcome image.
Variable im_convert : image → string → image.
Variable paste_on_white : image → bool → image.
Variable im_save : image → string → outcome (list byte).

Let resize := Resize.main INPUT_BUCKET OUTPUT_BUCKET isoformat s3_object s3_put_fault
  ddb_fault image Image_open im_width im_height im_format im_mode im_resize im_convert
  paste_on_white im_save.
Let resize_one := Resize.resize_one OUTPUT_BUCKET isoformat s3_put_fault image
  im_width im_height im_mode im_resize im_convert paste_on_white im_save.

(** The collaborators do their part: Pillow encodes, the stores accept. *)
Hypothesis save_ok : ∀ img fmt, ∃ data, im_save img fmt = Returned data.
Hypothesis put_ok : ∀ w r, s3_put_fault w r = None.
Hypothesis table_ok : ∀ w key, ddb_fault w key = None.




End ResizeVariants.





(** * Further properties *)

(** ** Keys the ingestion adapter accepts *)

(** What [split] returns determines the string: the first field has no
    separator, and the rest is the split of what follows it. *)
Lemma split_cons_inv sep s p ps :
  Str.split sep s = p :: ps →
  Str.contains sep p = false
  ∧ match ps with
    | [] => s = p
    | _ :: _ => ∃ s', s = p +:+ String sep s' ∧ Str.split sep s' = ps
    end.
Proof.
  revert p ps. induction s as [|c s IH]; intros p ps; simpl.
  - intros [= <- <-]. done.
  - destruct (Ascii.eqb_spec c sep) as [->|Hc].
    + intros [= <- <-]. split; [done|].
      pose proof (split_not_nil sep s) as Hne.
      destruct (Str.split sep s) as [|q qs] eqn:Hs; [done|].
      exists s. by rewrite Hs.
    + destruct (Str.split sep s) as [|q qs] eqn:Hs; [by destruct (split_not_nil sep s)|].
      intros [= <- <-]. destruct (IH q qs eq_refl) as [Hq Hrest].
      split.
      * simpl. rewrite Hq. by destruct (Ascii.eqb_spec c sep).
      * destruct qs as [|q' qs]; [by subst|].
        destruct Hrest as (s' & -> & Hs'). by exists s'.
Qed.

Lemma split_three_inv sep s a b c :
  Str.split sep s = [a; b; c] →
  s = a +:+ String sep (b +:+ String sep c)
  ∧ Str.contains sep a = false ∧ Str.contains sep b = false ∧ Str.contains sep c = false.
Proof.
  intros H. destruct (split_cons_inv _ _ _ _ H) as [Ha (s1 & -> & H1)].
  destruct (split_cons_inv _ _ _ _ H1) as [Hb (s2 & -> & H2)].
  destruct (split_cons_inv _ _ _ _ H2) as [Hc ->]. done.
Qed.

(** X1.  [extract_user_info_from_key] returns a user and a file name
    exactly for the keys [uploads/<user>/<file>] whose user segment is not
    empty and whose two segments hold no slash; putting the two parts back
    under [uploads/] gives the key again. *)
Theorem extract_user_info_round_trip (key : string) (info : S3EventHandler.user_info) :
  S3EventHandler.extract_user_info_from_key key = Some info
  ↔ key = "uploads/" +:+ S3EventHandler.user_id info +:+ "/" +:+ S3EventHandler.filename info
    ∧ S3EventHandler.user_id info ≠ ""
    ∧ Str.contains "/" (S3EventHandler.user_id info) = false
    ∧ Str.contains "/" (S3EventHandler.filename info) = false.
Proof.
  split.
  - unfold S3EventHandler.extract_user_info_from_key.
    destruct (Str.split "/" key) as [|p0 [|p1 [|p2 [|p3 l]]]] eqn:Hs; try done.
    destruct (String.eqb_spec p0 "uploads") as [->|]; [|done]. simpl.
    destruct (String.eqb_spec p1 "") as [|Hne]; [done|].
    intros [= <-]. simpl.
    destruct (split_three_inv _ _ _ _ _ Hs) as (-> & _ & Hu & Hf). done.
  - intros (-> & Hne & Hu & Hf). destruct info as [u f]. simpl in *.
    apply extract_valid; [|done]. by apply split_upload_key.
Qed.

(** ** A batch of S3 notifications *)

(** The records [process_s3_event] builds a message for. *)
Definition accepted (record : S3EventHandler.s3_record) : bool :=
  Str.startswith "ObjectCreated" (S3EventHandler.eventName record)
  && bool_decide (is_Some (S3EventHandler.extract_user_info_from_key
                             (S3EventHandler.s3_object_key record))).

Definition ImageId (m : sqs_message) : option string := assoc "ImageId" (MessageAttributes m).
Definition UserId (m : sqs_message) : option string := assoc "UserId" (MessageAttributes m).

Definition response_200 (json_dumps : json → string) (message : string) : response :=
  {| statusCode := 200; headers := []; body := json_dumps (JObj [("message", JStr message)]) |}.

Section IngestionBatch.
Variable isoformat : nat → string.
Variable json_dumps : json → string.
Variable sqs_fault : world → sqs_message → option exn.

Let process := S3EventHandler.process_s3_event isoformat json_dumps sqs_fault.
Let main := S3EventHandler.main isoformat json_dumps sqs_fault.

Lemma process_skipped record w :
  accepted record = false → process record w = (Returned (), w).
Proof.
  unfold accepted, process, S3EventHandler.process_s3_event. py_unfold.
  destruct (Str.startswith _ _); simpl; [|done].
  destruct (S3EventHandler.extract_user_info_from_key _); [|done].
  rewrite bool_decide_eq_true_2 by done. done.
Qed.

Lemma process_accepted record w :
  accepted record = true →
  is_Some (S3EventHandler.s3_object_size record) → is_Some (S3EventHandler.eventTime record) →
  ∃ m, ImageId m = Some (S3EventHandler.s3_object_key record)
       ∧ process record w
         = match sqs_fault (tick w) m with
           | Some e => (Raised e, tick w)
           | None => (Returned (), enqueue m (tick w))
           end.
Proof.
  unfold accepted, process, S3EventHandler.process_s3_event. py_unfold.
  intros [Hc Hinfo]%andb_true_iff [size Hsize] [time Htime].
  apply bool_decide_eq_true in Hinfo as [info Hinfo].
  rewrite Hc, Hinfo, Hsize, Htime. simpl.
  unfold S3EventHandler.send_sqs_message, S3EventHandler.sqs_send_message. py_unfold. simpl.
  match goal with |- context [sqs_fault (tick w) ?m0] => exists m0 end.
  split; [reflexivity|]. destruct (sqs_fault _ _); reflexivity.
Qed.

(** X2.  When the queue takes every message and every record that is
    accepted (a creation event on a key [uploads/<user>/<file>]) carries
    its size and event time, a batch ends with status 200 and the queue has
    grown by exactly one message per accepted record, in the order of the
    batch, each naming its record's key; every other record leaves nothing.
    The clock was read once per message. *)
Theorem ingestion_batch (records : list S3EventHandler.s3_record) (w : world) :
  (∀ w m, sqs_fault w m = None) →
  (∀ r, r ∈ records → accepted r = true →
        is_Some (S3EventHandler.s3_object_size r) ∧ is_Some (S3EventHandler.eventTime r)) →
  ∃ w' new,
    main records w = (Returned (response_200 json_dumps "S3 events processed successfully"), w')
    ∧ sqs_queue w' = sqs_queue w ++ new
    ∧ ImageId <$> new = (λ r, Some (S3EventHandler.s3_object_key r)) <$> filter (λ r, accepted r = true) records
    ∧ clock w' = (clock w + length new)%nat.
Proof.
  intros Hok Hfields.
  assert (Hloop : ∃ w' new,
             for_each records process w = (Returned (), w')
             ∧ sqs_queue w' = sqs_queue w ++ new
             ∧ ImageId <$> new
               = (λ r, Some (S3EventHandler.s3_object_key r))
                   <$> filter (λ r, accepted r = true) records
             ∧ clock w' = (clock w + length new)%nat).
  { revert w. induction records as [|r records IH]; intros w.
    - exists w, []. simpl. rewrite app_nil_r. split; [done|]. split; [done|]. split; [done|]. lia.
    - destruct (accepted r) eqn:Hacc.
      + destruct (Hfields r (list_elem_of_here _ _) Hacc) as [Hsize Htime].
        destruct (process_accepted r w Hacc Hsize Htime) as (m & Hm & Hrun).
        rewrite Hok in Hrun.
        destruct (IH (λ r' Hr', Hfields r' (list_elem_of_further _ _ _ Hr')) (enqueue m (tick w)))
          as (w' & new & Hrest & Hq & Hids & Hclock).
        exists w', (m :: new). split; [|split; [|split]].
        * simpl. py_unfold. by rewrite Hrun.
        * rewrite Hq. simpl. by rewrite <- app_assoc.
        * rewrite filter_cons_True by done. by rewrite !fmap_cons, Hm, Hids.
        * rewrite Hclock. simpl. lia.
      + destruct (IH (λ r' Hr', Hfields r' (list_elem_of_further _ _ _ Hr')) w)
          as (w' & new & Hrest & Hq & Hids & Hclock).
        exists w', new. split; [|split; [|split]]; try done.
        * simpl. py_unfold. by rewrite (process_skipped r w Hacc).
        * rewrite filter_cons_False by (by rewrite Hacc). done. }
  destruct Hloop as (w' & new & Hrun & Hq & Hids & Hclock).
  exists w', new. split; [|done].
  unfold main, S3EventHandler.main. py_unfold. fold process. by rewrite Hrun.
Qed.

(** X3.  A record that is accepted but lacks its size or its event time,
    or whose message the queue refuses, ends the batch with status 500:
    nothing is raised, the messages of the records before it stay in the
    queue, and no record after it is looked at. *)
Theorem ingestion_batch_failure (pre post : list S3EventHandler.s3_record)
    (bad : S3EventHandler.s3_record) (w w1 : world) :
  for_each pre process w = (Returned (), w1) →
  accepted bad = true →
  S3EventHandler.s3_object_size bad = None ∨ S3EventHandler.eventTime bad = None
  ∨ (∀ m, is_Some (sqs_fault (tick w1) m)) →
  ∃ w', main (pre ++ bad :: post) w = (Returned (response_500 json_dumps), w')
        ∧ sqs_queue w' = sqs_queue w1.
Proof.
  intros Hpre Hacc Hbad.
  assert (Hraise : ∃ e w', process bad w1 = (Raised e, w') ∧ sqs_queue w' = sqs_queue w1).
  { revert Hacc. unfold accepted, process, S3EventHandler.process_s3_event. py_unfold.
    intros [Hc Hinfo]%andb_true_iff.
    apply bool_decide_eq_true in Hinfo as [info Hinfo]. rewrite Hc, Hinfo. simpl.
    destruct (S3EventHandler.s3_object_size bad) as [size|] eqn:Hsize; [|by do 2 eexists].
    destruct (S3EventHandler.eventTime bad) as [time|] eqn:Htime; [|by do 2 eexists].
    destruct Hbad as [?|[?|Hfault]]; [done..|]. simpl.
    unfold S3EventHandler.send_sqs_message, S3EventHandler.sqs_send_message. py_unfold. simpl.
    match goal with |- context [sqs_fault (tick w1) ?m] => destruct (Hfault m) as [e ->] end.
    by do 2 eexists. }
  destruct Hraise as (e & w' & Hrun & Hq).
  exists w'. split; [|done].
  unfold main, S3EventHandler.main. py_unfold. fold process.
  rewrite for_each_app, Hpre. rewrite (for_each_raises_first _ _ _ _ e w' Hrun). done.
Qed.

End IngestionBatch.

Definition put_no_size : S3EventHandler.s3_record :=
  {| S3EventHandler.eventName := "ObjectCreated:Put";
     S3EventHandler.eventTime := Some "2024-05-01T12:00:03.000Z";
     S3EventHandler.s3_bucket_name := "in";
     S3EventHandler.s3_object_key := "uploads/u2/def.png";
     S3EventHandler.s3_object_size := None |}.

Definition put_elsewhere : S3EventHandler.s3_record :=
  {| S3EventHandler.eventName := "ObjectCreated:Put";
     S3EventHandler.eventTime := Some "2024-05-01T12:00:01.000Z";
     S3EventHandler.s3_bucket_name := "in";
     S3EventHandler.s3_object_key := "thumbnails/u1/abc.jpg";
     S3EventHandler.s3_object_size := Some 100 |}.

Lemma ingestion_batch_witness :
  ∃ w', S3EventHandler.main Fixture.isoformat Fixture.json_dumps Fixture.no_sqs_fault
          [put_abc; removed_abc; put_elsewhere; put_abc] world0
        = (Returned (response_200 Fixture.json_dumps "S3 events processed successfully"), w')
        ∧ ImageId <$> sqs_queue w' = [Some "uploads/u1/abc.jpg"; Some "uploads/u1/abc.jpg"]
        ∧ clock w' = 2%nat.
Proof.
  destruct (ingestion_batch Fixture.isoformat Fixture.json_dumps Fixture.no_sqs_fault
              [put_abc; removed_abc; put_elsewhere; put_abc] world0)
    as (w' & new & Hmain & Hq & Hids & Hclock).
  - reflexivity.
  - intros r Hr Hacc.
    assert (Hcases : r = put_abc ∨ r = removed_abc ∨ r = put_elsewhere) by set_solver.
    destruct Hcases as [-> | [-> | ->]]; [by split; eexists|done|by split; eexists].
  - exists w'. split; [exact Hmain|].
    simpl in Hq. subst new. split; [exact Hids|].
    rewrite Hclock. apply (f_equal length) in Hids. rewrite length_fmap in Hids.
    rewrite Hids. reflexivity.
Defined.

Lemma ingestion_batch_failure_witness :
  ∃ w', S3EventHandler.main Fixture.isoformat Fixture.json_dumps Fixture.no_sqs_fault
          [put_abc; put_no_size; put_abc] world0
        = (Returned (response_500 Fixture.json_dumps), w')
        ∧ length (sqs_queue w') = 1%nat.
Proof.
  destruct (ingestion_batch_failure Fixture.isoformat Fixture.json_dumps Fixture.no_sqs_fault
              [put_abc] [put_abc] put_no_size world0
              (S3EventHandler.process_s3_event Fixture.isoformat Fixture.json_dumps
                 Fixture.no_sqs_fault put_abc world0).2)
    as (w' & Hmain & Hq).
  - reflexivity.
  - reflexivity.
  - by left.
  - exists w'. split; [exact Hmain|]. rewrite Hq. reflexivity.
Defined.

(** ** The orchestrator: starting a run *)

Lemma length_take8 s : (String.length (Str.take 8 s) ≤ 8)%nat.
Proof.
  assert (H : ∀ n s, (String.length (Str.take n s) ≤ n)%nat).
  { clear s. induction n as [|n IH]; intros [|c s]; simpl; try lia.
    specialize (IH s). lia. }
  apply H.
Qed.

Lemma length_pretty_N_go (k : nat) (x : N) (s : string) :
  (x < 10 ^ N.of_nat k)%N →
  (String.length (pretty_N_go x s) ≤ String.length s + k)%nat.
Proof.
  revert x s. induction k as [|k IH]; intros x s Hx.
  - assert (x = 0%N) as -> by (simpl in Hx; lia). rewrite pretty_N_go_0. lia.
  - destruct (decide (x = 0%N)) as [->|Hpos]; [rewrite pretty_N_go_0; lia|].
    rewrite pretty_N_go_step by lia.
    etrans; [apply IH|simpl; lia].
    apply N.Div0.div_lt_upper_bound.
    rewrite Nat2N.inj_succ, N.pow_succ_r' in Hx. lia.
Qed.

Lemma length_pretty_Z (k : nat) (z : Z) :
  (0 < k)%nat → 0 ≤ z < 10 ^ Z.of_nat k → (String.length (pretty z) ≤ k)%nat.
Proof.
  intros Hk [Hz0 Hz]. destruct z as [|p|p]; [simpl; lia| |lia].
  unfold pretty, pretty_Z, pretty, pretty_positive, pretty, pretty_N.
  destruct (decide (N.pos p = 0%N)) as [|_]; [done|].
  etrans; [apply (length_pretty_N_go k)|simpl; lia].
  apply N2Z.inj_lt. rewrite N2Z.inj_pow, nat_N_Z. exact Hz.
Qed.

Lemma append_inj_l (a x y : string) : a +:+ x = a +:+ y → x = y.
Proof. induction a as [|c a IH]; simpl; [done|]. intros [= H]. by apply IH. Qed.

(** [f"img-{user_id[:8]}-{image_hash}-{timestamp}"] for a [str] user id *)
Definition execution_name_of (md5_hexdigest : string → string) (user_id image_id : string)
    (ts : Z) : string :=
  "img-" +:+ Str.take 8 user_id +:+ "-" +:+ Str.take 8 (md5_hexdigest image_id)
  +:+ "-" +:+ pretty ts.

(** The workflow input [process_sqs_message] builds from a parsed body. *)
Definition workflow_input_of (fields : list (string * json))
    (image_id bucket_name user_id upload_timestamp file_size : json) (now : string)
    : list (string * json) :=
  [("image_id", image_id); ("bucket_name", bucket_name); ("user_id", user_id);
   ("user_email", default (JStr "unknown") (assoc "user_email" fields));
   ("upload_timestamp", upload_timestamp);
   ("original_filename", default (JStr "unknown") (assoc "original_filename" fields));
   ("file_size", file_size);
   ("processing_start_time", JStr now); ("status", JStr "processing")].

Section OrchestratorRun.
Variable isoformat : nat → string.
Variable timestamp : nat → Z.
Variable json_loads : string → option json.
Variable json_dumps : json → string.
Variable py_repr : json → string.
Variable md5_hexdigest : string → string.
Variable sfn_response : world → execution → outcome string.
Variable ddb_fault : world → string → option exn.

Let start_workflow := Orchestrator.start_workflow timestamp json_dumps py_repr md5_hexdigest
                        sfn_response.
Let update_dynamodb_status := Orchestrator.update_dynamodb_status isoformat ddb_fault.
Let process := Orchestrator.process_sqs_message isoformat timestamp json_loads json_dumps
                 py_repr md5_hexdigest sfn_response ddb_fault.
Let main := Orchestrator.main isoformat timestamp json_loads json_dumps
              py_repr md5_hexdigest sfn_response ddb_fault.

(** X4.  [update_dynamodb_status] never raises, whatever the table
    answers and whatever the image id is: it returns, having read the clock
    once and started or queued nothing; the status is in the table when
    the table took the update. *)
Theorem status_update_never_raises (image_id user_id : json) (status : string)
    (execution_arn : option string) (w : world) :
  ∃ w', update_dynamodb_status image_id user_id status execution_arn w = (Returned (), w')
        ∧ clock w' = S (clock w)
        ∧ sfn_executions w' = sfn_executions w
        ∧ sqs_queue w' = sqs_queue w
        ∧ ∀ key, image_id = JStr key →
            match ddb_fault (tick w) key with
            | None => recorded w' key "status" = Some (AttrS status)
            | Some _ => ddb_table w' = ddb_table w
            end.
Proof.
  unfold update_dynamodb_status, Orchestrator.update_dynamodb_status,
    Orchestrator.update_item, Orchestrator.utcnow. py_unfold. simpl.
  destruct image_id as [| | |key| |]; simpl; try (eexists; repeat split; done).
  destruct (ddb_fault (tick w) key) eqn:Hfault; simpl.
  - eexists. repeat split; try done. intros ? [= <-]. by rewrite Hfault.
  - eexists. repeat split; try done. intros ? [= <-]. rewrite Hfault.
    unfold recorded, set_attrs. cbn [ddb_table].
    rewrite lookup_insert_eq. cbn [mbind option_bind].
    destruct execution_arn as [arn|]; [destruct (String.eqb arn "")|];
      simpl; by simplify_map_eq.
Qed.

(** X5.  A message whose body parses to an object with the five required
    fields, the image id and the user id being strings, and a workflow
    engine that accepts the start: [process_sqs_message] returns, exactly
    one run was started, named from the first 8 characters of the user id,
    the first 8 of the digest of the image id and the time, with the
    workflow input (status [processing], [unknown] for an absent e-mail or
    file name) as its input; one update was sent to the table, for the
    record keyed by the image id, and when the table took it the record
    holds status [processing]. *)
Theorem orchestrator_starts_run (record : Orchestrator.sqs_record)
    (fields : list (string * json)) (iid uid arn : string)
    (bucket_name upload_timestamp file_size : json) (w : world) :
  json_loads (Orchestrator.record_body record) = Some (JObj fields) →
  assoc "image_id" fields = Some (JStr iid) →
  assoc "bucket_name" fields = Some bucket_name →
  assoc "user_id" fields = Some (JStr uid) →
  assoc "upload_timestamp" fields = Some upload_timestamp →
  assoc "file_size" fields = Some file_size →
  let x :=
    {| exec_name := execution_name_of md5_hexdigest uid iid (timestamp (S (clock w)));
       exec_input :=
         json_dumps (JObj (workflow_input_of fields (JStr iid) bucket_name (JStr uid)
                             upload_timestamp file_size (isoformat (clock w)))) |} in
  sfn_response (tick (tick w)) x = Returned arn →
  ∃ w' sets,
    process record w = (Returned (), w')
    ∧ sfn_executions w' = sfn_executions w ++ [x]
    ∧ ddb_requests w' = ddb_requests w ++ [(iid, sets)]
    ∧ assoc "status" sets = Some (AttrS "processing")
    ∧ assoc "execution_arn" sets = (if String.eqb arn "" then None else Some (AttrS arn))
    ∧ ((∀ w0 key, ddb_fault w0 key = None) →
       recorded w' iid "status" = Some (AttrS "processing")).
Proof.
  intros Hbody Hiid Hbucket Huid Hts Hsize x Hstart.
  unfold process, Orchestrator.process_sqs_message, Orchestrator.subscript,
    Orchestrator.dict_get, Orchestrator.start_workflow, Orchestrator.slice8,
    Orchestrator.start_execution, Orchestrator.utcnow, Orchestrator.utcnow_timestamp.
  py_unfold. rewrite Hbody. cbv beta iota.
  rewrite Hiid, Hbucket, Huid, Hts, Hsize. py_unfold.
  cbn [assoc String.eqb Ascii.eqb Bool.eqb].
  cbv beta iota. cbn [Orchestrator.format_value clock tick].
  fold (workflow_input_of fields (JStr iid) bucket_name (JStr uid) upload_timestamp file_size
          (isoformat (clock w))).
  fold (execution_name_of md5_hexdigest uid iid (timestamp (S (clock w)))).
  fold x. rewrite Hstart. cbv beta iota.
  unfold Orchestrator.update_dynamodb_status, Orchestrator.update_item, Orchestrator.utcnow.
  py_unfold. cbn [clock tick started].
  set (sets := if String.eqb arn "" then _ else _).
  assert (Hsets : assoc "status" sets = Some (AttrS "processing")
                  ∧ assoc "execution_arn" sets
                    = (if String.eqb arn "" then None else Some (AttrS arn)))
    by (subst sets; by destruct (String.eqb arn "")).
  destruct Hsets as [Hstatus Harn].
  destruct (ddb_fault _ iid) eqn:Hfault; cbv beta iota.
  - exists (requested iid sets (tick (started x (tick (tick w))))), sets.
    split; [reflexivity|]. split; [done|]. split; [reflexivity|].
    split; [done|]. split; [done|].
    intros Hup. by rewrite Hup in Hfault.
  - exists (set_attrs iid sets (requested iid sets (tick (started x (tick (tick w)))))), sets.
    split; [reflexivity|]. split; [done|]. split; [reflexivity|].
    split; [done|]. split; [done|].
    intros _. unfold recorded, set_attrs. cbn [ddb_table].
    rewrite lookup_insert_eq. cbn [mbind option_bind].
    subst sets. destruct (String.eqb arn ""); simpl; by simplify_map_eq.
Qed.

(** X6.  When the workflow engine refuses the start, the message fails
    with the engine's error: no run is recorded as started, no update is
    sent to the table, and a batch made of this message ends with status
    500. *)
Theorem orchestrator_refused_start (record : Orchestrator.sqs_record)
    (fields : list (string * json)) (iid uid : string)
    (bucket_name upload_timestamp file_size : json) (e : exn) (w : world) :
  json_loads (Orchestrator.record_body record) = Some (JObj fields) →
  assoc "image_id" fields = Some (JStr iid) →
  assoc "bucket_name" fields = Some bucket_name →
  assoc "user_id" fields = Some (JStr uid) →
  assoc "upload_timestamp" fields = Some upload_timestamp →
  assoc "file_size" fields = Some file_size →
  (∀ x, sfn_response (tick (tick w)) x = Raised e) →
  process record w = (Raised e, tick (tick w))
  ∧ sfn_executions (tick (tick w)) = sfn_executions w
  ∧ ddb_requests (tick (tick w)) = ddb_requests w
  ∧ main [record] w = (Returned (response_500 json_dumps), tick (tick w)).
Proof.
  intros Hbody Hiid Hbucket Huid Hts Hsize Hstart.
  assert (Hrun : process record w = (Raised e, tick (tick w))).
  { unfold process, Orchestrator.process_sqs_message, Orchestrator.subscript,
      Orchestrator.dict_get, Orchestrator.start_workflow, Orchestrator.slice8,
      Orchestrator.start_execution, Orchestrator.utcnow, Orchestrator.utcnow_timestamp.
    py_unfold. rewrite Hbody. cbv beta iota.
    rewrite Hiid, Hbucket, Huid, Hts, Hsize. py_unfold.
    cbn [assoc String.eqb Ascii.eqb Bool.eqb].
    cbv beta iota. by rewrite Hstart. }
  split; [exact Hrun|]. split; [done|]. split; [done|].
  unfold main, Orchestrator.main. py_unfold. fold process.
  by rewrite (for_each_raises_first _ _ _ _ e _ Hrun).
Qed.

(** X7.  The name of a started run, for string ids: it is at most 80
    characters long for any time below [10^58] seconds, and for one image
    of one user two names are equal exactly when the two starts fall in the
    same second. *)
Theorem execution_name_bound (workflow_input : list (string * json)) (iid uid arn : string)
    (w w' : world) :
  assoc "image_id" workflow_input = Some (JStr iid) →
  assoc "user_id" workflow_input = Some (JStr uid) →
  0 ≤ timestamp (clock w) < 10 ^ 58 →
  start_workflow workflow_input w = (Returned arn, w') →
  ∃ x, sfn_executions w' = sfn_executions w ++ [x]
       ∧ exec_name x = execution_name_of md5_hexdigest uid iid (timestamp (clock w))
       ∧ (String.length (exec_name x) ≤ 80)%nat
       ∧ ∀ ts, execution_name_of md5_hexdigest uid iid ts = exec_name x
               ↔ ts = timestamp (clock w).
Proof.
  intros Hiid Huid Hts.
  unfold start_workflow, Orchestrator.start_workflow, Orchestrator.slice8,
    Orchestrator.start_execution, Orchestrator.utcnow_timestamp.
  py_unfold. rewrite Hiid, Huid. py_unfold. cbv beta iota. cbn [Orchestrator.format_value].
  fold (execution_name_of md5_hexdigest uid iid (timestamp (clock w))).
  destruct (sfn_response _ _) as [arn'|e]; [|done]. intros [= -> <-].
  eexists. split; [reflexivity|]. split; [reflexivity|]. split.
  - cbn [exec_name]. unfold execution_name_of.
    pose proof (length_take8 uid) as Ha.
    pose proof (length_take8 (md5_hexdigest iid)) as Hb.
    pose proof (length_pretty_Z 58 (timestamp (clock w)) ltac:(lia) Hts) as Hc.
    revert Ha Hb Hc.
    generalize (Str.take 8 uid), (Str.take 8 (md5_hexdigest iid)),
      (pretty (timestamp (clock w))).
    intros a b c Ha Hb Hc. rewrite !string_length_app. simpl String.length. lia.
  - intros ts. cbn [exec_name]. unfold execution_name_of. split; [|by intros ->].
    intros H. do 5 apply append_inj_l in H. by apply (inj pretty) in H.
Qed.

End OrchestratorRun.

Lemma orchestrator_starts_run_witness :
  ∃ w', Orchestrator.process_sqs_message Fixture.isoformat Fixture.timestamp json_loads_abc
          Fixture.json_dumps Fixture.json_dumps Fixture.md5_hexdigest Fixture.sfn_response
          Fixture.no_ddb_fault (delivery 1 (Fixture.json_dumps job_abc)) world0
        = (Returned (), w')
        ∧ exec_name <$> sfn_executions w' = ["img-u1-5f4dcc3b-1714564801"]
        ∧ recorded w' "uploads/u1/abc.jpg" "status" = Some (AttrS "processing").
Proof.
  destruct (orchestrator_starts_run Fixture.isoformat Fixture.timestamp json_loads_abc
              Fixture.json_dumps Fixture.json_dumps Fixture.md5_hexdigest Fixture.sfn_response
              Fixture.no_ddb_fault (delivery 1 (Fixture.json_dumps job_abc))
              (S3EventHandler.build_message put_abc
                 {| S3EventHandler.user_id := "u1"; S3EventHandler.filename := "abc.jpg" |}
                 2000 "2024-05-01T11:59:58.000Z" (Fixture.isoformat 0))
              "uploads/u1/abc.jpg" "u1"
              "arn:aws:states:us-east-1:000000000000:execution:pipeline:img-u1-5f4dcc3b-1714564801"
              (JStr "in") (JStr (Fixture.isoformat 0)) (JNum 2000) world0)
    as (w' & sets & Hrun & Hexec & _ & _ & _ & Hrec); try reflexivity.
  exists w'. split; [exact Hrun|]. split.
  - rewrite Hexec. reflexivity.
  - apply Hrec. reflexivity.
Defined.

Definition sfn_down (w : world) (x : execution) : outcome string :=
  Raised (ClientError "ExecutionLimitExceeded").

Lemma orchestrator_refused_start_witness :
  Orchestrator.main Fixture.isoformat Fixture.timestamp json_loads_abc
    Fixture.json_dumps Fixture.json_dumps Fixture.md5_hexdigest sfn_down
    Fixture.no_ddb_fault [delivery 1 (Fixture.json_dumps job_abc)] world0
  = (Returned (response_500 Fixture.json_dumps), tick (tick world0)).
Proof.
  apply (orchestrator_refused_start Fixture.isoformat Fixture.timestamp json_loads_abc
           Fixture.json_dumps Fixture.json_dumps Fixture.md5_hexdigest sfn_down
           Fixture.no_ddb_fault (delivery 1 (Fixture.json_dumps job_abc))
           (S3EventHandler.build_message put_abc
              {| S3EventHandler.user_id := "u1"; S3EventHandler.filename := "abc.jpg" |}
              2000 "2024-05-01T11:59:58.000Z" (Fixture.isoformat 0))
           "uploads/u1/abc.jpg" "u1" (JStr "in") (JStr (Fixture.isoformat 0)) (JNum 2000)
           (ClientError "ExecutionLimitExceeded") world0); reflexivity.
Defined.

Lemma execution_name_bound_witness :
  ∃ x, sfn_executions
         (Orchestrator.start_workflow Fixture.timestamp Fixture.json_dumps Fixture.json_dumps
            Fixture.md5_hexdigest Fixture.sfn_response
            [("image_id", JStr "uploads/u1/abc.jpg"); ("user_id", JStr "u1")] world0).2 = [x]
       ∧ (String.length (exec_name x) ≤ 80)%nat.
Proof.
  destruct (Orchestrator.start_workflow Fixture.timestamp Fixture.json_dumps Fixture.json_dumps
              Fixture.md5_hexdigest Fixture.sfn_response
              [("image_id", JStr "uploads/u1/abc.jpg"); ("user_id", JStr "u1")] world0)
    as [[arn|e] w'] eqn:Hrun; [|vm_compute in Hrun; discriminate].
  destruct (execution_name_bound Fixture.timestamp Fixture.json_dumps Fixture.json_dumps
              Fixture.md5_hexdigest Fixture.sfn_response
              [("image_id", JStr "uploads/u1/abc.jpg"); ("user_id", JStr "u1")]
              "uploads/u1/abc.jpg" "u1" arn world0 w' eq_refl eq_refl)
    as (x & Hexec & _ & Hlen & _).
  - split; by vm_compute.
  - exact Hrun.
  - exists x. split; [exact Hexec|exact Hlen].
Defined.

(** ** The validation stage: incomplete contexts, empty objects, the table *)

(** The first of the fields read after [image_id] that the context lacks. *)
Definition first_missing (ev : Validation.event) : option string :=
  match Validation.bucket_name ev, Validation.user_id ev, Validation.user_email ev with
  | None, _, _ => Some "bucket_name"
  | Some _, None, _ => Some "user_id"
  | Some _, Some _, None => Some "user_email"
  | Some _, Some _, Some _ => None
  end.

Ltac validation_unfold :=
  unfold Validation.main, Validation.required, Validation.download_image,
    Validation.update_validation_status, Validation.update_item, Validation.utcnow;
  py_unfold.

Section ValidationEdges.
Variable isoformat : nat → string.
Variable json_dumps : json → string.
Variable imghdr_what : list byte → option string.
Variable s3_object : world → string → string → outcome (list byte).

Section OneTable.
Variable ddb_fault : world → string → option exn.

Let main := Validation.main isoformat json_dumps imghdr_what s3_object ddb_fault.

(** X8.  A context without [image_id] makes the stage raise
    [KeyError('image_id')] and touch nothing: the world is as before.  A
    context with [image_id] that lacks one of [bucket_name], [user_id],
    [user_email] raises the [KeyError] of the first one missing, in that
    order, without any download, after sending one update
    [validation_error] for the image whose result is the quoted field
    name. *)
Theorem validation_missing_field (ev : Validation.event) (w : world) :
  (Validation.image_id ev = None → main ev w = (Raised (KeyError "image_id"), w))
  ∧ (∀ key name,
       Validation.image_id ev = Some key → first_missing ev = Some name →
       ∃ w', main ev w = (Raised (KeyError name), w')
             ∧ s3_get_requests w' = s3_get_requests w
             ∧ ddb_requests w'
               = ddb_requests w
                 ++ [(key, [("status", AttrS "validation_error");
                            ("validation_result",
                             AttrS (json_dumps (JObj [("error", JStr ("'" +:+ name +:+ "'"))])));
                            ("updated_at", AttrS (isoformat (clock w)))])]).
Proof.
  split.
  - intros Hid. unfold main. validation_unfold. by rewrite Hid.
  - intros key name Hid. unfold first_missing, main. validation_unfold. rewrite Hid.
    destruct (Validation.bucket_name ev) as [bucket|];
      [destruct (Validation.user_id ev) as [uid|];
       [destruct (Validation.user_email ev) as [mail|]|]|];
      intros [= <-]; simpl; destruct (ddb_fault _ _); by eexists.
Qed.

(** X9.  An object of zero bytes is taken for a failed download: the
    stage raises [Failed to download image: <key>] although the object
    store returned the object, and the one update it sends is
    [validation_error]; the bytes are never validated. *)
Theorem validation_empty_object (ev : Validation.event) (key bucket uid mail : string)
    (w : world) :
  Validation.image_id ev = Some key → Validation.bucket_name ev = Some bucket →
  Validation.user_id ev = Some uid → Validation.user_email ev = Some mail →
  s3_object w bucket key = Returned [] →
  ∃ w', main ev w = (Raised (Exception ("Failed to download image: " +:+ key)), w')
        ∧ s3_get_requests w' = s3_get_requests w ++ [(Some bucket, key)]
        ∧ statuses_sent w' = statuses_sent w ++ [(key, Some (AttrS "validation_error"))].
Proof.
  intros Hid Hbucket Huid Hmail Hget. unfold main. validation_unfold.
  rewrite Hid, Hbucket, Huid, Hmail. simpl. rewrite Hget. simpl.
  destruct (ddb_fault _ _); eexists; (split; [reflexivity|]); (split; [done|]);
    unfold statuses_sent; simpl; by rewrite fmap_app.
Qed.

(** X10.  The stage returns only for an image it found valid: when [main]
    returns, the context held all four fields, the object was there and
    not empty, [validate_image] accepted it, and the result is status code
    200 with the image id, that verdict and [validated]; the one download
    went to the bucket the context names. *)
Theorem validation_returns_only_valid (ev : Validation.event) (w w' : world)
    (r : Validation.stage_result) :
  main ev w = (Returned r, w') →
  ∃ key bucket data info,
    Validation.image_id ev = Some key ∧ Validation.bucket_name ev = Some bucket
    ∧ is_Some (Validation.user_id ev) ∧ is_Some (Validation.user_email ev)
    ∧ s3_object w bucket key = Returned data ∧ data ≠ []
    ∧ Validation.validate_image imghdr_what data key = Validation.Valid info
    ∧ r = {| Validation.res_statusCode := 200; Validation.res_image_id := key;
             Validation.res_validation_result := Validation.Valid info;
             Validation.res_status := "validated" |}
    ∧ s3_get_requests w' = s3_get_requests w ++ [(Some bucket, key)]
    ∧ statuses_sent w' = statuses_sent w ++ [(key, Some (AttrS "validated"))].
Proof.
  unfold main. validation_unfold.
  destruct (Validation.image_id ev) as [key|]; [|done].
  destruct (Validation.bucket_name ev) as [bucket|];
    [|simpl; destruct (ddb_fault _ _); done].
  destruct (Validation.user_id ev) as [uid|];
    [|simpl; destruct (ddb_fault _ _); done].
  destruct (Validation.user_email ev) as [mail|];
    [|simpl; destruct (ddb_fault _ _); done].
  simpl.
  destruct (s3_object w bucket key) as [data|e] eqn:Hget;
    [|simpl; destruct (ddb_fault _ _); done].
  destruct data as [|b data]; [simpl; destruct (ddb_fault _ _); done|].
  simpl.
  destruct (Validation.validate_image imghdr_what (b :: data) key) as [info|error] eqn:Hvalid.
  - simpl. destruct (ddb_fault _ _); intros [= <- <-];
      exists key, bucket, (b :: data), info; repeat split; try done; try by eexists.
    all: unfold statuses_sent; simpl; by rewrite fmap_app.
  - simpl. destruct (ddb_fault _ _); simpl; destruct (ddb_fault _ _); done.
Qed.

End OneTable.

(** X11.  What the table answers never changes what the stage does: with
    any two tables, from the same world, the stage returns the same result
    or raises the same exception, sends the same download and the same
    updates. *)
Theorem validation_ignores_table_faults (ddb_fault1 ddb_fault2 : world → string → option exn)
    (ev : Validation.event) (w : world) :
  let run1 := Validation.main isoformat json_dumps imghdr_what s3_object ddb_fault1 ev w in
  let run2 := Validation.main isoformat json_dumps imghdr_what s3_object ddb_fault2 ev w in
  run1.1 = run2.1
  ∧ s3_get_requests run1.2 = s3_get_requests run2.2
  ∧ ddb_requests run1.2 = ddb_requests run2.2
  ∧ clock run1.2 = clock run2.2.
Proof.
  validation_unfold.
  destruct (Validation.image_id ev) as [key|]; [|done].
  destruct (Validation.bucket_name ev) as [bucket|];
    [|simpl; destruct (ddb_fault1 _ _), (ddb_fault2 _ _); done].
  destruct (Validation.user_id ev) as [uid|];
    [|simpl; destruct (ddb_fault1 _ _), (ddb_fault2 _ _); done].
  destruct (Validation.user_email ev) as [mail|];
    [|simpl; destruct (ddb_fault1 _ _), (ddb_fault2 _ _); done].
  simpl.
  destruct (s3_object w bucket key) as [data|e];
    [|simpl; destruct (ddb_fault1 _ _), (ddb_fault2 _ _); done].
  destruct data as [|b data];
    [simpl; destruct (ddb_fault1 _ _), (ddb_fault2 _ _); done|].
  simpl.
  destruct (Validation.validate_image imghdr_what (b :: data) key) as [info|error].
  - simpl. destruct (ddb_fault1 _ _), (ddb_fault2 _ _); done.
  - simpl. destruct (ddb_fault1 _ _), (ddb_fault2 _ _); simpl;
      destruct (ddb_fault1 _ _), (ddb_fault2 _ _); done.
Qed.

End ValidationEdges.

Definition no_bucket_event : Validation.event :=
  {| Validation.image_id := Some "uploads/u1/abc.jpg";
     Validation.bucket_name := None;
     Validation.user_id := Some "u1";
     Validation.user_email := None |}.

Lemma validation_missing_field_witness :
  ∃ w', validation_main no_bucket_event world0 = (Raised (KeyError "bucket_name"), w')
        ∧ s3_get_requests w' = []
        ∧ statuses_sent w' = [("uploads/u1/abc.jpg", Some (AttrS "validation_error"))].
Proof.
  destruct (validation_missing_field Fixture.isoformat Fixture.json_dumps Fixture.imghdr_what
              Fixture.s3_object_named Fixture.no_ddb_fault no_bucket_event world0)
    as [_ Hmissing].
  destruct (Hmissing "uploads/u1/abc.jpg" "bucket_name" eq_refl eq_refl)
    as (w' & Hrun & Hgets & Hreqs).
  exists w'. split; [exact Hrun|]. split; [exact Hgets|].
  unfold statuses_sent. rewrite Hreqs. reflexivity.
Defined.

(** A bucket whose object [uploads/u1/empty.jpg] has no bytes. *)
Definition s3_with_empty (w : world) (bucket key : string) : outcome (list byte) :=
  if String.eqb key "uploads/u1/empty.jpg" then Returned [] else Fixture.s3_named bucket key.

Definition empty_event : Validation.event :=
  {| Validation.image_id := Some "uploads/u1/empty.jpg";
     Validation.bucket_name := Some "in";
     Validation.user_id := Some "u1";
     Validation.user_email := Some "unknown" |}.

Lemma validation_empty_object_witness :
  ∃ w', Validation.main Fixture.isoformat Fixture.json_dumps Fixture.imghdr_what
          s3_with_empty Fixture.no_ddb_fault empty_event world0
        = (Raised (Exception "Failed to download image: uploads/u1/empty.jpg"), w')
        ∧ s3_get_requests w' = [(Some "in", "uploads/u1/empty.jpg")].
Proof.
  destruct (validation_empty_object Fixture.isoformat Fixture.json_dumps Fixture.imghdr_what
              s3_with_empty Fixture.no_ddb_fault empty_event
              "uploads/u1/empty.jpg" "in" "u1" "unknown" world0
              eq_refl eq_refl eq_refl eq_refl eq_refl)
    as (w' & Hrun & Hgets & _).
  exists w'. split; [exact Hrun|exact Hgets].
Defined.

Lemma validation_returns_only_valid_witness :
  ∃ r w', validation_main abc_validation_event world0 = (Returned r, w')
          ∧ Validation.res_status r = "validated"
          ∧ s3_get_requests w' = [(Some "in", "uploads/u1/abc.jpg")].
Proof.
  destruct (validation_main abc_validation_event world0) as [[r|e] w'] eqn:Hrun;
    [|vm_compute in Hrun; discriminate].
  destruct (validation_returns_only_valid Fixture.isoformat Fixture.json_dumps
              Fixture.imghdr_what Fixture.s3_object_named Fixture.no_ddb_fault
              abc_validation_event world0 w' r Hrun)
    as (key & bucket & data & info & Hkey & Hbucket & _ & _ & _ & _ & _ & -> & Hgets & _).
  injection Hkey as <-. injection Hbucket as <-.
  eexists _, _. split; [reflexivity|]. split; [reflexivity|exact Hgets].
Defined.

(** ** The resize and watermark stages: failures *)

Lemma try_except_raised {A} (m : py A) (h : exn → py A) w e w' :
  try_except m h w = (Raised e, w') →
  ∃ cause w1, m w = (Raised cause, w1) ∧ h cause w1 = (Raised e, w').
Proof.
  unfold try_except. destruct (m w) as [[a|cause] w1]; [done|].
  intros H. by exists cause, w1.
Qed.

(** The [SET] list of the update a failing stage sends. *)
Definition failure_sets (status error_msg now : string) : list (string * attr) :=
  [("processing_status", AttrS status); ("error_message", AttrS error_msg);
   ("updated_at", AttrS now)].

Lemma recorded_failure key status error_msg now w :
  recorded (set_attrs key (failure_sets status error_msg now) w) key "processing_status"
  = Some (AttrS status)
  ∧ recorded (set_attrs key (failure_sets status error_msg now) w) key "error_message"
    = Some (AttrS error_msg).
Proof.
  unfold recorded, set_attrs, failure_sets. cbn [ddb_table foldl fst snd].
  rewrite !lookup_insert_eq. cbn [mbind option_bind]. split; by simplify_map_eq.
Qed.

Section StageFailures.
Variable INPUT_BUCKET OUTPUT_BUCKET : option string.
Variable WATERMARK_TEXT : string.
Variable WATERMARK_OPACITY : Z.
Variable WATERMARK_POSITION : string.
Variable isoformat utc_date : nat → string.
Variable s3_object : world → option string → string → outcome (list byte).
Variable s3_put_fault : world → put_request → option exn.
Variable ddb_fault : world → string → option exn.
Variable image : Type.
Variable Image_open : list byte → outcome image.
Variable im_width im_height : image → Z.
Variable im_format : image → option string.
Variable im_mode : image → string.
Variable im_resize : image → Z * Z → outcome image.
Variable im_convert : image → string → image.
Variable paste_on_white : image → bool → image.
Variable im_save : image → string → outcome (list byte).
Variable new_layer : Z * Z → image.
Variable textbbox : image → string → Z * Z * Z * Z.
Variable draw_text : image → Z * Z → string → Z → image.
Variable alpha_composite : image → image → outcome image.

Let resize := Resize.main INPUT_BUCKET OUTPUT_BUCKET isoformat s3_object s3_put_fault
  ddb_fault image Image_open im_width im_height im_format im_mode im_resize im_convert
  paste_on_white im_save.
Let watermark := Watermark.main INPUT_BUCKET OUTPUT_BUCKET WATERMARK_TEXT WATERMARK_OPACITY
  WATERMARK_POSITION isoformat utc_date s3_object s3_put_fault ddb_fault image Image_open
  im_width im_height im_format im_mode im_convert new_layer textbbox draw_text
  alpha_composite paste_on_white im_save.

(** What a failing run leaves: the wrapped exception, and the update that
    reports it. *)
Definition failed_as (prefix status : string) (actual : string) (e : exn) (w' : world)
    : Prop :=
  (∃ cause, e = Exception (prefix +:+ exn_str cause))
  ∧ (∃ now, last (ddb_requests w') = Some (actual, failure_sets status (exn_str e) now))
  ∧ ((∀ w0 key, ddb_fault w0 key = None) →
     recorded w' actual "processing_status" = Some (AttrS status)
     ∧ recorded w' actual "error_message" = Some (AttrS (exn_str e))).

(** The handler both stages end with. *)
Definition report_failure (A : Type) (prefix status actual : string) (cause : exn) : py A :=
  try_except
    (now ← Resize.utcnow isoformat;
     Resize.update_item ddb_fault actual (failure_sets status (prefix +:+ exn_str cause) now))
    (λ _, mret ()) ;;
  raise (Exception (prefix +:+ exn_str cause)).

Lemma report_failure_failed_as A prefix status actual cause w1 e w' :
  report_failure A prefix status actual cause w1 = (Raised e, w') →
  failed_as prefix status actual e w'.
Proof.
  unfold report_failure, Resize.utcnow, Resize.update_item. py_unfold. cbn [clock tick].
  destruct (ddb_fault (tick w1) actual) eqn:Hfault; cbv beta iota; intros [= <- <-].
  - split; [by exists cause|]. split.
    + eexists. cbn [ddb_requests requested tick]. by rewrite last_snoc.
    + intros Hup. by rewrite Hup in Hfault.
  - split; [by exists cause|]. split.
    + eexists. cbn [ddb_requests requested tick set_attrs]. by rewrite last_snoc.
    + intros _. apply recorded_failure.
Qed.

(** X12.  Whatever makes the resize or the watermark stage fail, the stage
    raises one kind of exception, [Exception] with the cause's text after
    [Error in resize function: ] (or [watermark]); the last update it sent
    to the table, for the record named after the second segment of the key
    (or the user id), sets [processing_status] to [resize_failed]
    ([watermark_failed]) and [error_message] to that text, and the record
    holds both when the table takes updates. *)
Theorem stage_failure_is_recorded (event : stage_event) (w : world) :
  let ctx := input_data_of event in
  let actual :=
    derive_actual_image_id (ctx_image_id ctx) (default "unknown" (ctx_user_id ctx)) in
  (∀ e w', resize event w = (Raised e, w') →
           failed_as "Error in resize function: " "resize_failed" actual e w')
  ∧ (∀ e w', watermark event w = (Raised e, w') →
             failed_as "Error in watermark function: " "watermark_failed" actual e w').
Proof.
  intros ctx actual. split; intros e w' Hrun.
  - unfold resize, Resize.main in Hrun. cbv zeta in Hrun.
    apply try_except_raised in Hrun as (cause & w1 & _ & Hhandler).
    by apply (report_failure_failed_as Resize.result _ _ _ cause w1).
  - unfold watermark, Watermark.main in Hrun. cbv zeta in Hrun.
    apply try_except_raised in Hrun as (cause & w1 & _ & Hhandler).
    by apply (report_failure_failed_as Watermark.result _ _ _ cause w1).
Qed.

(** X13.  A run context without [image_id] (absent, or empty): both
    stages raise [image_key is required but not provided] without any
    download or write, and the failure is filed under the context's user
    id, under [unknown] when it has none. *)
Theorem stages_without_image_key (event : stage_event) (w : world) :
  let ctx := input_data_of event in
  let filed := default "unknown" (ctx_user_id ctx) in
  truthy (ctx_image_id ctx) = false →
  ∃ w1 w2,
    resize event w
    = (Raised (Exception "Error in resize function: image_key is required but not provided"),
       w1)
    ∧ watermark event w
      = (Raised (Exception
                   "Error in watermark function: image_key is required but not provided"),
         w2)
    ∧ s3_get_requests w1 = s3_get_requests w ∧ s3_puts w1 = s3_puts w
    ∧ s3_get_requests w2 = s3_get_requests w ∧ s3_puts w2 = s3_puts w
    ∧ (ddb_requests w1).*1 = (ddb_requests w).*1 ++ [filed]
    ∧ (ddb_requests w2).*1 = (ddb_requests w).*1 ++ [filed].
Proof.
  intros ctx filed Hkey.
  assert (Hactual : derive_actual_image_id (ctx_image_id ctx) filed = filed).
  { unfold derive_actual_image_id. destruct (ctx_image_id ctx) as [key|]; [|done].
    simpl in Hkey. apply negb_false_iff in Hkey. by rewrite Hkey. }
  unfold resize, watermark, Resize.main, Watermark.main. cbv zeta.
  fold ctx. fold filed. rewrite Hkey, Hactual.
  unfold Resize.update_item, Watermark.update_item, Resize.utcnow, Watermark.utcnow.
  py_unfold. cbn [clock tick].
  destruct (ddb_fault (tick w) filed); do 2 eexists;
    (split; [reflexivity|]); (split; [reflexivity|]);
    cbn [s3_get_requests s3_puts ddb_requests requested set_attrs tick];
    rewrite ?fmap_app; done.
Qed.

End StageFailures.

Definition missing_event : stage_event :=
  {| ev_input := Some {| ctx_image_id := Some "uploads/u1/missing.jpg";
                         ctx_bucket_name := Some "in";
                         ctx_user_id := Some "u1";
                         ctx_original_filename := Some "missing.jpg" |};
     ev_top := abc_context |}.

Lemma stage_failure_is_recorded_witness :
  ∃ w', resize_main missing_event world0
        = (Raised (Exception "Error in resize function: An error occurred (NoSuchKey)"), w')
        ∧ recorded w' "u1" "processing_status" = Some (AttrS "resize_failed")
        ∧ recorded w' "u1" "error_message"
          = Some (AttrS "Error in resize function: An error occurred (NoSuchKey)").
Proof.
  destruct (resize_main missing_event world0) as [[r|e] w'] eqn:Hrun;
    [vm_compute in Hrun; discriminate|].
  destruct (stage_failure_is_recorded (Some "in") (Some "out") "PROCESSED" 128 "bottom-right"
              Fixture.isoformat Fixture.utc_date Fixture.s3_object
              Fixture.no_put_fault Fixture.no_ddb_fault Fixture.image Fixture.Image_open
              Fixture.width Fixture.height Fixture.format Fixture.mode Fixture.im_resize
              Fixture.im_convert Fixture.paste_on_white Fixture.im_save
              Fixture.new_layer Fixture.textbbox Fixture.draw_text Fixture.alpha_composite
              missing_event world0) as [Hresize _].
  destruct (Hresize e w' Hrun) as (_ & _ & Hrec).
  destruct (Hrec (λ _ _, eq_refl)) as [Hstatus Hmsg].
  assert (He : e = Exception "Error in resize function: An error occurred (NoSuchKey)").
  { assert (H : (resize_main missing_event world0).1 = Raised e) by by rewrite Hrun.
    vm_compute in H. by injection H as <-. }
  subst e. exists w'. split; [reflexivity|]. split; [exact Hstatus|exact Hmsg].
Defined.

Definition nameless_event : stage_event :=
  {| ev_input := None;
     ev_top := {| ctx_image_id := None; ctx_bucket_name := Some "in";
                  ctx_user_id := None; ctx_original_filename := None |} |}.

Lemma stages_without_image_key_witness :
  (ddb_requests (resize_main nameless_event world0).2).*1 = ["unknown"]
  ∧ (ddb_requests (watermark_main nameless_event world0).2).*1 = ["unknown"]
  ∧ s3_get_requests (resize_main nameless_event world0).2 = [].
Proof.
  destruct (stages_without_image_key (Some "in") (Some "out") "PROCESSED" 128 "bottom-right"
              Fixture.isoformat Fixture.utc_date Fixture.s3_object
              Fixture.no_put_fault Fixture.no_ddb_fault Fixture.image Fixture.Image_open
              Fixture.width Fixture.height Fixture.format Fixture.mode Fixture.im_resize
              Fixture.im_convert Fixture.paste_on_white Fixture.im_save
              Fixture.new_layer Fixture.textbbox Fixture.draw_text Fixture.alpha_composite
              nameless_event world0 eq_refl)
    as (w1 & w2 & Hr & Hw & Hg1 & _ & _ & _ & Hd1 & Hd2).
  unfold resize_main, watermark_main. rewrite Hr, Hw. simpl.
  split; [exact Hd1|]. split; [exact Hd2|exact Hg1].
Defined.

(** ** The watermark stage: what a successful run leaves in the table *)

Section WatermarkRecord.
Variable INPUT_BUCKET OUTPUT_BUCKET : option string.
Variable WATERMARK_TEXT : string.
Variable WATERMARK_OPACITY : Z.
Variable WATERMARK_POSITION : string.
Variable isoformat utc_date : nat → string.
Variable s3_object : world → option string → string → outcome (list byte).
Variable s3_put_fault : world → put_request → option exn.
Variable ddb_fault : world → string → option exn.
Variable image : Type.
Variable Image_open : list byte → outcome image.
Variable im_width im_height : image → Z.
Variable im_format : image → option string.
Variable im_mode : image → string.
Variable im_convert : image → string → image.
Variable paste_on_white : image → bool → image.
Variable im_save : image → string → outcome (list byte).
Variable new_layer : Z * Z → image.
Variable textbbox : image → string → Z * Z * Z * Z.
Variable draw_text : image → Z * Z → string → Z → image.
Variable alpha_composite : image → image → outcome image.

Let watermark := Watermark.main INPUT_BUCKET OUTPUT_BUCKET WATERMARK_TEXT WATERMARK_OPACITY
  WATERMARK_POSITION isoformat utc_date s3_object s3_put_fault ddb_fault image Image_open
  im_width im_height im_format im_mode im_convert new_layer textbbox draw_text
  alpha_composite paste_on_white im_save.

Hypothesis table_ok : ∀ w key, ddb_fault w key = None.

(** X14.  A watermark run that returns, on a table that takes updates:
    the record it reports as [image_id] (the second segment of the key, or
    the user id) holds [processing_status = watermarked] and a
    [watermark_result] with the key, text, position and format of the
    result; the text is [WATERMARK_TEXT], [ - ] and the date.  Every other
    attribute of that record, [resize_results] among them, and every other
    record are as before. *)
Theorem watermark_success_record (event : stage_event) (w w' : world) (r : Watermark.result) :
  watermark event w = (Returned r, w') →
  let ctx := input_data_of event in
  let actual := Watermark.res_image_id r in
  let wm := Watermark.res_watermarked_image r in
  actual = derive_actual_image_id (ctx_image_id ctx) (default "unknown" (ctx_user_id ctx))
  ∧ Watermark.wm_watermark_text wm = WATERMARK_TEXT +:+ " - " +:+ utc_date (clock w)
  ∧ recorded w' actual "processing_status" = Some (AttrS "watermarked")
  ∧ recorded w' actual "watermark_result"
    = Some (AttrM [("key", AttrS (Watermark.wm_key wm));
                   ("watermark_text", AttrS (Watermark.wm_watermark_text wm));
                   ("position", AttrS WATERMARK_POSITION);
                   ("format", AttrS (Watermark.wm_format wm))])
  ∧ (∀ name, name ∉ ["processing_status"; "watermark_result"; "updated_at"; "image_id"] →
             recorded w' actual name = recorded w actual name)
  ∧ (∀ key, key ≠ actual → ddb_table w' !! key = ddb_table w !! key).
Proof.
  unfold watermark, Watermark.main. cbv zeta.
  unfold Watermark.get_object, Watermark.put_object, Watermark.update_item,
    Watermark.utcnow, Watermark.utcnow_date.
  py_unfold. intros Hrun. cbv zeta.
  remember (derive_actual_image_id (ctx_image_id (input_data_of event))
              (default "unknown" (ctx_user_id (input_data_of event)))) as actual eqn:Hactual.
  remember (base_name_of (default "image" (ctx_original_filename (input_data_of event)))
              actual) as base eqn:Hbase.
  repeat (match type of Hrun with
          | context [truthy ?x] => destruct (truthy x)
          | context [s3_object ?a ?b ?c] => destruct (s3_object a b c)
          | context [Image_open ?d] => destruct (Image_open d)
          | context [textbbox ?l ?t] => destruct (textbbox l t) as [[[? ?] ?] ?]
          | context [alpha_composite ?a ?b] => destruct (alpha_composite a b)
          | context [im_save ?a ?b] => destruct (im_save a b)
          | context [output_format ?f] => destruct (output_format f)
          | context [s3_put_fault ?a ?b] => destruct (s3_put_fault a b)
          | context [ddb_fault ?a ?b] => rewrite (table_ok a b) in Hrun
          end; simpl in Hrun); try discriminate.
  injection Hrun as <- <-.
  cbn [Watermark.res_image_id Watermark.res_watermarked_image
       Watermark.wm_key Watermark.wm_watermark_text Watermark.wm_format].
  split; [reflexivity|]. split; [reflexivity|].
  unfold recorded, set_attrs. cbn [ddb_table foldl fst snd requested tick stored got].
  split; [rewrite lookup_insert_eq; cbn [mbind option_bind]; by simplify_map_eq|].
  split; [rewrite lookup_insert_eq; cbn [mbind option_bind]; by simplify_map_eq|].
  split; [|intros key Hne; by rewrite lookup_insert_ne].
  intros name Hname. rewrite lookup_insert_eq. cbn [mbind option_bind].
  rewrite !lookup_insert_ne by set_solver.
  destruct (ddb_table w !! actual); simpl; [done|].
  by rewrite lookup_singleton_ne by set_solver.
Qed.

End WatermarkRecord.

Lemma watermark_success_record_witness :
  recorded (watermark_main abc_event (resize_main abc_event world0).2).2 "u1"
    "processing_status" = Some (AttrS "watermarked")
  ∧ recorded (watermark_main abc_event (resize_main abc_event world0).2).2 "u1"
      "resize_results"
    = recorded (resize_main abc_event world0).2 "u1" "resize_results"
  ∧ is_Some (recorded (resize_main abc_event world0).2 "u1" "resize_results").
Proof.
  destruct (watermark_main abc_event (resize_main abc_event world0).2) as [[r|e] w'] eqn:Hrun;
    [|vm_compute in Hrun; discriminate].
  assert (Hid : Watermark.res_image_id r = "u1").
  { assert (H : (watermark_main abc_event (resize_main abc_event world0).2).1 = Returned r)
      by by rewrite Hrun.
    vm_compute in H. by injection H as <-. }
  destruct (watermark_success_record (Some "in") (Some "out") "PROCESSED" 128 "bottom-right"
              Fixture.isoformat Fixture.utc_date Fixture.s3_object
              Fixture.no_put_fault Fixture.no_ddb_fault Fixture.image Fixture.Image_open
              Fixture.width Fixture.height Fixture.format Fixture.mode
              Fixture.im_convert Fixture.paste_on_white Fixture.im_save
              Fixture.new_layer Fixture.textbbox Fixture.draw_text Fixture.alpha_composite
              (λ _ _, eq_refl) abc_event (resize_main abc_event world0).2 w' r Hrun)
    as (_ & _ & Hstatus & _ & Hframe & _).
  rewrite Hid in Hstatus, Hframe. cbn [snd].
  split; [exact Hstatus|]. split.
  - apply Hframe. rewrite !not_elem_of_cons. repeat split; try discriminate.
    apply not_elem_of_nil.
  - vm_compute. by eexists.
Defined.

(** ** The margin of the watermark *)

Section WatermarkMargin.
Variable INPUT_BUCKET OUTPUT_BUCKET : option string.
Variable WATERMARK_TEXT : string.
Variable WATERMARK_OPACITY : Z.
Variable WATERMARK_POSITION : string.
Variable isoformat utc_date : nat → string.
Variable s3_object : world → option string → string → outcome (list byte).
Variable s3_put_fault : world → put_request → option exn.
Variable ddb_fault : world → string → option exn.
Variable image : Type.
Variable Image_open : list byte → outcome image.
Variable im_width im_height : image → Z.
Variable im_format : image → option string.
Variable im_mode : image → string.
Variable im_convert : image → string → image.
Variable paste_on_white : image → bool → image.
Variable im_save : image → string → outcome (list byte).
Variable new_layer : Z * Z → image.
Variable textbbox : image → string → Z * Z * Z * Z.
Variable draw_text : image → Z * Z → string → Z → image.
Variable alpha_composite : image → image → outcome image.

Let watermark := Watermark.main INPUT_BUCKET OUTPUT_BUCKET WATERMARK_TEXT WATERMARK_OPACITY
  WATERMARK_POSITION isoformat utc_date s3_object s3_put_fault ddb_fault image Image_open
  im_width im_height im_format im_mode im_convert new_layer textbbox draw_text
  alpha_composite paste_on_white im_save.
Let as_rgba := as_rgba image im_mode im_convert.
Let drawn_at := drawn_at WATERMARK_OPACITY image im_width im_height im_mode paste_on_white
  im_save new_layer draw_text alpha_composite.


End WatermarkMargin.


(** ** The computed size depends on the aspect ratio only *)

Lemma round_Qeq x y : (0 <= x)%Q → (x == y)%Q → (Float.round x == Float.round y)%Q.
Proof.
  intros Hx Hxy. apply Qle_antisym; apply round_mono.
  - done.
  - rewrite Hxy. apply Qle_refl.
  - by rewrite <- Hxy.
  - rewrite Hxy. apply Qle_refl.
Qed.

Lemma div_int_ratio a b a' b' :
  0 < a → 0 < b → 0 < a' → 0 < b' → a * b' = a' * b →
  (Float.div_int a b == Float.div_int a' b')%Q.
Proof.
  intros Ha Hb Ha' Hb' Heq. unfold Float.div_int.
  apply round_Qeq; [apply Qlt_le_weak; by apply ratio_pos|].
  unfold Qeq, Qdiv, Qmult, Qinv, inject_Z.
  destruct b as [|b|b]; [lia| |lia]. destruct b' as [|b'|b']; [lia| |lia].
  simpl. lia.
Qed.

Lemma truncate_Qeq x y : (0 <= x)%Q → (x == y)%Q → Float.truncate x = Float.truncate y.
Proof.
  intros Hx Hxy. rewrite !truncate_floor; [|by rewrite <- Hxy|done].
  by apply Qfloor_comp.
Qed.

Lemma gtb_Qeq x y t : (x == y)%Q → Float.gtb x t = Float.gtb y t.
Proof.
  intros Hxy. destruct (Float.gtb y t) eqn:Hy.
  - apply gtb_true. apply gtb_true in Hy. by rewrite Hxy.
  - apply gtb_false. apply gtb_false in Hy. by rewrite Hxy.
Qed.

Lemma fit_within_ratio iw ih iw' ih' W H :
  0 < iw → 0 < ih → 0 < iw' → 0 < ih' → 0 < W → 0 < H →
  iw * ih' = iw' * ih →
  Resize.fit_within iw ih (W, H) = Resize.fit_within iw' ih' (W, H).
Proof.
  intros Hiw Hih Hiw' Hih' HW HH Heq. unfold Resize.fit_within.
  pose proof (div_int_ratio iw ih iw' ih' Hiw Hih Hiw' Hih' Heq) as Hr.
  pose proof (div_int_pos iw ih Hiw Hih) as Hpos.
  pose proof (div_int_pos iw' ih' Hiw' Hih') as Hpos'.
  assert (HrW : (0 < Float.round (inject_Z W))%Q)
    by (apply round_positive; rewrite <- (Zlt_Qlt 0); lia).
  assert (HrH : (0 < Float.round (inject_Z H))%Q)
    by (apply round_positive; rewrite <- (Zlt_Qlt 0); lia).
  rewrite (gtb_Qeq _ _ _ Hr).
  destruct (Float.gtb (Float.div_int iw' ih') (Float.div_int W H)); f_equal.
  - unfold Float.int_div. apply truncate_Qeq.
    + apply Qlt_le_weak, round_positive. by apply Qlt_shift_div_l; [|rewrite Qmult_0_l].
    + apply round_Qeq; [|by rewrite Hr].
      apply Qlt_le_weak. by apply Qlt_shift_div_l; [|rewrite Qmult_0_l].
  - unfold Float.int_mul. apply truncate_Qeq.
    + apply Qlt_le_weak, round_positive.
      rewrite <- (Qmult_0_l (Float.div_int iw ih)). by apply Qmult_lt_compat_r.
    + apply round_Qeq; [|by rewrite Hr].
      apply Qlt_le_weak.
      rewrite <- (Qmult_0_l (Float.div_int iw ih)). by apply Qmult_lt_compat_r.
Qed.

(** X16.  Two images of the same aspect ratio get the same size for a
    box, whatever their own sizes: the floating-point computation sees the
    ratio only. *)
Theorem fit_within_scale_invariant (iw ih iw' ih' W H : Z) :
  0 < iw → 0 < ih → 0 < iw' → 0 < ih' → 0 < W → 0 < H →
  iw * ih' = iw' * ih →
  Resize.fit_within iw ih (W, H) = Resize.fit_within iw' ih' (W, H).
Proof. apply fit_within_ratio. Qed.

Lemma fit_within_scale_invariant_witness :
  Resize.fit_within 1600 900 (800, 600) = Resize.fit_within 16 9 (800, 600).
Proof.
  apply (fit_within_scale_invariant 1600 900 16 9 800 600); lia.
Defined.

(** X17.  An image with the ratio 4:3 of the three boxes gets exactly the
    three boxes as its sizes, 800x600, 1200x900 and 400x300: here the
    rounding of the quotient and of the product loses nothing. *)
Theorem fit_within_box_ratio_exact (iw ih : Z) :
  0 < ih → iw * 3 = ih * 4 →
  Resize.fit_within iw ih <$> Resize.RESIZE_DIMENSIONS = Resize.RESIZE_DIMENSIONS.
Proof.
  intros Hih Heq.
  assert (H43 : ∀ W H, 0 < W → 0 < H →
            Resize.fit_within iw ih (W, H) = Resize.fit_within 4 3 (W, H))
    by (intros W H HW HH; apply fit_within_ratio; lia).
  unfold Resize.RESIZE_DIMENSIONS. cbn [fmap list_fmap].
  rewrite !H43 by lia. by vm_compute.
Qed.

Lemma fit_within_box_ratio_exact_witness :
  Resize.fit_within 4032 3024 <$> Resize.RESIZE_DIMENSIONS = [(800, 600); (1200, 900); (400, 300)].
Proof.
  apply (fit_within_box_ratio_exact 4032 3024); lia.
Defined.

(** X18.  The derived side can be one less than the exact proportional
    length: every image of ratio 11:15 gets 439x600 for the box 800x600,
    though 600 * 11 / 15 is 440 exactly, and every image of ratio 25:11
    gets 800x351, though 800 * 11 / 25 is 352 exactly. *)
Theorem fit_within_short_by_one (iw ih : Z) :
  0 < ih →
  (iw * 15 = ih * 11 →
     Resize.fit_within iw ih (800, 600) = (439, 600) ∧ (600 * iw) `div` ih = 440)
  ∧ (iw * 11 = ih * 25 →
       Resize.fit_within iw ih (800, 600) = (800, 351) ∧ (800 * ih) `div` iw = 352).
Proof.
  intros Hih. split; intros Heq.
  - split.
    + rewrite (fit_within_ratio iw ih 11 15 800 600) by lia. by vm_compute.
    + symmetry. apply Z.div_unique_exact; lia.
  - split.
    + rewrite (fit_within_ratio iw ih 25 11 800 600) by lia. by vm_compute.
    + symmetry. apply Z.div_unique_exact; lia.
Qed.

Lemma fit_within_short_by_one_witness :
  Resize.fit_within 2200 3000 (800, 600) = (439, 600) ∧ (600 * 2200) `div` 3000 = 440.
Proof.
  destruct (fit_within_short_by_one 2200 3000 ltac:(lia)) as [H _].
  apply H. lia.
Defined.

(** ** The retrieval service: every request gets a response *)

Lemma startswith_app_l a p s : Str.startswith (a +:+ p) (a +:+ s) = Str.startswith p s.
Proof. induction a as [|c a IH]; simpl; [done|]. by rewrite Ascii.eqb_refl. Qed.

(** The statuses the retrieval handler answers with. *)
Definition RETRIEVAL_STATUSES : list Z := [200; 400; 401; 404; 405; 500].

Section RetrievalResponses.
Variable OUTPUT_BUCKET : option string.
Variable json_dumps : json → string.
Variable cognito_get_user : string → outcome ImageRetrieval.cognito_user.
Variable s3_head_fault : option string → string → option exn.
Variable presign : option string → string → Z → outcome string.

Let handle := ImageRetrieval.handle_image_retrieval OUTPUT_BUCKET json_dumps
  cognito_get_user s3_head_fault presign.
Let main := ImageRetrieval.main OUTPUT_BUCKET json_dumps cognito_get_user s3_head_fault presign.
Let respond := ImageRetrieval.create_response json_dumps.

Ltac responded :=
  eexists; (split; [reflexivity|]); (split; [reflexivity|]);
  cbn [statusCode]; rewrite !elem_of_cons; tauto.

Lemma handle_responds ev w :
  ∃ r, handle ev w = (Returned r, w)
       ∧ headers r = ImageRetrieval.CORS_HEADERS
       ∧ statusCode r ∈ [200; 400; 401; 404; 500].
Proof.
  unfold handle, ImageRetrieval.handle_image_retrieval, ImageRetrieval.validate_token,
    ImageRetrieval.not_found, ImageRetrieval.check_failed, ImageRetrieval.internal_error,
    ImageRetrieval.create_response.
  py_unfold.
  destruct (ImageRetrieval.ev_headers ev) as [| |hs];
    cbn [ImageRetrieval.get_get]; [simpl; responded|simpl; responded|].
  cbv beta iota.
  destruct (Str.startswith "Bearer " (default "" (assoc "Authorization" hs)));
    cbn [negb]; cbv iota; [|responded].
  destruct (cognito_get_user _) as [user|e]; cbv beta iota; [|responded].
  cbn [ImageRetrieval.sub].
  destruct (ImageRetrieval.queryStringParameters ev) as [| |qs];
    cbn [ImageRetrieval.get_get]; [simpl; responded|simpl; responded|].
  cbv beta iota. cbn [id].
  destruct (assoc "image_id" qs) as [image_id|]; cbn [truthy negb]; [|responded].
  destruct (String.eqb image_id ""); cbn [negb]; cbv iota; [responded|].
  cbn [default].
  destruct (s3_head_fault OUTPUT_BUCKET _) as [e|].
  { destruct e; cbv beta iota; try responded. destruct (_ || _); responded. }
  destruct (presign OUTPUT_BUCKET _ 3600) as [url|e]; cbv beta iota; responded.
Qed.

Lemma main_get ev w :
  ImageRetrieval.httpMethod ev = Some "GET" → main ev w = handle ev w.
Proof.
  intros Hm. unfold main, ImageRetrieval.main. rewrite Hm. py_unfold. fold handle.
  destruct (handle_responds ev w) as (r & -> & _). done.
Qed.

Lemma method_other {A} (m : string) (a b c : A) :
  m ≠ "GET" → m ≠ "OPTIONS" →
  match m with
  | "GET" => a
  | "OPTIONS" => b
  | _ => c
  end = c.
Proof.
  intros Hget Hoptions.
  repeat match goal with
         | |- context [match ?x with _ => _ end] => destruct x
         end; done.
Qed.

Lemma main_other ev w :
  ImageRetrieval.httpMethod ev ≠ Some "GET" → ImageRetrieval.httpMethod ev ≠ Some "OPTIONS" →
  main ev w = (Returned (respond 405 (JObj [("error", JStr "Method not allowed")])), w).
Proof.
  intros Hget Hoptions. unfold main, ImageRetrieval.main.
  destruct (ImageRetrieval.httpMethod ev) as [m|]; [|done].
  rewrite method_other by congruence. done.
Qed.

(** X19.  [main] never raises and changes nothing: for every event it
    returns one response, with the four CORS headers and one of the status
    codes 200, 400, 401, 404, 405 and 500. *)
Theorem retrieval_always_responds (ev : ImageRetrieval.event) (w : world) :
  ∃ r, main ev w = (Returned r, w)
       ∧ headers r = ImageRetrieval.CORS_HEADERS
       ∧ statusCode r ∈ RETRIEVAL_STATUSES.
Proof.
  destruct (decide (ImageRetrieval.httpMethod ev = Some "GET")) as [Hget|Hget].
  { rewrite (main_get ev w Hget). destruct (handle_responds ev w) as (r & Hr & Hh & Hs).
    exists r. split; [done|]. split; [done|].
    unfold RETRIEVAL_STATUSES. revert Hs. rewrite !elem_of_cons. tauto. }
  destruct (decide (ImageRetrieval.httpMethod ev = Some "OPTIONS")) as [Hopt|Hopt].
  { unfold main, ImageRetrieval.main. rewrite Hopt. eexists. split; [reflexivity|].
    split; [reflexivity|]. unfold RETRIEVAL_STATUSES. cbn [statusCode ImageRetrieval.create_response].
    rewrite !elem_of_cons. tauto. }
  rewrite (main_other ev w Hget Hopt). eexists. split; [reflexivity|].
  split; [reflexivity|]. unfold RETRIEVAL_STATUSES. cbn [statusCode respond ImageRetrieval.create_response].
  rewrite !elem_of_cons. tauto.
Qed.

(** X20.  The routing by method: [OPTIONS] is answered 200 with an empty
    object whatever the headers, token or parameters; [GET] is answered by
    [handle_image_retrieval]; any other method, and an event without a
    method, is answered 405 [Method not allowed]. *)
Theorem retrieval_method_routing (ev : ImageRetrieval.event) (w : world) :
  (ImageRetrieval.httpMethod ev = Some "OPTIONS" →
     main ev w = (Returned (respond 200 (JObj [])), w))
  ∧ (ImageRetrieval.httpMethod ev = Some "GET" → main ev w = handle ev w)
  ∧ (ImageRetrieval.httpMethod ev ≠ Some "GET" →
     ImageRetrieval.httpMethod ev ≠ Some "OPTIONS" →
     main ev w = (Returned (respond 405 (JObj [("error", JStr "Method not allowed")])), w)).
Proof.
  split; [|split].
  - intros Hm. unfold main, ImageRetrieval.main. by rewrite Hm.
  - apply main_get.
  - apply main_other.
Qed.

(** X21.  A signed URL is handed out only to an authenticated caller and
    only for a key of the caller's own: when the handler answers 200, the
    [Authorization] header began with [Bearer ], Cognito accepted the word
    after the first space as a token, the request named a non-empty
    [image_id], the key [watermarked/<caller>/<image_id>_watermarked.<ext>]
    (ext [jpg] unless given) passed the existence check in the output
    bucket, and the URL in the body is the one signed for that key for
    3600 seconds. *)
Theorem retrieval_grants_own_keys_only (ev : ImageRetrieval.event) (w w' : world)
    (r : response) :
  handle ev w = (Returned r, w') → statusCode r = 200 →
  ∃ hs qs user image_id url,
    let auth_header := default "" (assoc "Authorization" hs) in
    let token := default "" (Str.split " " auth_header !! 1%nat) in
    let caller := ImageRetrieval.Username user in
    let extension := default "jpg" (assoc "extension" qs) in
    let image_key := ImageRetrieval.image_key_of caller image_id extension in
    ImageRetrieval.ev_headers ev = ImageRetrieval.Present hs
    ∧ Str.startswith "Bearer " auth_header = true
    ∧ cognito_get_user token = Returned user
    ∧ ImageRetrieval.queryStringParameters ev = ImageRetrieval.Present qs
    ∧ assoc "image_id" qs = Some image_id ∧ image_id ≠ ""
    ∧ Str.startswith ("watermarked/" +:+ caller +:+ "/") image_key = true
    ∧ s3_head_fault OUTPUT_BUCKET image_key = None
    ∧ presign OUTPUT_BUCKET image_key 3600 = Returned url
    ∧ body r = json_dumps
        (JObj [("image_id", JStr image_id); ("user_id", JStr caller);
               ("processed_image",
                JObj [("key", JStr image_key); ("download_url", JStr url);
                      ("expires_in", JStr "1 hour"); ("extension", JStr extension)])])
    ∧ w' = w.
Proof.
  unfold handle, ImageRetrieval.handle_image_retrieval, ImageRetrieval.validate_token,
    ImageRetrieval.not_found, ImageRetrieval.check_failed, ImageRetrieval.internal_error,
    ImageRetrieval.create_response.
  py_unfold.
  destruct (ImageRetrieval.ev_headers ev) as [| |hs] eqn:Hhs;
    cbn [ImageRetrieval.get_get]; try (intros [= <- <-]; simpl; discriminate).
  cbv beta iota.
  destruct (Str.startswith "Bearer " (default "" (assoc "Authorization" hs))) eqn:Hstart;
    cbn [negb]; cbv iota; [|intros [= <- <-]; simpl; discriminate].
  destruct (cognito_get_user _) as [user|e] eqn:Hcog;
    cbv beta iota; [|intros [= <- <-]; simpl; discriminate].
  cbn [ImageRetrieval.sub].
  destruct (ImageRetrieval.queryStringParameters ev) as [| |qs] eqn:Hqs;
    cbn [ImageRetrieval.get_get]; try (intros [= <- <-]; simpl; discriminate).
  cbv beta iota. cbn [id].
  destruct (assoc "image_id" qs) as [image_id|] eqn:Hid; cbn [truthy negb];
    [|intros [= <- <-]; simpl; discriminate].
  destruct (String.eqb_spec image_id "") as [|Hne]; cbn [negb]; cbv iota;
    [intros [= <- <-]; simpl; discriminate|].
  cbn [default].
  destruct (s3_head_fault OUTPUT_BUCKET _) as [e|] eqn:Hhead.
  { destruct e; cbv beta iota; try (intros [= <- <-]; simpl; discriminate).
    destruct (_ || _); intros [= <- <-]; simpl; discriminate. }
  destruct (presign OUTPUT_BUCKET _ 3600) as [url|e] eqn:Hurl;
    cbv beta iota; [|intros [= <- <-]; simpl; discriminate].
  intros [= <- <-] _.
  exists hs, qs, user, image_id, url. cbv zeta.
  split; [done|]. split; [done|]. split; [done|]. split; [done|]. split; [done|].
  split; [done|].
  split; [unfold ImageRetrieval.image_key_of; by rewrite !startswith_app_l|].
  split; [done|]. split; [done|].
  split; reflexivity.
Qed.

End RetrievalResponses.

Definition retrieval_main : ImageRetrieval.event → py response :=
  ImageRetrieval.main (Some "out") Fixture.json_dumps
    Fixture.cognito_get_user Fixture.s3_head_fault Fixture.presign.

(** A preflight request, and a DELETE, both without any header. *)
Definition preflight : ImageRetrieval.event :=
  {| ImageRetrieval.httpMethod := Some "OPTIONS";
     ImageRetrieval.ev_headers := ImageRetrieval.Null;
     ImageRetrieval.queryStringParameters := ImageRetrieval.Null |}.

Definition delete_request : ImageRetrieval.event :=
  {| ImageRetrieval.httpMethod := Some "DELETE";
     ImageRetrieval.ev_headers := ImageRetrieval.Null;
     ImageRetrieval.queryStringParameters := ImageRetrieval.Null |}.

Lemma retrieval_method_routing_witness :
  retrieval_main preflight world0
  = (Returned (ImageRetrieval.create_response Fixture.json_dumps 200 (JObj [])), world0)
  ∧ retrieval_main delete_request world0
    = (Returned (ImageRetrieval.create_response Fixture.json_dumps 405
                   (JObj [("error", JStr "Method not allowed")])), world0)
  ∧ retrieval_main get_abc world0 = retrieval_handle get_abc world0.
Proof.
  destruct (retrieval_method_routing (Some "out") Fixture.json_dumps Fixture.cognito_get_user
              Fixture.s3_head_fault Fixture.presign preflight world0) as (Hopt & _ & _).
  destruct (retrieval_method_routing (Some "out") Fixture.json_dumps Fixture.cognito_get_user
              Fixture.s3_head_fault Fixture.presign delete_request world0) as (_ & _ & Hother).
  destruct (retrieval_method_routing (Some "out") Fixture.json_dumps Fixture.cognito_get_user
              Fixture.s3_head_fault Fixture.presign get_abc world0) as (_ & Hget & _).
  split; [exact (Hopt eq_refl)|]. split; [|exact (Hget eq_refl)].
  apply Hother; discriminate.
Defined.

Lemma retrieval_grants_own_keys_only_witness :
  ∃ r url, retrieval_handle get_abc world0 = (Returned r, world0)
           ∧ Fixture.presign (Some "out") "watermarked/u1/abc_watermarked.jpg" 3600
             = Returned url
           ∧ Fixture.cognito_get_user "token-u1"
             = Returned {| ImageRetrieval.Username := "u1";
                           ImageRetrieval.UserAttributes :=
                             [("email", "u1@example.org"); ("email_verified", "true")] |}.
Proof.
  destruct (retrieval_handle get_abc world0) as [[r|e] w'] eqn:Hrun;
    [|vm_compute in Hrun; discriminate].
  assert (Hstatus : statusCode r = 200).
  { assert (H : (retrieval_handle get_abc world0).1 = Returned r) by by rewrite Hrun.
    vm_compute in H. by injection H as <-. }
  destruct (retrieval_grants_own_keys_only (Some "out") Fixture.json_dumps
              Fixture.cognito_get_user Fixture.s3_head_fault Fixture.presign
              get_abc world0 w' r Hrun Hstatus)
    as (hs & qs & user & image_id & url & Hhs & _ & Hcog & Hqs & Hid & _ & _ & _ & Hurl
        & _ & ->).
  injection Hhs as <-. injection Hqs as <-. injection Hid as <-.
  assert (Huser : user = {| ImageRetrieval.Username := "u1";
                            ImageRetrieval.UserAttributes :=
                              [("email", "u1@example.org"); ("email_verified", "true")] |}).
  { vm_compute in Hcog. by injection Hcog as <-. }
  subst user. exists r, url. split; [reflexivity|]. split; [exact Hurl|reflexivity].
Defined.

(** ** The upload service *)

(** The responses of the upload handler that carry no URL. *)
Definition UPLOAD_REFUSALS : list (Z * json) :=
  [(200, JObj []);
   (401, JObj [("error", JStr "Authorization header required")]);
   (401, JObj [("error", JStr "Invalid token")]);
   (400, JObj [("error", JStr "fileName and fileType are required")]);
   (400, JObj [("error", JStr "Invalid file type. Only JPEG, PNG, and GIF are allowed.")]);
   (400, JObj [("error", JStr "Invalid JSON in request body")]);
   (405, JObj [("error", JStr "Method not allowed")]);
   (500, JObj [("error", JStr "Internal server error")])].

Lemma allowed_type_well_formed file_type :
  file_type ∈ UploadHandler.allowed_types →
  UploadHandler.content_type_malformed file_type = false
  ∧ UploadHandler.get_file_extension file_type ∈ [".jpg"; ".png"; ".gif"].
Proof.
  unfold UploadHandler.allowed_types. rewrite !elem_of_cons.
  intros [->|[->|[->|H]]]; [| | |by apply elem_of_nil in H];
    (split; [reflexivity|]); simpl; tauto.
Qed.

Lemma method_other_post {A} (m : string) (a b c : A) :
  m ≠ "POST" → m ≠ "OPTIONS" →
  match m with
  | "POST" => a
  | "OPTIONS" => b
  | _ => c
  end = c.
Proof.
  intros Hpost Hoptions.
  repeat match goal with
         | |- context [match ?x with _ => _ end] => destruct x
         end; done.
Qed.

(** The same request with another body. *)
Definition with_body (ev : UploadHandler.event) (text : string) : UploadHandler.event :=
  {| UploadHandler.httpMethod := UploadHandler.httpMethod ev;
     UploadHandler.ev_headers := UploadHandler.ev_headers ev;
     UploadHandler.ev_body := ImageRetrieval.Present text |}.

Section Upload.
Variable INPUT_BUCKET : option string.
Variable S3_KMS_KEY_ID : string.
Variable uuid4 : string.
Variable json_loads : string → option json.
Variable json_dumps : json → string.
Variable cognito_get_user : string → outcome ImageRetrieval.cognito_user.
Variable presign_put : option string → string → string → string → Z → outcome string.

Let handle := UploadHandler.handle_upload_request INPUT_BUCKET S3_KMS_KEY_ID uuid4 json_loads
  json_dumps cognito_get_user presign_put.
Let main := UploadHandler.main INPUT_BUCKET S3_KMS_KEY_ID uuid4 json_loads json_dumps
  cognito_get_user presign_put.
Let respond := UploadHandler.create_response json_dumps.

(** The key handed to a caller for a file of an allowed type. *)
Definition file_key_of (caller file_type : string) : string :=
  "uploads/" +:+ caller +:+ "/" +:+ uuid4 +:+ UploadHandler.get_file_extension file_type.

Definition granted (status : Z) (payload : json) : Prop :=
  ∃ url caller file_type,
    status = 200
    ∧ payload = JObj [("uploadUrl", JStr url); ("fileKey", JStr (file_key_of caller file_type));
                      ("expiresIn", JNum 3600)].

Ltac upload_unfold :=
  unfold handle, UploadHandler.handle_upload_request, UploadHandler.validate_token,
    UploadHandler.generate_presigned_url, UploadHandler.body_get;
  py_unfold.

Ltac refused :=
  eexists _, _; (split; [reflexivity|]); left; unfold UPLOAD_REFUSALS;
  rewrite !elem_of_cons; tauto.

Lemma handle_upload_responds ev w :
  ∃ status payload,
    handle ev w = (Returned (respond status payload), w)
    ∧ ((status, payload) ∈ UPLOAD_REFUSALS ∨ granted status payload).
Proof.
  upload_unfold.
  destruct (UploadHandler.ev_headers ev) as [| |hs];
    cbn [ImageRetrieval.get_get]; [simpl; refused|simpl; refused|].
  cbv beta iota.
  destruct (Str.startswith "Bearer " (default "" (assoc "Authorization" hs)));
    cbn [negb]; cbv iota; [|refused].
  destruct (cognito_get_user _) as [user|e]; cbv beta iota; [|refused].
  cbn [ImageRetrieval.sub].
  destruct (UploadHandler.ev_body ev) as [| |text]; cbv beta iota; [|refused|].
  all: destruct (json_loads _) as [body|]; cbv beta iota; [|refused].
  all: destruct body as [| | | | |fields]; cbv beta iota; try refused.
  all: destruct (UploadHandler.json_truthy (default JNull (assoc "fileName" fields)));
    cbn [negb orb]; cbv iota; [|refused].
  all: destruct (default JNull (assoc "fileType" fields)) as [| | |file_type| |];
    cbn [UploadHandler.json_truthy negb]; try refused;
    try (destruct (negb _); refused).
  all: destruct (String.eqb file_type ""); cbn [negb]; cbv iota; [refused|].
  all: case_bool_decide as Hallowed; cbn [negb]; cbv iota; [|refused].
  all: destruct (allowed_type_well_formed file_type Hallowed) as [-> _]; cbv iota.
  all: destruct (presign_put _ _ _ _ _) as [url|e]; cbv beta iota; [|destruct e; refused].
  all: eexists _, _; (split; [reflexivity|]); right;
    exists url, (ImageRetrieval.Username user), file_type; split; reflexivity.
Qed.

(** X22.  The upload service never raises and changes nothing: every
    event gets a response with the CORS headers, and the response is one
    of eight fixed refusals (the empty 200 of a preflight, 401 twice, 400
    three times, 405, 500) or a 200 that carries an upload URL, a key
    [uploads/<caller>/<uuid><extension>] and [expiresIn] 3600.  The answer
    [Invalid Content-Type format] is never given: the three allowed types
    all pass that check. *)
Theorem upload_always_responds (ev : UploadHandler.event) (w : world) :
  ∃ status payload,
    main ev w = (Returned (respond status payload), w)
    ∧ headers (respond status payload) = UploadHandler.CORS_HEADERS
    ∧ ((status, payload) ∈ UPLOAD_REFUSALS ∨ granted status payload).
Proof.
  unfold main, UploadHandler.main.
  destruct (UploadHandler.httpMethod ev) as [m|];
    [|unfold try_except; py_unfold; eexists _, _; (split; [reflexivity|]);
      (split; [reflexivity|]); left; unfold UPLOAD_REFUSALS; rewrite !elem_of_cons; tauto].
  destruct (decide (m = "POST")) as [->|Hpost].
  { fold handle. destruct (handle_upload_responds ev w) as (status & payload & Hrun & Hcase).
    exists status, payload. unfold try_except. rewrite Hrun. done. }
  destruct (decide (m = "OPTIONS")) as [->|Hoptions].
  { unfold try_except, UploadHandler.handle_cors_preflight. py_unfold.
    eexists _, _. split; [reflexivity|]. split; [reflexivity|]. left.
    unfold UPLOAD_REFUSALS. rewrite !elem_of_cons. tauto. }
  rewrite method_other_post by done. unfold try_except. py_unfold.
  eexists _, _. split; [reflexivity|]. split; [reflexivity|]. left.
  unfold UPLOAD_REFUSALS. rewrite !elem_of_cons. tauto.
Qed.

(** X23.  An upload URL is granted only to an authenticated caller, for
    an allowed type and a key of the caller's own: when the handler
    answers 200, Cognito accepted the token, the body parsed to an object
    with a [fileName] and a [fileType] among [image/jpeg], [image/png],
    [image/gif], the key is [uploads/<caller>/<uuid><extension>] and the
    URL was signed for that key in the input bucket, for that content type,
    for 7200 seconds, while the body announces [expiresIn] 3600.  The
    ingestion adapter attributes that key to the caller, with [<uuid><extension>]
    as the file name, provided the caller's name and the uuid hold no
    slash. *)
Theorem upload_grants_own_keys_only (ev : UploadHandler.event) (w w' : world) (r : response) :
  handle ev w = (Returned r, w') → statusCode r = 200 →
  ∃ hs user fields file_type url,
    let auth_header := default "" (assoc "Authorization" hs) in
    let token := default "" (Str.split " " auth_header !! 1%nat) in
    let caller := ImageRetrieval.Username user in
    let file_key := file_key_of caller file_type in
    UploadHandler.ev_headers ev = ImageRetrieval.Present hs
    ∧ Str.startswith "Bearer " auth_header = true
    ∧ cognito_get_user token = Returned user
    ∧ json_loads (match UploadHandler.ev_body ev with
                  | ImageRetrieval.Present text => text
                  | _ => "{}"
                  end) = Some (JObj fields)
    ∧ UploadHandler.json_truthy (default JNull (assoc "fileName" fields)) = true
    ∧ assoc "fileType" fields = Some (JStr file_type)
    ∧ file_type ∈ UploadHandler.allowed_types
    ∧ presign_put INPUT_BUCKET file_key file_type S3_KMS_KEY_ID 7200 = Returned url
    ∧ body r = json_dumps (JObj [("uploadUrl", JStr url); ("fileKey", JStr file_key);
                                 ("expiresIn", JNum 3600)])
    ∧ w' = w
    ∧ (caller ≠ "" → Str.contains "/" caller = false → Str.contains "/" uuid4 = false →
       S3EventHandler.extract_user_info_from_key file_key
       = Some {| S3EventHandler.user_id := caller;
                 S3EventHandler.filename :=
                   uuid4 +:+ UploadHandler.get_file_extension file_type |}).
Proof.
  upload_unfold.
  destruct (UploadHandler.ev_headers ev) as [| |hs] eqn:Hhs;
    cbn [ImageRetrieval.get_get]; try (simpl; intros [= <- <-]; simpl; discriminate).
  cbv beta iota.
  destruct (Str.startswith "Bearer " (default "" (assoc "Authorization" hs))) eqn:Hstart;
    cbn [negb]; cbv iota; [|intros [= <- <-]; simpl; discriminate].
  destruct (cognito_get_user _) as [user|e] eqn:Hcog;
    cbv beta iota; [|intros [= <- <-]; simpl; discriminate].
  cbn [ImageRetrieval.sub].
  set (text := match UploadHandler.ev_body ev with
               | ImageRetrieval.Present text => text
               | _ => "{}"
               end).
  destruct (UploadHandler.ev_body ev) as [| |text'] eqn:Hbody; cbv beta iota;
    [|intros [= <- <-]; simpl; discriminate|]; simpl in text; subst text.
  all: destruct (json_loads _) as [body|] eqn:Hloads; cbv beta iota;
    [|intros [= <- <-]; simpl; discriminate].
  all: destruct body as [| | | | |fields]; cbv beta iota;
    try (intros [= <- <-]; simpl; discriminate).
  all: destruct (UploadHandler.json_truthy (default JNull (assoc "fileName" fields)))
    eqn:Hname; cbn [negb orb]; cbv iota; [|intros [= <- <-]; simpl; discriminate].
  all: destruct (assoc "fileType" fields) as [ft|] eqn:Htype; cbn [default from_option id];
    [|cbn [UploadHandler.json_truthy negb]; intros [= <- <-]; simpl; discriminate].
  all: destruct ft as [| | |file_type| |]; cbn [UploadHandler.json_truthy negb orb];
    try (intros [= <- <-]; simpl; discriminate);
    try (destruct (negb _); intros [= <- <-]; simpl; discriminate).
  all: destruct (String.eqb file_type ""); cbn [negb orb]; cbv iota;
    [intros [= <- <-]; simpl; discriminate|].
  all: case_bool_decide as Hallowed; cbn [negb]; cbv iota;
    [|intros [= <- <-]; simpl; discriminate].
  all: destruct (allowed_type_well_formed file_type Hallowed) as [-> _]; cbv iota.
  all: destruct (presign_put _ _ _ _ _) as [url|e] eqn:Hurl; cbv beta iota;
    [|destruct e; intros [= <- <-]; simpl; discriminate].
  all: intros [= <- <-] _; exists hs, user, fields, file_type, url; cbv zeta.
  all: repeat (split; [done|]).
  all: intros Hne Hcaller Huuid; apply extract_valid; [|done].
  all: unfold file_key_of; apply split_upload_key; [done|].
  all: rewrite contains_app, Huuid.
  all: destruct (allowed_type_well_formed file_type Hallowed) as [_ Hext].
  all: revert Hext; rewrite !elem_of_cons; intros [->|[->|[->|H]]];
    [done..|by apply elem_of_nil in H].
Qed.

(** X24.  The file name the client sends has no part in the answer: two
    requests that differ only in their bodies, both bodies being objects
    with some [fileName] and the same [fileType], get the same response,
    so the key handed out never holds the client's file name. *)
Theorem upload_ignores_file_name (ev : UploadHandler.event) (text1 text2 : string)
    (fields1 fields2 : list (string * json)) (w : world) :
  json_loads text1 = Some (JObj fields1) → json_loads text2 = Some (JObj fields2) →
  UploadHandler.json_truthy (default JNull (assoc "fileName" fields1)) = true →
  UploadHandler.json_truthy (default JNull (assoc "fileName" fields2)) = true →
  assoc "fileType" fields1 = assoc "fileType" fields2 →
  handle (with_body ev text1) w = handle (with_body ev text2) w.
Proof.
  intros Hloads1 Hloads2 Hname1 Hname2 Htype. upload_unfold.
  cbn [with_body UploadHandler.ev_headers UploadHandler.ev_body].
  rewrite Hloads1, Hloads2. cbv beta iota. rewrite Hname1, Hname2, Htype. reflexivity.
Qed.

End Upload.

(** Stand-ins for the upload service: one uuid, a parser that knows two
    bodies, a signer. *)
Definition upload_uuid : string := "123e4567-e89b-42d3-a456-426614174000".

Definition upload_body (file_name : string) : json :=
  JObj [("fileName", JStr file_name); ("fileType", JStr "image/png")].

Definition upload_json_loads : string → option json :=
  Fixture.json_loads_of [upload_body "holiday.png"; upload_body "x.png"].

Definition upload_presign (bucket : option string) (key content_type kms_key_id : string)
    (ttl : Z) : outcome string :=
  Returned ("https://in.s3.amazonaws.com/" +:+ key +:+ "?X-Amz-Expires=" +:+ pretty ttl).

Definition post_upload (file_name : string) : UploadHandler.event :=
  {| UploadHandler.httpMethod := Some "POST";
     UploadHandler.ev_headers := ImageRetrieval.Present [("Authorization", "Bearer token-u1")];
     UploadHandler.ev_body :=
       ImageRetrieval.Present (Fixture.json_dumps (upload_body file_name)) |}.

Definition upload_handle : UploadHandler.event → py response :=
  UploadHandler.handle_upload_request (Some "in") "alias/aws/s3" upload_uuid upload_json_loads
    Fixture.json_dumps Fixture.cognito_get_user upload_presign.

Lemma upload_grants_own_keys_only_witness :
  ∃ r, upload_handle (post_upload "holiday.png") world0 = (Returned r, world0)
       ∧ body r
         = Fixture.json_dumps
             (JObj [("uploadUrl",
                     JStr ("https://in.s3.amazonaws.com/"
                           +:+ "uploads/u1/123e4567-e89b-42d3-a456-426614174000.png"
                           +:+ "?X-Amz-Expires=7200"));
                    ("fileKey", JStr "uploads/u1/123e4567-e89b-42d3-a456-426614174000.png");
                    ("expiresIn", JNum 3600)])
       ∧ S3EventHandler.extract_user_info_from_key
           "uploads/u1/123e4567-e89b-42d3-a456-426614174000.png"
         = Some {| S3EventHandler.user_id := "u1";
                   S3EventHandler.filename := "123e4567-e89b-42d3-a456-426614174000.png" |}.
Proof.
  destruct (upload_handle (post_upload "holiday.png") world0) as [[r|e] w'] eqn:Hrun;
    [|vm_compute in Hrun; discriminate].
  assert (Hstatus : statusCode r = 200).
  { assert (H : (upload_handle (post_upload "holiday.png") world0).1 = Returned r)
      by by rewrite Hrun.
    vm_compute in H. by injection H as <-. }
  destruct (upload_grants_own_keys_only (Some "in") "alias/aws/s3" upload_uuid upload_json_loads
              Fixture.json_dumps Fixture.cognito_get_user upload_presign
              (post_upload "holiday.png") world0 w' r Hrun Hstatus)
    as (hs & user & fields & file_type & url & Hhs & _ & Hcog & Hloads & _ & Htype & _
        & Hurl & Hbody & -> & Hingest).
  injection Hhs as <-.
  assert (Huser : user = {| ImageRetrieval.Username := "u1";
                            ImageRetrieval.UserAttributes :=
                              [("email", "u1@example.org"); ("email_verified", "true")] |}).
  { vm_compute in Hcog. by injection Hcog as <-. }
  subst user.
  assert (Hfields : fields = [("fileName", JStr "holiday.png"); ("fileType", JStr "image/png")]).
  { vm_compute in Hloads. by injection Hloads as <-. }
  subst fields. injection Htype as <-.
  assert (Hu : url = "https://in.s3.amazonaws.com/"
                     +:+ "uploads/u1/123e4567-e89b-42d3-a456-426614174000.png"
                     +:+ "?X-Amz-Expires=7200").
  { vm_compute in Hurl. injection Hurl as <-. reflexivity. }
  subst url. exists r. split; [reflexivity|]. split; [exact Hbody|].
  apply Hingest; [discriminate|reflexivity|reflexivity].
Defined.

Lemma upload_ignores_file_name_witness :
  upload_handle (post_upload "holiday.png") world0 = upload_handle (post_upload "x.png") world0.
Proof.
  apply (upload_ignores_file_name (Some "in") "alias/aws/s3" upload_uuid upload_json_loads
           Fixture.json_dumps Fixture.cognito_get_user upload_presign
           (post_upload "holiday.png")
           (Fixture.json_dumps (upload_body "holiday.png"))
           (Fixture.json_dumps (upload_body "x.png"))
           [("fileName", JStr "holiday.png"); ("fileType", JStr "image/png")]
           [("fileName", JStr "x.png"); ("fileType", JStr "image/png")] world0);
    reflexivity.
Defined.

(** ** From the ingestion adapter to the orchestrator *)

(** The input of the run the orchestrator starts for the message the
    adapter built from a record. *)
Definition run_input_of (record : S3EventHandler.s3_record) (u f : string) (size : Z)
    (uploaded started_at : string) : list (string * json) :=
  [("image_id", JStr (S3EventHandler.s3_object_key record));
   ("bucket_name", JStr (S3EventHandler.s3_bucket_name record));
   ("user_id", JStr u);
   ("user_email", JStr "unknown");
   ("upload_timestamp", JStr uploaded);
   ("original_filename", JStr f);
   ("file_size", JNum size);
   ("processing_start_time", JStr started_at);
   ("status", JStr "processing")].

Section IngestionToOrchestrator.
Variable isoformat : nat → string.
Variable timestamp : nat → Z.
Variable json_loads : string → option json.
Variable json_dumps : json → string.
Variable py_repr : json → string.
Variable md5_hexdigest : string → string.
Variable sqs_fault : world → sqs_message → option exn.
Variable sfn_response : world → execution → outcome string.
Variable ddb_fault : world → string → option exn.

Let ingest := S3EventHandler.process_s3_event isoformat json_dumps sqs_fault.
Let process := Orchestrator.process_sqs_message isoformat timestamp json_loads json_dumps
                 py_repr md5_hexdigest sfn_response ddb_fault.

(** X25.  Every message the ingestion adapter publishes is one the
    orchestrator can process.  For a creation record on a key
    [uploads/u/f] the adapter queues one message; when that message is
    delivered and its body parses back to what was printed, and the
    workflow engine accepts the start, the orchestrator starts exactly one
    run, named from [u], the digest of the key and the time, whose input
    carries the key as [image_id], the record's bucket and size, [u], [f]
    and the adapter's clock reading, with [unknown] as e-mail; the names
    and the time of the S3 event are not passed on.  The update it sends
    is for the record keyed by the whole key. *)
Theorem ingested_message_starts_run (record : S3EventHandler.s3_record)
    (delivered : Orchestrator.sqs_record) (u f event_time arn : string) (size : Z)
    (w wq : world) :
  let key := S3EventHandler.s3_object_key record in
  let m := job_message json_dumps record u f size event_time (isoformat (clock w)) in
  let x :=
    {| exec_name := execution_name_of md5_hexdigest u key (timestamp (S (clock wq)));
       exec_input :=
         json_dumps (JObj (run_input_of record u f size (isoformat (clock w))
                             (isoformat (clock wq)))) |} in
  Str.split "/" key = ["uploads"; u; f] → u ≠ "" →
  Str.startswith "ObjectCreated" (S3EventHandler.eventName record) = true →
  S3EventHandler.s3_object_size record = Some size →
  S3EventHandler.eventTime record = Some event_time →
  sqs_fault (tick w) m = None →
  Orchestrator.record_body delivered = MessageBody m →
  json_loads (MessageBody m)
  = Some (JObj (S3EventHandler.build_message record
                  {| S3EventHandler.user_id := u; S3EventHandler.filename := f |}
                  size event_time (isoformat (clock w)))) →
  sfn_response (tick (tick wq)) x = Returned arn →
  ingest record w = (Returned (), enqueue m (tick w))
  ∧ ∃ w' sets,
      process delivered wq = (Returned (), w')
      ∧ sfn_executions w' = sfn_executions wq ++ [x]
      ∧ ddb_requests w' = ddb_requests wq ++ [(key, sets)]
      ∧ assoc "status" sets = Some (AttrS "processing").
Proof.
  intros key m x Hsplit Hu Hcreated Hsize Htime Hsend Hbody Hloads Hstart.
  subst key. split.
  - unfold ingest, S3EventHandler.process_s3_event. py_unfold.
    rewrite Hcreated. simpl.
    rewrite (extract_valid _ u f Hsplit Hu), Hsize, Htime. simpl.
    unfold S3EventHandler.send_sqs_message, S3EventHandler.sqs_send_message. py_unfold. simpl.
    unfold m, job_message in Hsend. simpl in Hsend. rewrite Hsend. done.
  - unfold process, Orchestrator.process_sqs_message, Orchestrator.subscript,
      Orchestrator.dict_get, Orchestrator.start_workflow, Orchestrator.slice8,
      Orchestrator.start_execution, Orchestrator.utcnow, Orchestrator.utcnow_timestamp.
    py_unfold. rewrite Hbody, Hloads. cbv beta iota.
    unfold S3EventHandler.build_message.
    cbn [assoc String.eqb Ascii.eqb Bool.eqb S3EventHandler.user_id S3EventHandler.filename
         default from_option id].
    py_unfold. cbv beta iota. cbn [Orchestrator.format_value clock tick].
    fold (run_input_of record u f size (isoformat (clock w)) (isoformat (clock wq))).
    fold (execution_name_of md5_hexdigest u (S3EventHandler.s3_object_key record)
            (timestamp (S (clock wq)))).
    fold x. rewrite Hstart. cbv beta iota.
    unfold Orchestrator.update_dynamodb_status, Orchestrator.update_item, Orchestrator.utcnow.
    py_unfold. cbn [clock tick started].
    set (sets := if String.eqb arn "" then _ else _).
    assert (Hstatus : assoc "status" sets = Some (AttrS "processing"))
      by (subst sets; by destruct (String.eqb arn "")).
    destruct (ddb_fault _ _); cbv beta iota; eexists _, sets;
      (split; [reflexivity|]); (split; [done|]); (split; [reflexivity|]); exact Hstatus.
Qed.

End IngestionToOrchestrator.

Lemma ingested_message_starts_run_witness :
  ∃ w', Orchestrator.process_sqs_message Fixture.isoformat Fixture.timestamp json_loads_abc
          Fixture.json_dumps Fixture.json_dumps Fixture.md5_hexdigest Fixture.sfn_response
          Fixture.no_ddb_fault
          (delivery 1
             (MessageBody (job_message Fixture.json_dumps put_abc "u1" "abc.jpg" 2000
                             "2024-05-01T11:59:58.000Z" (Fixture.isoformat 0))))
          (S3EventHandler.process_s3_event Fixture.isoformat Fixture.json_dumps
             Fixture.no_sqs_fault put_abc world0).2
        = (Returned (), w')
        ∧ exec_name <$> sfn_executions w' = ["img-u1-5f4dcc3b-1714564802"]
        ∧ (ddb_requests w').*1 = ["uploads/u1/abc.jpg"].
Proof.
  destruct (ingested_message_starts_run Fixture.isoformat Fixture.timestamp json_loads_abc
              Fixture.json_dumps Fixture.json_dumps Fixture.md5_hexdigest
              Fixture.no_sqs_fault Fixture.sfn_response Fixture.no_ddb_fault put_abc
              (delivery 1
                 (MessageBody (job_message Fixture.json_dumps put_abc "u1" "abc.jpg" 2000
                                 "2024-05-01T11:59:58.000Z" (Fixture.isoformat 0))))
              "u1" "abc.jpg" "2024-05-01T11:59:58.000Z"
              "arn:aws:states:us-east-1:000000000000:execution:pipeline:img-u1-5f4dcc3b-1714564802"
              2000 world0
              (S3EventHandler.process_s3_event Fixture.isoformat Fixture.json_dumps
                 Fixture.no_sqs_fault put_abc world0).2)
    as (Hingest & w' & sets & Hrun & Hexec & Hreq & _);
    try reflexivity; try discriminate.
  exists w'. split; [exact Hrun|]. split.
  - rewrite Hexec. reflexivity.
  - rewrite Hreq. reflexivity.
Defined.

(** ** The extension of the watermarked object *)

Lemma output_format_cases original_format :
  output_format original_format
  = if String.eqb (Str.upper original_format) "PNG" then ("png", "image/png")
    else ("jpg", "image/jpeg").
Proof.
  unfold output_format. case_bool_decide as Hjpeg; [|done].
  destruct (String.eqb_spec (Str.upper original_format) "PNG") as [Hpng|]; [|done].
  rewrite Hpng in Hjpeg. rewrite !elem_of_cons in Hjpeg.
  destruct Hjpeg as [|[|Hnil]]; [done|done|by apply elem_of_nil in Hnil].
Qed.

Lemma image_key_of_extension user_id image_id e1 e2 :
  ImageRetrieval.image_key_of user_id image_id e1
  = ImageRetrieval.image_key_of user_id image_id e2 ↔ e1 = e2.
Proof.
  split; [|by intros ->]. unfold ImageRetrieval.image_key_of. intros H.
  by do 5 apply append_inj_l in H.
Qed.

Section StoredExtension.
Variable INPUT_BUCKET OUTPUT_BUCKET : option string.
Variable WATERMARK_TEXT : string.
Variable WATERMARK_OPACITY : Z.
Variable WATERMARK_POSITION : string.
Variable isoformat utc_date : nat → string.
Variable s3_object : world → option string → string → outcome (list byte).
Variable s3_put_fault : world → put_request → option exn.
Variable ddb_fault : world → string → option exn.
Variable image : Type.
Variable Image_open : list byte → outcome image.
Variable im_width im_height : image → Z.
Variable im_format : image → option string.
Variable im_mode : image → string.
Variable im_convert : image → string → image.
Variable paste_on_white : image → bool → image.
Variable im_save : image → string → outcome (list byte).
Variable new_layer : Z * Z → image.
Variable textbbox : image → string → Z * Z * Z * Z.
Variable draw_text : image → Z * Z → string → Z → image.
Variable alpha_composite : image → image → outcome image.

Let watermark := Watermark.main INPUT_BUCKET OUTPUT_BUCKET WATERMARK_TEXT WATERMARK_OPACITY
  WATERMARK_POSITION isoformat utc_date s3_object s3_put_fault ddb_fault image Image_open
  im_width im_height im_format im_mode im_convert new_layer textbbox draw_text
  alpha_composite paste_on_white im_save.

(** What a run that returns has read, and what it reports and writes. *)
Lemma watermark_run_inv event w r w' :
  watermark event w = (Returned r, w') →
  let ctx := input_data_of event in
  let actual :=
    derive_actual_image_id (ctx_image_id ctx) (default "unknown" (ctx_user_id ctx)) in
  let base := base_name_of (default "image" (ctx_original_filename ctx)) actual in
  let wm := Watermark.res_watermarked_image r in
  ∃ data img put,
    s3_object w INPUT_BUCKET (default "" (ctx_image_id ctx)) = Returned data
    ∧ Image_open data = Returned img
    ∧ Watermark.res_original_format r = original_format_of (im_format img)
    ∧ (Watermark.wm_format wm, Watermark.wm_content_type wm)
      = output_format (Watermark.res_original_format r)
    ∧ s3_puts w' = s3_puts w ++ [put]
    ∧ put_Key put = Watermark.output_key actual base (Watermark.wm_format wm)
    ∧ put_ContentType put = Watermark.wm_content_type wm.
Proof.
  unfold watermark, Watermark.main. cbv zeta.
  unfold Watermark.get_object, Watermark.put_object, Watermark.update_item,
    Watermark.utcnow, Watermark.utcnow_date.
  py_unfold. intros Hrun.
  destruct (truthy (ctx_image_id (input_data_of event))); [|simpl in Hrun;
    repeat (match type of Hrun with
            | context [ddb_fault ?a ?b] => destruct (ddb_fault a b)
            end; simpl in Hrun); discriminate].
  destruct (truthy (ctx_bucket_name (input_data_of event))); [|simpl in Hrun;
    repeat (match type of Hrun with
            | context [ddb_fault ?a ?b] => destruct (ddb_fault a b)
            end; simpl in Hrun); discriminate].
  cbv beta iota in Hrun.
  destruct (s3_object w INPUT_BUCKET _) as [data|e] eqn:Hget; [|simpl in Hrun;
    repeat (match type of Hrun with
            | context [ddb_fault ?a ?b] => destruct (ddb_fault a b)
            end; simpl in Hrun); discriminate].
  destruct (Image_open data) as [img|e] eqn:Hopen; [|simpl in Hrun;
    repeat (match type of Hrun with
            | context [ddb_fault ?a ?b] => destruct (ddb_fault a b)
            end; simpl in Hrun); discriminate].
  exists data, img. cbv beta iota in Hrun.
  change (if String.eqb (default "JPEG" (im_format img)) "" then "JPEG"
          else default "JPEG" (im_format img))
    with (original_format_of (im_format img)) in Hrun.
  repeat (match type of Hrun with
          | context [textbbox ?l ?t] => destruct (textbbox l t) as [[[? ?] ?] ?]
          | context [alpha_composite ?a ?b] => destruct (alpha_composite a b)
          | context [im_save ?a ?b] => destruct (im_save a b)
          | context [output_format ?f] => destruct (output_format f) eqn:Hfmt
          | context [s3_put_fault ?a ?b] => destruct (s3_put_fault a b)
          | context [ddb_fault ?a ?b] => destruct (ddb_fault a b)
          end; simpl in Hrun); try discriminate.
  all: injection Hrun as <- <-; eexists; simpl; rewrite Hfmt;
    repeat split; first [reflexivity | eassumption].
Qed.

(** X26.  The extension of the watermarked object follows the format
    Pillow detected, not the name of the upload: for an original at
    [uploads/u/base.ext] a run that returns has stored
    [watermarked/u/base_watermarked.png] with content type [image/png] when
    the detected format is PNG (in any case of letters), and
    [watermarked/u/base_watermarked.jpg] with [image/jpeg] for every other
    format; the format it reports is that of the object it opened.  The key
    the retrieval service builds for a request of [u] for [base] is the
    stored key exactly when the requested extension, [jpg] when the request
    names none, is the stored one: a request without [extension] never
    reaches a PNG. *)
Theorem stored_extension_follows_format u base ext event w r w' :
  Str.contains "/" u = false → u ≠ "" →
  Str.contains "/" base = false → Str.all_dots base = false →
  Str.contains "/" ext = false → Str.contains "." ext = false →
  let key := "uploads/" +:+ u +:+ "/" +:+ base +:+ "." +:+ ext in
  ctx_image_id (input_data_of event) = Some key →
  ctx_original_filename (input_data_of event) = Some (base +:+ "." +:+ ext) →
  watermark event w = (Returned r, w') →
  let png := String.eqb (Str.upper (Watermark.res_original_format r)) "PNG" in
  let stored := if png then "png" else "jpg" in
  (∃ data img, s3_object w INPUT_BUCKET key = Returned data
               ∧ Image_open data = Returned img
               ∧ Watermark.res_original_format r = original_format_of (im_format img))
  ∧ Watermark.wm_format (Watermark.res_watermarked_image r) = stored
  ∧ (∃ put, s3_puts w' = s3_puts w ++ [put]
            ∧ put_Key put = "watermarked/" +:+ u +:+ "/" +:+ base +:+ "_watermarked." +:+ stored
            ∧ put_ContentType put = (if png then "image/png" else "image/jpeg")
            ∧ ∀ requested,
                ImageRetrieval.image_key_of u base (default "jpg" requested) = put_Key put
                ↔ default "jpg" requested = stored).
Proof.
  intros Hu Hune Hbase Hdots Hext Hdot key Hkey Hname Hrun png stored.
  assert (Hfile : Str.contains "/" (base +:+ "." +:+ ext) = false).
  { rewrite !contains_app. simpl. by rewrite Hbase, Hext. }
  destruct (derive_upload_key u (base +:+ "." +:+ ext) (default "unknown"
              (ctx_user_id (input_data_of event))) Hu Hfile) as [Hderive _].
  destruct (watermark_run_inv event w r w' Hrun)
    as (data & img & put & Hget & Hopen & Hformat & Hout & Hputs & Hput & Htype).
  rewrite output_format_cases in Hout. fold png in Hout.
  assert (Hstored : Watermark.wm_format (Watermark.res_watermarked_image r) = stored
                    ∧ Watermark.wm_content_type (Watermark.res_watermarked_image r)
                      = (if png then "image/png" else "image/jpeg")).
  { subst stored. destruct png; by injection Hout as -> ->. }
  destruct Hstored as [Hstored Hcontent].
  rewrite Hkey in Hget. cbn [default from_option id] in Hget.
  split; [by exists data, img|]. split; [exact Hstored|].
  exists put. split; [exact Hputs|].
  assert (Hwritten : put_Key put = ImageRetrieval.image_key_of u base stored).
  { rewrite Hput, Hkey, Hname, Hstored. cbn [default from_option id].
    fold key in Hderive. rewrite Hderive. by rewrite base_name_of_upload. }
  split; [exact Hwritten|]. split; [by rewrite Htype|].
  intros requested. rewrite Hwritten. apply image_key_of_extension.
Qed.

End StoredExtension.

Definition pic_event : stage_event :=
  {| ev_input := None;
     ev_top := {| ctx_image_id := Some "uploads/u1/pic.png";
                  ctx_bucket_name := Some "in";
                  ctx_user_id := Some "u1";
                  ctx_original_filename := Some "pic.png" |} |}.

Lemma stored_extension_follows_format_witness :
  put_Key <$> s3_puts (watermark_main pic_event world0).2
  = ["watermarked/u1/pic_watermarked.png"]
  ∧ ImageRetrieval.image_key_of "u1" "pic" (default "jpg" None)
    ≠ "watermarked/u1/pic_watermarked.png".
Proof.
  destruct (watermark_main pic_event world0) as [[r|e] w'] eqn:Hrun;
    [|vm_compute in Hrun; discriminate].
  assert (Hpng : Watermark.res_original_format r = "PNG").
  { assert (H : (watermark_main pic_event world0).1 = Returned r) by by rewrite Hrun.
    vm_compute in H. by injection H as <-. }
  destruct (stored_extension_follows_format (Some "in") (Some "out") "PROCESSED" 128
              "bottom-right" Fixture.isoformat Fixture.utc_date Fixture.s3_object
              Fixture.no_put_fault Fixture.no_ddb_fault Fixture.image Fixture.Image_open
              Fixture.width Fixture.height Fixture.format Fixture.mode
              Fixture.im_convert Fixture.paste_on_white Fixture.im_save
              Fixture.new_layer Fixture.textbbox Fixture.draw_text Fixture.alpha_composite
              "u1" "pic" "png" pic_event world0 r w')
    as (_ & _ & put & Hputs & Hput & _ & Hsame);
    try reflexivity; try discriminate; try exact Hrun.
  rewrite Hpng in Hput, Hsame. cbn [snd]. split.
  - rewrite Hputs. simpl. by rewrite Hput.
  - intros Heq. specialize (Hsame None).
    rewrite Hput in Hsame. by apply Hsame in Heq.
Defined.

(** ** The three variants have three keys *)

Lemma pretty_N_char_not_x (d : N) : Ascii.eqb (pretty_N_char d) "x" = false.
Proof.
  destruct d as [|p]; [done|].
  do 4 (try (destruct p as [p|p|]; try reflexivity)).
Qed.

Lemma contains_x_pretty_N_go (k : nat) (x : N) (s : string) :
  (x < 10 ^ N.of_nat k)%N →
  Str.contains "x" (pretty_N_go x s) = Str.contains "x" s.
Proof.
  revert x s. induction k as [|k IH]; intros x s Hx.
  - assert (x = 0%N) as -> by (simpl in Hx; lia). by rewrite pretty_N_go_0.
  - destruct (decide (x = 0%N)) as [->|Hpos]; [by rewrite pretty_N_go_0|].
    rewrite pretty_N_go_step by lia. rewrite IH.
    + simpl. by rewrite pretty_N_char_not_x.
    + apply N.Div0.div_lt_upper_bound.
      rewrite Nat2N.inj_succ, N.pow_succ_r' in Hx. lia.
Qed.

Lemma contains_x_pretty (z : Z) : Str.contains "x" (pretty z) = false.
Proof.
  assert (Hpos : ∀ p : positive, Str.contains "x" (pretty p) = false).
  { intros p. unfold pretty, pretty_positive, pretty, pretty_N.
    destruct (decide (N.pos p = 0%N)) as [|_]; [done|].
    rewrite (contains_x_pretty_N_go (Pos.to_nat p)); [done|].
    rewrite positive_nat_N. apply N.pow_gt_lin_r. lia. }
  destruct z as [|p|p]; [done|apply Hpos|].
  unfold pretty, pretty_Z. rewrite contains_app. simpl. apply Hpos.
Qed.

(** Two strings cut at a separator that neither first part holds. *)
Lemma app_sep_inj c a a' b b' :
  Str.contains c a = false → Str.contains c a' = false →
  a +:+ String c b = a' +:+ String c b' → a = a' ∧ b = b'.
Proof.
  revert a'. induction a as [|d a IH]; intros [|d' a']; simpl.
  - by intros _ _ [= ->].
  - intros _ [Hd _]%orb_false_iff [= <- _]. by rewrite Ascii.eqb_refl in Hd.
  - intros [Hd _]%orb_false_iff _ [= -> _]. by rewrite Ascii.eqb_refl in Hd.
  - intros [_ Ha]%orb_false_iff [_ Ha']%orb_false_iff [= -> H].
    destruct (IH a' Ha Ha' H) as [-> ->]. done.
Qed.

Lemma size_str_inj w h w' h' : size_str w h = size_str w' h' → w = w' ∧ h = h'.
Proof.
  unfold size_str. intros H.
  apply app_sep_inj in H as [Hw Hh]; [|apply contains_x_pretty..].
  split; by apply (inj pretty).
Qed.

Lemma append_inj_r (a b t : string) : a +:+ t = b +:+ t → a = b.
Proof.
  intros H.
  assert (Hlen : String.length a = String.length b).
  { apply (f_equal String.length) in H. rewrite !string_length_app in H. lia. }
  revert b H Hlen. induction a as [|c a IH]; intros [|d b]; simpl; try done.
  intros [= -> H] [= Hlen]. by rewrite (IH b H Hlen).
Qed.

Lemma output_key_inj actual base file_extension s s' :
  Resize.output_key actual base s file_extension
  = Resize.output_key actual base s' file_extension → s = s'.
Proof.
  unfold Resize.output_key. intros H. do 5 apply append_inj_l in H.
  apply append_inj_r, size_str_inj in H as [H1 H2].
  destruct s, s'. simpl in *. by subst.
Qed.

Lemma gtb_Qeq_r x t t' : (t == t')%Q → Float.gtb x t = Float.gtb x t'.
Proof.
  intros Ht. destruct (Float.gtb x t') eqn:Hy.
  - apply gtb_true. apply gtb_true in Hy. by rewrite Ht.
  - apply gtb_false. apply gtb_false in Hy. by rewrite Ht.
Qed.

(** The three boxes have one aspect ratio, so one side is pinned for all
    three: the three sizes differ in it. *)
Lemma fit_within_boxes_distinct iw ih :
  NoDup (Resize.fit_within iw ih <$> Resize.RESIZE_DIMENSIONS).
Proof.
  unfold Resize.RESIZE_DIMENSIONS, Resize.fit_within. cbn [fmap list_fmap].
  assert (H12 : Float.gtb (Float.div_int iw ih) (Float.div_int 1200 900)
                = Float.gtb (Float.div_int iw ih) (Float.div_int 800 600))
    by (apply gtb_Qeq_r, div_int_ratio; lia).
  assert (H4 : Float.gtb (Float.div_int iw ih) (Float.div_int 400 300)
               = Float.gtb (Float.div_int iw ih) (Float.div_int 800 600))
    by (apply gtb_Qeq_r, div_int_ratio; lia).
  revert H12 H4. generalize (Float.div_int 1200 900), (Float.div_int 400 300).
  intros t12 t4 -> ->.
  destruct (Float.gtb (Float.div_int iw ih) (Float.div_int 800 600)).
  - repeat (apply NoDup_cons; split; [rewrite ?not_elem_of_cons;
      repeat split; try (intros [= ?]; lia); apply not_elem_of_nil|]).
    apply NoDup_nil_2.
  - repeat (apply NoDup_cons; split; [rewrite ?not_elem_of_cons;
      repeat split; try (intros [= ?]; lia); apply not_elem_of_nil|]).
    apply NoDup_nil_2.
Qed.

Lemma variant_keys_distinct actual base original_format iw ih :
  NoDup (Resize.pi_key <$> (variant_of actual base original_format iw ih
                            <$> Resize.RESIZE_DIMENSIONS))
  ∧ NoDup (Resize.pi_size <$> (variant_of actual base original_format iw ih
                               <$> Resize.RESIZE_DIMENSIONS)).
Proof.
  pose proof (fit_within_boxes_distinct iw ih) as Hsizes.
  rewrite <- !list_fmap_compose. split.
  - replace (Resize.pi_key ∘ variant_of actual base original_format iw ih)
      with ((λ s, Resize.output_key actual base s (output_format original_format).1)
            ∘ Resize.fit_within iw ih) by done.
    rewrite list_fmap_compose. apply NoDup_fmap_2; [|done].
    intros s s' H. by apply output_key_inj in H.
  - replace (Resize.pi_size ∘ variant_of actual base original_format iw ih)
      with ((λ s : Z * Z, size_str s.1 s.2) ∘ Resize.fit_within iw ih) by done.
    rewrite list_fmap_compose. apply NoDup_fmap_2; [|done].
    intros [a b] [a' b'] H. simpl in H. by apply size_str_inj in H as [-> ->].
Qed.

Section ResizeKeys.
Variable INPUT_BUCKET OUTPUT_BUCKET : option string.
Variable isoformat : nat → string.
Variable s3_object : world → option string → string → outcome (list byte).
Variable s3_put_fault : world → put_request → option exn.
Variable ddb_fault : world → string → option exn.
Variable image : Type.
Variable Image_open : list byte → outcome image.
Variable im_width im_height : image → Z.
Variable im_format : image → option string.
Variable im_mode : image → string.
Variable im_resize : image → Z * Z → outcome image.
Variable im_convert : image → string → image.
Variable paste_on_white : image → bool → image.
Variable im_save : image → string → outcome (list byte).

Let resize := Resize.main INPUT_BUCKET OUTPUT_BUCKET isoformat s3_object s3_put_fault
  ddb_fault image Image_open im_width im_height im_format im_mode im_resize im_convert
  paste_on_white im_save.
Let resize_one := Resize.resize_one OUTPUT_BUCKET isoformat s3_put_fault image
  im_width im_height im_mode im_resize im_convert paste_on_white im_save.

Lemma resize_one_inv img image_key user_id original_filename actual original_format box
    w p w' :
  resize_one img image_key user_id original_filename actual original_format box w
  = (Returned p, w') →
  p = variant_of actual (base_name_of original_filename actual) original_format
        (im_width img) (im_height img) box
  ∧ ∃ put, s3_puts w' = s3_puts w ++ [put] ∧ put_Key put = Resize.pi_key p.
Proof.
  unfold resize_one, Resize.resize_one, Resize.put_object, Resize.utcnow, variant_of.
  py_unfold. intros Hrun.
  destruct (im_height img =? 0); [done|]. cbv beta iota in Hrun.
  destruct (im_resize img _) as [out|e]; [|done]. cbv beta iota in Hrun.
  destruct (im_save _ _) as [data|e]; [|done]. cbv beta iota in Hrun.
  destruct (output_format original_format) as [file_extension content_type].
  cbv beta iota in Hrun.
  destruct (s3_put_fault _ _) as [e|]; [done|].
  injection Hrun as <- <-. split; [reflexivity|]. eexists. split; reflexivity.
Qed.

Lemma resize_each_inv img image_key user_id original_filename actual original_format
    boxes w ps w' :
  Resize.resize_each boxes
    (resize_one img image_key user_id original_filename actual original_format) w
  = (Returned ps, w') →
  ps = (variant_of actual (base_name_of original_filename actual) original_format
          (im_width img) (im_height img) <$> boxes)
  ∧ put_Key <$> s3_puts w' = (put_Key <$> s3_puts w) ++ (Resize.pi_key <$> ps).
Proof.
  revert w ps w'. induction boxes as [|box boxes IH]; intros w ps w'; simpl.
  - py_unfold. intros [= <- <-]. split; [done|]. simpl. by rewrite app_nil_r.
  - py_unfold.
    destruct (resize_one _ _ _ _ _ _ box w) as [[p|e] w1] eqn:Hone; [|done].
    apply resize_one_inv in Hone as (-> & put & Hputs & Hkey).
    destruct (Resize.resize_each boxes _ w1) as [[qs|e] w2] eqn:Heach; [|done].
    apply IH in Heach as [-> Hrest]. intros [= <- <-]. split; [done|].
    rewrite Hrest, Hputs, fmap_app. simpl. rewrite Hkey. by rewrite <- app_assoc.
Qed.

(** X27.  A resize run that returns has written three objects under three
    different keys, all under [resized/<id>/] for the derived id, and the
    three descriptors it returns carry those keys in the order written and
    three different sizes: no variant overwrites another, whatever the
    size of the image. *)
Theorem resize_variants_have_distinct_keys (event : stage_event) (w w' : world)
    (r : Resize.result) :
  resize event w = (Returned r, w') →
  let ctx := input_data_of event in
  let actual :=
    derive_actual_image_id (ctx_image_id ctx) (default "unknown" (ctx_user_id ctx)) in
  let keys := Resize.pi_key <$> Resize.res_processed_images r in
  length keys = 3%nat
  ∧ NoDup keys
  ∧ NoDup (Resize.pi_size <$> Resize.res_processed_images r)
  ∧ put_Key <$> s3_puts w' = (put_Key <$> s3_puts w) ++ keys
  ∧ ∀ key, key ∈ keys → Str.startswith ("resized/" +:+ actual +:+ "/") key = true.
Proof.
  unfold resize, Resize.main. cbv zeta.
  unfold Resize.get_object, Resize.update_item, Resize.utcnow.
  py_unfold. intros Hrun.
  remember (derive_actual_image_id (ctx_image_id (input_data_of event))
              (default "unknown" (ctx_user_id (input_data_of event)))) as actual eqn:Hactual.
  destruct (truthy (ctx_image_id (input_data_of event))); [|simpl in Hrun;
    repeat (match type of Hrun with
            | context [ddb_fault ?a ?b] => destruct (ddb_fault a b)
            end; simpl in Hrun); discriminate].
  destruct (truthy (ctx_bucket_name (input_data_of event))); [|simpl in Hrun;
    repeat (match type of Hrun with
            | context [ddb_fault ?a ?b] => destruct (ddb_fault a b)
            end; simpl in Hrun); discriminate].
  cbv beta iota in Hrun.
  destruct (s3_object w INPUT_BUCKET _) as [data|e]; [|simpl in Hrun;
    repeat (match type of Hrun with
            | context [ddb_fault ?a ?b] => destruct (ddb_fault a b)
            end; simpl in Hrun); discriminate].
  destruct (Image_open data) as [img|e]; [|simpl in Hrun;
    repeat (match type of Hrun with
            | context [ddb_fault ?a ?b] => destruct (ddb_fault a b)
            end; simpl in Hrun); discriminate].
  cbv beta iota in Hrun.
  destruct (Resize.resize_each _ _ _) as [[ps|e] w1] eqn:Heach; [|simpl in Hrun;
    repeat (match type of Hrun with
            | context [ddb_fault ?a ?b] => destruct (ddb_fault a b)
            end; simpl in Hrun); discriminate].
  apply resize_each_inv in Heach as [Hps Hputs].
  cbv beta iota in Hrun. cbn [clock tick] in Hrun.
  assert (Hr : Resize.res_processed_images r = ps ∧ s3_puts w' = s3_puts w1).
  { destruct (ddb_fault _ _); simpl in Hrun;
      repeat (match type of Hrun with
              | context [ddb_fault ?a ?b] => destruct (ddb_fault a b)
              end; simpl in Hrun); try discriminate.
    by injection Hrun as <- <-. }
  destruct Hr as [-> ->]. clear Hrun.
  match type of Hps with
  | _ = variant_of ?a ?b ?f ?iw ?ih <$> _ =>
      destruct (variant_keys_distinct a b f iw ih) as [Hkeys Hsizes]
  end.
  rewrite <- Hps in Hkeys, Hsizes.
  split; [by rewrite Hps|]. split; [exact Hkeys|]. split; [exact Hsizes|].
  split; [exact Hputs|].
  intros key Hkey. rewrite Hps in Hkey.
  unfold Resize.RESIZE_DIMENSIONS in Hkey. cbn [fmap list_fmap] in Hkey.
  rewrite !elem_of_cons in Hkey.
  destruct Hkey as [->|[->|[->|Hnil]]]; [| | |by apply elem_of_nil in Hnil];
    unfold variant_of, Resize.output_key; cbn [Resize.pi_key];
    change ("resized/" +:+ actual +:+ "/") with ("resized/" +:+ (actual +:+ ("/" +:+ "")));
    rewrite !startswith_app_l; reflexivity.
Qed.

End ResizeKeys.

Lemma resize_variants_have_distinct_keys_witness :
  NoDup (put_Key <$> s3_puts (resize_main abc_event world0).2)
  ∧ length (s3_puts (resize_main abc_event world0).2) = 3%nat.
Proof.
  destruct (resize_main abc_event world0) as [[r|e] w'] eqn:Hrun;
    [|vm_compute in Hrun; discriminate].
  destruct (resize_variants_have_distinct_keys (Some "in") (Some "out") Fixture.isoformat
              Fixture.s3_object Fixture.no_put_fault Fixture.no_ddb_fault Fixture.image
              Fixture.Image_open Fixture.width Fixture.height Fixture.format Fixture.mode
              Fixture.im_resize Fixture.im_convert Fixture.paste_on_white Fixture.im_save
              abc_event world0 w' r Hrun) as (Hlen & Hkeys & _ & Hputs & _).
  cbn [snd]. simpl in Hputs. split.
  - by rewrite Hputs.
  - apply (f_equal length) in Hputs. rewrite !length_fmap in Hputs.
    rewrite length_fmap in Hlen. rewrite Hputs. exact Hlen.
Defined.

(** ** The orchestrator: a batch, and ids that are not strings *)

(** A delivered message the orchestrator can start a run for: an object
    with the five required fields, the two ids being strings. *)
Definition startable (json_loads : string → option json) (record : Orchestrator.sqs_record)
    (iid : string) : Prop :=
  ∃ fields uid,
    json_loads (Orchestrator.record_body record) = Some (JObj fields)
    ∧ assoc "image_id" fields = Some (JStr iid)
    ∧ assoc "user_id" fields = Some (JStr uid)
    ∧ is_Some (assoc "bucket_name" fields)
    ∧ is_Some (assoc "upload_timestamp" fields)
    ∧ is_Some (assoc "file_size" fields).

(** [image_id.encode()] needs a str, [user_id[:8]] a str or a list. *)
Definition usable_ids (image_id user_id : json) : bool :=
  match image_id, user_id with
  | JStr _, JStr _ | JStr _, JArr _ => true
  | _, _ => false
  end.

Section OrchestratorBatch.
Variable isoformat : nat → string.
Variable timestamp : nat → Z.
Variable json_loads : string → option json.
Variable json_dumps : json → string.
Variable py_repr : json → string.
Variable md5_hexdigest : string → string.
Variable sfn_response : world → execution → outcome string.
Variable ddb_fault : world → string → option exn.

Let process := Orchestrator.process_sqs_message isoformat timestamp json_loads json_dumps
                 py_repr md5_hexdigest sfn_response ddb_fault.
Let main := Orchestrator.main isoformat timestamp json_loads json_dumps
              py_repr md5_hexdigest sfn_response ddb_fault.

Lemma process_startable record iid w :
  startable json_loads record iid →
  (∀ w0 x, ∃ arn, sfn_response w0 x = Returned arn) →
  ∃ w' x sets,
    process record w = (Returned (), w')
    ∧ sfn_executions w' = sfn_executions w ++ [x]
    ∧ ddb_requests w' = ddb_requests w ++ [(iid, sets)]
    ∧ sqs_queue w' = sqs_queue w
    ∧ clock w' = (clock w + 3)%nat.
Proof.
  intros (fields & uid & Hbody & Hiid & Huid & [bucket Hbucket] & [ts Hts] & [size Hsize])
    Hengine.
  unfold process, Orchestrator.process_sqs_message, Orchestrator.subscript,
    Orchestrator.dict_get, Orchestrator.start_workflow, Orchestrator.slice8,
    Orchestrator.start_execution, Orchestrator.utcnow, Orchestrator.utcnow_timestamp.
  py_unfold. rewrite Hbody. cbv beta iota.
  rewrite Hiid, Hbucket, Huid, Hts, Hsize. py_unfold.
  cbn [assoc String.eqb Ascii.eqb Bool.eqb].
  cbv beta iota. cbn [Orchestrator.format_value clock tick].
  match goal with
  | |- context [sfn_response ?w0 ?x] => destruct (Hengine w0 x) as [arn ->]
  end.
  cbv beta iota.
  unfold Orchestrator.update_dynamodb_status, Orchestrator.update_item, Orchestrator.utcnow.
  py_unfold. cbn [clock tick started].
  destruct (ddb_fault _ iid); cbv beta iota; eexists _, _, _;
    (split; [reflexivity|]); (split; [reflexivity|]); (split; [reflexivity|]);
    (split; [reflexivity|]); cbn [clock tick started requested set_attrs]; lia.
Qed.

(** X28.  A batch of messages that each hold the five required fields
    with string ids, and a workflow engine that accepts every start: [main]
    returns status 200, one run was started per message, one update was
    sent per message, for the image ids in the order of the batch, whether
    or not the table took them; the clock was read three times per message
    and nothing was queued. *)
Theorem orchestrator_batch (records : list Orchestrator.sqs_record) (ids : list string)
    (w : world) :
  Forall2 (startable json_loads) records ids →
  (∀ w0 x, ∃ arn, sfn_response w0 x = Returned arn) →
  ∃ w',
    main records w
    = (Returned (response_200 json_dumps "SQS messages processed successfully"), w')
    ∧ length (sfn_executions w') = (length (sfn_executions w) + length records)%nat
    ∧ (ddb_requests w').*1 = (ddb_requests w).*1 ++ ids
    ∧ sqs_queue w' = sqs_queue w
    ∧ clock w' = (clock w + 3 * length records)%nat.
Proof.
  intros Hrecords Hengine.
  assert (Hloop : ∃ w',
             for_each records process w = (Returned (), w')
             ∧ length (sfn_executions w') = (length (sfn_executions w) + length records)%nat
             ∧ (ddb_requests w').*1 = (ddb_requests w).*1 ++ ids
             ∧ sqs_queue w' = sqs_queue w
             ∧ clock w' = (clock w + 3 * length records)%nat).
  { revert w. induction Hrecords as [|record iid records ids Hrecord _ IH]; intros w.
    - exists w. simpl. rewrite app_nil_r. repeat split; try done; lia.
    - destruct (process_startable record iid w Hrecord Hengine)
        as (w1 & x & sets & Hrun & Hexec & Hreq & Hqueue & Hclock).
      destruct (IH w1) as (w' & Hrest & Hexecs & Hreqs & Hqueues & Hclocks).
      exists w'. split; [simpl; py_unfold; by rewrite Hrun|].
      split; [rewrite Hexecs, Hexec, length_app; simpl; lia|].
      split; [rewrite Hreqs, Hreq, fmap_app; simpl; by rewrite <- app_assoc|].
      split; [congruence|]. rewrite Hclocks, Hclock. simpl. lia. }
  destruct Hloop as (w' & Hrun & Hrest). exists w'. split; [|exact Hrest].
  unfold main, Orchestrator.main. py_unfold. fold process. by rewrite Hrun.
Qed.

(** X29.  The two ids must be strings.  When the body holds the five
    required fields but [image_id] is not a string, or [user_id] is neither
    a string nor a list, the message fails before the workflow engine is
    called: [process_sqs_message] raises, no run is started, no update is
    sent, only the clock was read (twice), and a batch made of that message
    ends with status 500. *)
Theorem orchestrator_ids_must_be_strings (record : Orchestrator.sqs_record)
    (fields : list (string * json)) (image_id user_id bucket_name upload_timestamp
    file_size : json) (w : world) :
  json_loads (Orchestrator.record_body record) = Some (JObj fields) →
  assoc "image_id" fields = Some image_id →
  assoc "bucket_name" fields = Some bucket_name →
  assoc "user_id" fields = Some user_id →
  assoc "upload_timestamp" fields = Some upload_timestamp →
  assoc "file_size" fields = Some file_size →
  usable_ids image_id user_id = false →
  (∃ e, process record w = (Raised e, tick (tick w)))
  ∧ sfn_executions (tick (tick w)) = sfn_executions w
  ∧ ddb_requests (tick (tick w)) = ddb_requests w
  ∧ main [record] w = (Returned (response_500 json_dumps), tick (tick w)).
Proof.
  intros Hbody Hiid Hbucket Huid Hts Hsize Hids.
  assert (Hrun : ∃ e, process record w = (Raised e, tick (tick w))).
  { unfold process, Orchestrator.process_sqs_message, Orchestrator.subscript,
      Orchestrator.dict_get, Orchestrator.start_workflow, Orchestrator.slice8,
      Orchestrator.start_execution, Orchestrator.utcnow, Orchestrator.utcnow_timestamp.
    py_unfold. rewrite Hbody. cbv beta iota.
    rewrite Hiid, Hbucket, Huid, Hts, Hsize. py_unfold.
    cbn [assoc String.eqb Ascii.eqb Bool.eqb].
    cbv beta iota.
    destruct image_id, user_id; try discriminate Hids; by eexists. }
  split; [exact Hrun|]. split; [done|]. split; [done|].
  destruct Hrun as [e Hrun].
  unfold main, Orchestrator.main. py_unfold. fold process.
  by rewrite (for_each_raises_first _ _ _ _ e _ Hrun).
Qed.

End OrchestratorBatch.

Lemma orchestrator_batch_witness :
  ∃ w', orchestrator_main
          [delivery 1 (Fixture.json_dumps job_abc); delivery 2 (Fixture.json_dumps job_abc)]
          world0
        = (Returned (response_200 Fixture.json_dumps "SQS messages processed successfully"),
           w')
        ∧ length (sfn_executions w') = 2%nat
        ∧ (ddb_requests w').*1 = ["uploads/u1/abc.jpg"; "uploads/u1/abc.jpg"].
Proof.
  destruct (orchestrator_batch Fixture.isoformat Fixture.timestamp json_loads_abc
              Fixture.json_dumps Fixture.json_dumps Fixture.md5_hexdigest
              Fixture.sfn_response Fixture.no_ddb_fault
              [delivery 1 (Fixture.json_dumps job_abc); delivery 2 (Fixture.json_dumps job_abc)]
              ["uploads/u1/abc.jpg"; "uploads/u1/abc.jpg"] world0)
    as (w' & Hrun & Hexecs & Hreqs & _).
  - assert (Hone : ∀ n, startable json_loads_abc (delivery n (Fixture.json_dumps job_abc))
                          "uploads/u1/abc.jpg").
    { intros n. eexists _, "u1". split; [reflexivity|].
      split; [reflexivity|]. split; [reflexivity|]. repeat split; by eexists. }
    repeat constructor; apply Hone.
  - intros w0 x. by eexists.
  - exists w'. split; [exact Hrun|]. split; [exact Hexecs|exact Hreqs].
Defined.

(** A message whose user id is a number. *)
Definition job_numeric_user : json :=
  JObj [("image_id", JStr "uploads/7/abc.jpg"); ("bucket_name", JStr "in");
        ("user_id", JNum 7); ("upload_timestamp", JStr "2024-05-01T12:00:00");
        ("file_size", JNum 2000)].

Lemma orchestrator_ids_must_be_strings_witness :
  Orchestrator.main Fixture.isoformat Fixture.timestamp
    (Fixture.json_loads_of [job_numeric_user]) Fixture.json_dumps Fixture.json_dumps
    Fixture.md5_hexdigest Fixture.sfn_response Fixture.no_ddb_fault
    [delivery 1 (Fixture.json_dumps job_numeric_user)] world0
  = (Returned (response_500 Fixture.json_dumps), tick (tick world0)).
Proof.
  apply (orchestrator_ids_must_be_strings Fixture.isoformat Fixture.timestamp
           (Fixture.json_loads_of [job_numeric_user]) Fixture.json_dumps Fixture.json_dumps
           Fixture.md5_hexdigest Fixture.sfn_response Fixture.no_ddb_fault
           (delivery 1 (Fixture.json_dumps job_numeric_user))
           [("image_id", JStr "uploads/7/abc.jpg"); ("bucket_name", JStr "in");
            ("user_id", JNum 7); ("upload_timestamp", JStr "2024-05-01T12:00:00");
            ("file_size", JNum 2000)]
           (JStr "uploads/7/abc.jpg") (JNum 7) (JStr "in") (JStr "2024-05-01T12:00:00")
           (JNum 2000) world0); reflexivity.
Defined.
